(** * KeyCRM node: a shallow embedding of the request-building engine

    The TypeScript source (the [KeycrmApi] credential and the [Keycrm] node)
    is rendered as pure Rocq functions.  Host-language primitives live in
    module [Js]; the repository's own functions follow under their source
    names; the statements proved about them come last. *)

From Stdlib Require Import ZArith List Bool Ascii String Lia.
From Stdlib Require Import DecimalString.
Import ListNotations.

Set Warnings "-register-all".

Local Open Scope string_scope.
Local Open Scope Z_scope.

(* ===================================================================== *)
(** * Host language primitives *)
(* ===================================================================== *)

Module Js.

(** ** Characters and strings

    Strings are byte strings.  The character classes below are the ASCII
    parts of the ECMAScript ones; text outside ASCII is carried through
    unchanged by every function here. *)

Definition code (c : ascii) : nat := nat_of_ascii c.

Definition isDigit (c : ascii) : bool :=
  (Nat.leb 48 (code c) && Nat.leb (code c) 57)%bool.

Definition isUpper (c : ascii) : bool :=
  (Nat.leb 65 (code c) && Nat.leb (code c) 90)%bool.

Definition isLower (c : ascii) : bool :=
  (Nat.leb 97 (code c) && Nat.leb (code c) 122)%bool.

(** The class [[a-zA-Z0-9]]. *)
Definition isAlnum (c : ascii) : bool :=
  (isDigit c || isUpper c || isLower c)%bool.

(** White space and line terminators: TAB, LF, VT, FF, CR, SP. *)
Definition isSpace (c : ascii) : bool :=
  ((Nat.leb 9 (code c) && Nat.leb (code c) 13) || Nat.eqb (code c) 32)%bool.

Definition lowerChar (c : ascii) : ascii :=
  if isUpper c then ascii_of_nat (code c + 32) else c.

Fixpoint toLowerCase (s : string) : string :=
  match s with
  | EmptyString => EmptyString
  | String c r => String (lowerChar c) (toLowerCase r)
  end.

Fixpoint trimStart (s : string) : string :=
  match s with
  | EmptyString => EmptyString
  | String c r => if isSpace c then trimStart r else s
  end.

(** [trimEnd] keeps a character when it is not a space or when something
    survives to its right. *)
Fixpoint trimEnd (s : string) : string :=
  match s with
  | EmptyString => EmptyString
  | String c r =>
      match trimEnd r with
      | EmptyString => if isSpace c then EmptyString else String c EmptyString
      | r' => String c r'
      end
  end.

Definition trim (s : string) : string := trimEnd (trimStart s).

(** [String.prototype.startsWith]. *)
Fixpoint startsWith (s p : string) {struct p} : bool :=
  match p, s with
  | EmptyString, _ => true
  | String a p', String b s' => (Ascii.eqb a b && startsWith s' p')%bool
  | String _ _, EmptyString => false
  end.

Fixpoint drop (n : nat) (s : string) : string :=
  match n, s with
  | O, _ => s
  | S _, EmptyString => EmptyString
  | S k, String _ r => drop k r
  end.

(** [String.prototype.includes]. *)
Fixpoint includes (s p : string) : bool :=
  if startsWith s p then true
  else match s with
       | EmptyString => false
       | String _ r => includes r p
       end.

Fixpoint repeatChar (c : ascii) (n : nat) : string :=
  match n with
  | O => EmptyString
  | S k => String c (repeatChar c k)
  end.

(** [String.prototype.padStart] with a one-character filler. *)
Definition padStart (s : string) (width : nat) (c : ascii) : string :=
  repeatChar c (width - String.length s) ++ s.

Fixpoint joinWith (sep : string) (l : list string) : string :=
  match l with
  | [] => EmptyString
  | [x] => x
  | x :: r => x ++ sep ++ joinWith sep r
  end.

(** The double-quote character, used in error messages. *)
Definition dq : string := String (ascii_of_nat 34) EmptyString.

Definition quoted (s : string) : string := dq ++ s ++ dq.

(** ** Numbers

    A Number is NaN, an infinity, or a finite decimal [m * 10^e].  Every
    operation the engine performs on numbers (parsing decimal text,
    truncation, comparison, printing) is exact on this representation;
    binary rounding of IEEE doubles is not modelled. *)

Inductive Num : Type :=
| NaN : Num
| Inf (negative : bool) : Num
| Dec (m e : Z) : Num.

Definition ofZ (z : Z) : Num := Dec z 0.
Definition ofNat (n : nat) : Num := Dec (Z.of_nat n) 0.

Definition isNaN (x : Num) : bool :=
  match x with NaN => true | _ => false end.

(** Both mantissas brought to the smaller exponent. *)
Definition align (m1 e1 m2 e2 : Z) : Z * Z :=
  let e := Z.min e1 e2 in
  (m1 * 10 ^ (e1 - e), m2 * 10 ^ (e2 - e)).

(** [x < y]; false as soon as one side is NaN. *)
Definition lt (x y : Num) : bool :=
  match x, y with
  | NaN, _ | _, NaN => false
  | Inf true, Inf true => false
  | Inf true, _ => true
  | _, Inf true => false
  | Inf false, _ => false
  | _, Inf false => true
  | Dec m1 e1, Dec m2 e2 => let (a, b) := align m1 e1 m2 e2 in Z.ltb a b
  end.

(** [x === y] on numbers. *)
Definition eqb (x y : Num) : bool :=
  match x, y with
  | NaN, _ | _, NaN => false
  | Inf a, Inf b => Bool.eqb a b
  | Dec m1 e1, Dec m2 e2 => let (a, b) := align m1 e1 m2 e2 in Z.eqb a b
  | _, _ => false
  end.

Definition gt (x y : Num) : bool := lt y x.

(** [x >= y]. *)
Definition ge (x y : Num) : bool := (gt x y || eqb x y)%bool.

(** [Math.trunc]. *)
Definition trunc (x : Num) : Num :=
  match x with
  | Dec m e => if Z.leb 0 e then Dec (m * 10 ^ e) 0 else Dec (Z.quot m (10 ^ (- e))) 0
  | _ => x
  end.

(** *** Text to number ([StringToNumber]) *)

Definition digitVal (c : ascii) : Z := Z.of_nat (code c - 48).

Fixpoint spanDigits (s : string) : string * string :=
  match s with
  | String c r =>
      if isDigit c then let (d, rest) := spanDigits r in (String c d, rest)
      else (EmptyString, s)
  | EmptyString => (EmptyString, EmptyString)
  end.

Fixpoint digitsValueFrom (acc : Z) (s : string) : Z :=
  match s with
  | EmptyString => acc
  | String c r => digitsValueFrom (acc * 10 + digitVal c) r
  end.

Definition digitsValue (s : string) : Z := digitsValueFrom 0 s.

(** Digit of a radix-16 (or smaller) literal. *)
Definition radixDigit (c : ascii) : option Z :=
  if isDigit c then Some (digitVal c)
  else if (Nat.leb 97 (code c) && Nat.leb (code c) 102)%bool then Some (Z.of_nat (code c - 87))
  else if (Nat.leb 65 (code c) && Nat.leb (code c) 70)%bool then Some (Z.of_nat (code c - 55))
  else None.

Fixpoint radixValueFrom (radix acc : Z) (s : string) : option Z :=
  match s with
  | EmptyString => Some acc
  | String c r =>
      match radixDigit c with
      | Some d => if Z.ltb d radix then radixValueFrom radix (acc * radix + d) r else None
      | None => None
      end
  end.

(** Optional exponent part: [e], an optional sign, at least one digit, and
    nothing after. *)
Definition parseExponent (s : string) : option Z :=
  match s with
  | EmptyString => Some 0
  | String c r =>
      if (Ascii.eqb c "e" || Ascii.eqb c "E")%bool then
        let '(neg, body) :=
          match r with
          | String "-" b => (true, b)
          | String "+" b => (false, b)
          | _ => (false, r)
          end in
        let (d, rest) := spanDigits body in
        match d, rest with
        | EmptyString, _ => None
        | _, EmptyString => Some (if neg then - digitsValue d else digitsValue d)
        | _, _ => None
        end
      else None
  end.

(** Unsigned decimal literal: digits, optional fraction, optional exponent. *)
Definition parseUnsignedDecimal (s : string) : option (Z * Z) :=
  let (ip, r1) := spanDigits s in
  let (fp, r2) :=
    match r1 with
    | String "." r => spanDigits r
    | _ => (EmptyString, r1)
    end in
  match (ip ++ fp)%string with
  | EmptyString => None
  | ds =>
      match parseExponent r2 with
      | Some x => Some (digitsValue ds, x - Z.of_nat (String.length fp))
      | None => None
      end
  end.

Definition parseSignedDecimal (s : string) : Num :=
  let '(neg, body) :=
    match s with
    | String "-" b => (true, b)
    | String "+" b => (false, b)
    | _ => (false, s)
    end in
  if String.eqb body "Infinity" then Inf neg
  else match parseUnsignedDecimal body with
       | Some (m, e) => Dec (if neg then - m else m) e
       | None => NaN
       end.

Definition parseRadix (radix : Z) (digits : string) : Num :=
  match digits with
  | EmptyString => NaN
  | _ => match radixValueFrom radix 0 digits with
         | Some v => Dec v 0
         | None => NaN
         end
  end.

(** [Number(s)] for a string [s]. *)
Definition parseNumber (s : string) : Num :=
  match trim s with
  | EmptyString => Dec 0 0
  | String "0" (String c r) as t =>
      if (Ascii.eqb c "x" || Ascii.eqb c "X")%bool then parseRadix 16 r
      else if (Ascii.eqb c "o" || Ascii.eqb c "O")%bool then parseRadix 8 r
      else if (Ascii.eqb c "b" || Ascii.eqb c "B")%bool then parseRadix 2 r
      else parseSignedDecimal t
  | t => parseSignedDecimal t
  end.

(** *** Number to text ([Number::toString], radix 10) *)

Definition natToString (n : nat) : string :=
  NilZero.string_of_uint (Nat.to_uint n).

Definition posZToString (z : Z) : string :=
  NilZero.string_of_uint (N.to_uint (Z.to_N z)).

(** Trailing zeros removed from a digit string, with their count. *)
Fixpoint stripZeros (s : string) : string * nat :=
  match s with
  | EmptyString => (EmptyString, O)
  | String c r =>
      match stripZeros r with
      | (EmptyString, k) =>
          if Ascii.eqb c "0" then (EmptyString, S k) else (String c EmptyString, k)
      | (r', k) => (String c r', k)
      end
  end.

Fixpoint take (n : nat) (s : string) : string :=
  match n, s with
  | O, _ => EmptyString
  | S _, EmptyString => EmptyString
  | S k, String c r => String c (take k r)
  end.

(** Digits [ds] (no trailing zero, [k] of them) of a positive number whose
    decimal point sits [n] places after the first digit's left edge. *)
Definition layoutDigits (ds : string) (n : Z) : string :=
  let k := Z.of_nat (String.length ds) in
  if (Z.leb k n && Z.leb n 21)%bool then
    ds ++ repeatChar "0" (Z.to_nat (n - k))
  else if (Z.ltb 0 n && Z.leb n 21)%bool then
    take (Z.to_nat n) ds ++ "." ++ drop (Z.to_nat n) ds
  else if (Z.ltb (-6) n && Z.leb n 0)%bool then
    "0." ++ repeatChar "0" (Z.to_nat (- n)) ++ ds
  else
    let x := n - 1 in
    let sign := if Z.ltb x 0 then "-" else "+" in
    let mant := match ds with
                | String c EmptyString => ds
                | _ => take 1 ds ++ "." ++ drop 1 ds
                end in
    mant ++ "e" ++ sign ++ posZToString (Z.abs x).

Definition numToString (x : Num) : string :=
  match x with
  | NaN => "NaN"
  | Inf false => "Infinity"
  | Inf true => "-Infinity"
  | Dec m e =>
      if Z.eqb m 0 then "0"
      else
        let (ds, z) := stripZeros (posZToString (Z.abs m)) in
        let body := layoutDigits ds (Z.of_nat (String.length ds) + Z.of_nat z + e) in
        if Z.ltb m 0 then "-" ++ body else body
  end.

(** *** [String.prototype.replace] with a string pattern *)

(** The text before and after the first occurrence of [pat]. *)
Fixpoint splitAtFirst (pat s : string) : option (string * string) :=
  if startsWith s pat then Some (EmptyString, drop (String.length pat) s)
  else match s with
       | EmptyString => None
       | String c r =>
           match splitAtFirst pat r with
           | Some (before, after) => Some (String c before, after)
           | None => None
           end
       end.

(** [GetSubstitution] for a match without capture groups: the dollar
    patterns of the replacement text are expanded. *)
Fixpoint getSubstitution (matched before after rep : string) : string :=
  match rep with
  | EmptyString => EmptyString
  | String "$" (String c r as rest) =>
      if Ascii.eqb c "$" then String "$" (getSubstitution matched before after r)
      else if Ascii.eqb c "&" then matched ++ getSubstitution matched before after r
      else if Ascii.eqb c "`" then before ++ getSubstitution matched before after r
      else if Ascii.eqb c "'" then after ++ getSubstitution matched before after r
      else String "$" (getSubstitution matched before after rest)
  | String c r => String c (getSubstitution matched before after r)
  end.

Definition replace (s pat rep : string) : string :=
  match splitAtFirst pat s with
  | Some (before, after) => before ++ getSubstitution pat before after rep ++ after
  | None => s
  end.

(** *** [encodeURIComponent] *)

Definition hexDigit (n : nat) : ascii :=
  if Nat.ltb n 10 then ascii_of_nat (48 + n) else ascii_of_nat (55 + n).

(** Characters left as they are: letters, digits and [-_.!~*'()]. *)
Definition isUriUnreserved (c : ascii) : bool :=
  (isAlnum c
   || Ascii.eqb c "-" || Ascii.eqb c "_" || Ascii.eqb c "." || Ascii.eqb c "!"
   || Ascii.eqb c "~" || Ascii.eqb c "*" || Ascii.eqb c "'" || Ascii.eqb c "("
   || Ascii.eqb c ")")%bool.

Fixpoint encodeURIComponent (s : string) : string :=
  match s with
  | EmptyString => EmptyString
  | String c r =>
      if isUriUnreserved c then String c (encodeURIComponent r)
      else String "%" (String (hexDigit (Nat.div (code c) 16))
                         (String (hexDigit (Nat.modulo (code c) 16)) (encodeURIComponent r)))
  end.

(** ** Dates

    A valid [Date] holds a time value: milliseconds since 1970-01-01T00:00Z. *)

Definition msPerDay : Z := 86400000.

(** Days since the epoch of a proleptic Gregorian date. *)
Definition daysFromCivil (y m d : Z) : Z :=
  let y' := if Z.leb m 2 then y - 1 else y in
  let era := y' / 400 in
  let yoe := y' - era * 400 in
  let mp := if Z.ltb 2 m then m - 3 else m + 9 in
  let doy := (153 * mp + 2) / 5 + d - 1 in
  let doe := yoe * 365 + yoe / 4 - yoe / 100 + doy in
  era * 146097 + doe - 719468.

(** Year, month (1-12) and day of month of a day number. *)
Definition civilFromDays (days : Z) : Z * Z * Z :=
  let z := days + 719468 in
  let era := z / 146097 in
  let doe := z - era * 146097 in
  let yoe := (doe - doe / 1460 + doe / 36524 - doe / 146096) / 365 in
  let doy := doe - (365 * yoe + yoe / 4 - yoe / 100) in
  let mp := (5 * doy + 2) / 153 in
  let d := doy - (153 * mp + 2) / 5 + 1 in
  let m := if Z.ltb mp 10 then mp + 3 else mp - 9 in
  ((if Z.leb m 2 then yoe + era * 400 + 1 else yoe + era * 400), m, d).

Definition getUTCFullYear (t : Z) : Z := fst (fst (civilFromDays (t / msPerDay))).
(** Zero-based, as in the host. *)
Definition getUTCMonth (t : Z) : Z := snd (fst (civilFromDays (t / msPerDay))) - 1.
Definition getUTCDate (t : Z) : Z := snd (civilFromDays (t / msPerDay)).
Definition getUTCHours (t : Z) : Z := (t mod msPerDay) / 3600000.
Definition getUTCMinutes (t : Z) : Z := ((t mod msPerDay) / 60000) mod 60.
Definition getUTCSeconds (t : Z) : Z := ((t mod msPerDay) / 1000) mod 60.

Definition isLeapYear (y : Z) : bool :=
  (Z.eqb (y mod 4) 0 && (negb (Z.eqb (y mod 100) 0) || Z.eqb (y mod 400) 0))%bool.

Definition daysInMonth (y m : Z) : Z :=
  if Z.eqb m 2 then (if isLeapYear y then 29 else 28)
  else if (Z.eqb m 4 || Z.eqb m 6 || Z.eqb m 9 || Z.eqb m 11)%bool then 30
  else 31.

Definition allDigits (s : string) : bool :=
  match spanDigits s with
  | (_, EmptyString) => true
  | _ => false
  end.

(** The date-only form [YYYY-MM-DD] of the ECMAScript date-time format: a
    calendar date, read as midnight UTC. *)
Definition parseDateOnly (s : string) : option Z :=
  let ys := take 4 s in
  let ms := take 2 (drop 5 s) in
  let ds := take 2 (drop 8 s) in
  let y := digitsValue ys in
  let m := digitsValue ms in
  let d := digitsValue ds in
  if (Nat.eqb (String.length s) 10
      && String.eqb (take 1 (drop 4 s)) "-" && String.eqb (take 1 (drop 7 s)) "-"
      && allDigits ys && allDigits ms && allDigits ds
      && Z.leb 1 m && Z.leb m 12 && Z.leb 1 d && Z.leb d (daysInMonth y m))%bool
  then Some (daysFromCivil y m d * msPerDay)
  else None.

End Js.

(* ===================================================================== *)
(** * Values, objects and errors *)
(* ===================================================================== *)

(** A JSON-like host value.  An object is its list of own entries in
    insertion order (the host lists integer-like keys first; no statement
    below depends on the order of such keys). *)
Inductive JsVal : Type :=
| VUndef : JsVal
| VNull : JsVal
| VBool (b : bool) : JsVal
| VNum (n : Js.Num) : JsVal
| VStr (s : string) : JsVal
| VArr (items : list JsVal) : JsVal
| VObj (entries : list (string * JsVal)) : JsVal.

Definition IDataObject : Type := list (string * JsVal).

(** [key in obj] / [obj[key]] on own entries. *)
Fixpoint lookup (key : string) (obj : IDataObject) : option JsVal :=
  match obj with
  | [] => None
  | (k, v) :: r => if String.eqb k key then Some v else lookup key r
  end.

Definition hasKey (key : string) (obj : IDataObject) : bool :=
  match lookup key obj with Some _ => true | None => false end.

(** [obj[key]]: a missing entry reads as [undefined]. *)
Definition getProp (key : string) (obj : IDataObject) : JsVal :=
  match lookup key obj with Some v => v | None => VUndef end.

(** [obj[key] = v]: overwrite in place, or append a new entry. *)
Fixpoint setProp (key : string) (v : JsVal) (obj : IDataObject) : IDataObject :=
  match obj with
  | [] => [(key, v)]
  | (k, w) :: r => if String.eqb k key then (k, v) :: r else (k, w) :: setProp key v r
  end.

(** [{...a, ...b}]. *)
Definition spread (a b : IDataObject) : IDataObject :=
  fold_left (fun acc kv => setProp (fst kv) (snd kv) acc) b a.

(** [String(v)]. *)
Fixpoint toStr (v : JsVal) : string :=
  match v with
  | VUndef => "undefined"
  | VNull => "null"
  | VBool true => "true"
  | VBool false => "false"
  | VNum n => Js.numToString n
  | VStr s => s
  | VArr items =>
      (fix join (l : list JsVal) : string :=
         match l with
         | [] => EmptyString
         | x :: r =>
             let sx := match x with
                       | VUndef | VNull => EmptyString
                       | _ => toStr x
                       end in
             match r with
             | [] => sx
             | _ => sx ++ "," ++ join r
             end
         end) items
  | VObj _ => "[object Object]"
  end.

(** [Number(v)]. *)
Definition toNumber (v : JsVal) : Js.Num :=
  match v with
  | VUndef => Js.NaN
  | VNull => Js.Dec 0 0
  | VBool true => Js.Dec 1 0
  | VBool false => Js.Dec 0 0
  | VNum n => n
  | VStr s => Js.parseNumber s
  | VArr _ => Js.parseNumber (toStr v)
  | VObj _ => Js.NaN
  end.

(** [Boolean(v)]. *)
Definition toBoolean (v : JsVal) : bool :=
  match v with
  | VUndef | VNull => false
  | VBool b => b
  | VNum Js.NaN => false
  | VNum (Js.Inf _) => true
  | VNum (Js.Dec m _) => negb (Z.eqb m 0)
  | VStr s => negb (String.eqb s EmptyString)
  | VArr _ | VObj _ => true
  end.

Definition isUndefined (v : JsVal) : bool :=
  match v with VUndef => true | _ => false end.

(** Errors raised while one input item is processed. *)
Inductive JsError : Type :=
| NodeOperationError (message : string) (itemIndex : nat)
| ApplicationError (message : string)
| HostError (message : string).

Definition errorMessage (e : JsError) : string :=
  match e with
  | NodeOperationError m _ => m
  | ApplicationError m => m
  | HostError m => m
  end.

(** A computation that returns or throws. *)
Inductive Result (A : Type) : Type :=
| Ok (value : A)
| Throw (error : JsError).

Arguments Ok {A} value.
Arguments Throw {A} error.

Definition bind {A B : Type} (r : Result A) (k : A -> Result B) : Result B :=
  match r with
  | Ok a => k a
  | Throw e => Throw e
  end.

Notation "x <- r ;; k" := (bind r (fun x => k))
  (at level 61, r at next level, right associativity).

(* ===================================================================== *)
(** * Metadata model *)
(* ===================================================================== *)

Inductive PrimitiveSchemaType : Type :=
| TString | TNumber | TInteger | TBoolean.

Inductive QueryFilterFieldType : Type :=
| FString | FNumber | FInteger | FBoolean | FBetweenDateTime.

Record IUiOption : Type := {
  optionName : string;
  optionValue : string
}.

Record IPathUiField : Type := {
  pathName : string;
  pathApiPath : string;
  pathLabel : string;
  pathRequired : bool
}.

(** [maximum], [defaultValue] and [example] are optional in the source; an
    absent one is [VUndef]. *)
Record IQuerySimpleField : Type := {
  simpleName : string;
  simpleApiPath : string;
  simpleLabel : string;
  simpleRequired : bool;
  simpleSchemaType : PrimitiveSchemaType;
  simpleFormat : option string;
  simpleEnumValues : list string;
  simpleMaximum : JsVal;
  simpleDefault : JsVal;
  simpleExample : JsVal
}.

Record IQuerySelectField : Type := {
  selectName : string;
  selectLabel : string;
  selectOptions : list IUiOption
}.

Record IQueryFilterField : Type := {
  filterName : string;
  filterLabel : string;
  filterFieldType : QueryFilterFieldType
}.

Record IQueryUi : Type := {
  simple : list IQuerySimpleField;
  include : option IQuerySelectField;
  sort : option IQuerySelectField;
  filters : list IQueryFilterField
}.

(** What the three body-field variants share. *)
Record BodyFieldHead : Type := {
  apiKey : string;
  apiPath : string;
  label : string;
  required : bool;
  nullable : bool
}.

Record PrimitiveInfo : Type := {
  schemaType : PrimitiveSchemaType;
  format : option string;
  enumValues : list string
}.

Inductive IBodyField : Type :=
| BodyPrimitive (head : BodyFieldHead) (info : PrimitiveInfo)
| BodyObject (head : BodyFieldHead) (children : list IBodyField)
| BodyArray (head : BodyFieldHead) (itemField : IBodyField).

Definition fieldHead (f : IBodyField) : BodyFieldHead :=
  match f with
  | BodyPrimitive h _ => h
  | BodyObject h _ => h
  | BodyArray h _ => h
  end.

Record IBodyUi : Type := {
  contentType : string;
  binaryProperty : option string;
  requiredFields : list IBodyField;
  optionalFields : list IBodyField
}.

Record IOperationMeta : Type := {
  operationValue : string;
  operationId : string;
  operationLabel : string;
  method : string;
  path : string;
  pathUi : list IPathUiField;
  queryUi : IQueryUi;
  bodyUi : option IBodyUi
}.

Record IResourceMeta : Type := {
  resourceValue : string;
  resourceLabel : string;
  operations : list IOperationMeta
}.

(* ===================================================================== *)
(** * Naming engine *)
(* ===================================================================== *)

(** [value.replace(/[^a-zA-Z0-9]+/g, '__')]: [inRun] tells that the previous
    character already belonged to the run being replaced. *)
Fixpoint replaceSymbolRuns (inRun : bool) (s : string) : string :=
  match s with
  | EmptyString => EmptyString
  | String c r =>
      if Js.isAlnum c then String c (replaceSymbolRuns false r)
      else if inRun then replaceSymbolRuns true r
      else String "_" (String "_" (replaceSymbolRuns true r))
  end.

Fixpoint stripLeadingUnderscores (s : string) : string :=
  match s with
  | String "_" r => stripLeadingUnderscores r
  | _ => s
  end.

Fixpoint stripTrailingUnderscores (s : string) : string :=
  match s with
  | EmptyString => EmptyString
  | String c r =>
      match stripTrailingUnderscores r with
      | EmptyString => if Ascii.eqb c "_" then EmptyString else String c EmptyString
      | r' => String c r'
      end
  end.

(** [.replace(/^_+|_+$/g, '')]. *)
Definition stripUnderscores (s : string) : string :=
  stripTrailingUnderscores (stripLeadingUnderscores s).

Definition sanitizeParamToken (value : string) : string :=
  let sanitized := Js.toLowerCase (stripUnderscores (replaceSymbolRuns false value)) in
  match sanitized with
  | EmptyString => "value"
  | _ => sanitized
  end.

(** [a || b] on strings. *)
Definition orElse (a b : string) : string :=
  match a with EmptyString => b | _ => a end.

Definition operationToken (operation : IOperationMeta) : string :=
  sanitizeParamToken (operationId operation).

Definition pathParamName (operation : IOperationMeta) (field : IPathUiField) : string :=
  "path__" ++ operationToken operation ++ "__"
    ++ sanitizeParamToken (orElse (pathApiPath field) (pathName field)).

Definition querySimpleParamName (operation : IOperationMeta) (field : IQuerySimpleField) : string :=
  "query__" ++ operationToken operation ++ "__"
    ++ sanitizeParamToken (orElse (simpleApiPath field) (simpleName field)).

Definition queryIncludeParamName (operation : IOperationMeta) : string :=
  "query__" ++ operationToken operation ++ "__include".

Definition querySortParamName (operation : IOperationMeta) : string :=
  "query__" ++ operationToken operation ++ "__sort".

Definition queryGetAllParamName (operation : IOperationMeta) : string :=
  "query__" ++ operationToken operation ++ "__get_all".

Definition queryOptionsCollectionParamName (operation : IOperationMeta) : string :=
  "query__" ++ operationToken operation ++ "__options".

Definition queryPageOptionParamName (operation : IOperationMeta) : string :=
  "query__" ++ operationToken operation ++ "__options__page".

Definition queryCustomFieldsFilterParamName (operation : IOperationMeta) : string :=
  "query__" ++ operationToken operation ++ "__filter__custom_fields".

Definition queryFilterCollectionParamName (operation : IOperationMeta) : string :=
  "query__" ++ operationToken operation ++ "__filter".

Definition queryFilterFieldParamName (operation : IOperationMeta) (field : IQueryFilterField) : string :=
  "query__" ++ operationToken operation ++ "__filter__" ++ sanitizeParamToken (filterName field).

Definition queryFilterFromParamName (operation : IOperationMeta) (field : IQueryFilterField) : string :=
  queryFilterFieldParamName operation field ++ "__from".

Definition queryFilterToParamName (operation : IOperationMeta) (field : IQueryFilterField) : string :=
  queryFilterFieldParamName operation field ++ "__to".

Definition bodyFieldParamName (operation : IOperationMeta) (field : IBodyField) : string :=
  "body__" ++ operationToken operation ++ "__"
    ++ sanitizeParamToken (orElse (apiPath (fieldHead field)) (apiKey (fieldHead field))).

Definition bodyOptionalCollectionParamName (operation : IOperationMeta) : string :=
  "body__" ++ operationToken operation ++ "__optional".

Definition bodyBinaryPropertyParamName (operation : IOperationMeta) : string :=
  "body__" ++ operationToken operation ++ "__binary_property".

(* ===================================================================== *)
(** * Credential: the Authorization header *)
(* ===================================================================== *)

(** The expression of [KeycrmApi.authenticate]; [&&] binds tighter than
    the conditional, and an empty token is falsy. *)
Definition authorizationHeader (apiToken : string) : string :=
  if (negb (String.eqb apiToken EmptyString)
      && Js.startsWith (Js.toLowerCase (Js.trim apiToken)) "bearer ")%bool
  then Js.trim apiToken
  else "Bearer " ++ Js.trim apiToken.

(* ===================================================================== *)
(** * Value normalizer *)
(* ===================================================================== *)

Definition isObject (value : JsVal) : bool :=
  match value with VObj _ => true | _ => false end.

Definition isEmptyValue (value : JsVal) : bool :=
  match value with
  | VUndef | VNull => true
  | VStr s => String.eqb (Js.trim s) EmptyString
  | VArr items => Nat.eqb (List.length items) 0
  | VObj entries => Nat.eqb (List.length entries) 0
  | _ => false
  end.

Definition padDatePart (value : Z) : string :=
  Js.padStart (Js.numToString (Js.ofZ value)) 2 "0".

Section Dates.

(** [new Date(text).getTime()], [None] for an invalid date.  Outside the
    ECMAScript date-time format the host decides, so the parser is a
    parameter of whatever formats dates. *)
Variable dateParse : string -> option Z.

Definition toKeycrmUtcDateTime (value : string) : Result string :=
  match dateParse value with
  | None => Throw (ApplicationError ("Invalid date value: " ++ value))
  | Some parsed =>
      Ok (Js.numToString (Js.ofZ (Js.getUTCFullYear parsed)) ++ "-"
          ++ padDatePart (Js.getUTCMonth parsed + 1) ++ "-"
          ++ padDatePart (Js.getUTCDate parsed) ++ " "
          ++ padDatePart (Js.getUTCHours parsed) ++ ":"
          ++ padDatePart (Js.getUTCMinutes parsed) ++ ":"
          ++ padDatePart (Js.getUTCSeconds parsed))
  end.

End Dates.

Definition isNumericType (t : PrimitiveSchemaType) : bool :=
  match t with TNumber | TInteger => true | _ => false end.

(** [undefined] (here [VUndef]) tells the caller to omit the field. *)
Definition normalizePrimitiveValue (head : BodyFieldHead) (info : PrimitiveInfo)
    (value : JsVal) : JsVal :=
  match schemaType info with
  | TNumber | TInteger =>
      if isEmptyValue value then VUndef
      else
        let parsed := toNumber value in
        if Js.isNaN parsed then VUndef
        else match schemaType info with
             | TInteger => VNum (Js.trunc parsed)
             | _ => VNum parsed
             end
  | TBoolean =>
      match value with
      | VBool _ => value
      | VStr s =>
          let lowered := Js.toLowerCase (Js.trim s) in
          if String.eqb lowered "true" then VBool true
          else if String.eqb lowered "false" then VBool false
          else VUndef
      | _ => VUndef
      end
  | TString =>
      match value with
      | VNull | VUndef => VUndef
      | _ =>
          let stringValue := toStr value in
          if (negb (nullable head) && String.eqb (Js.trim stringValue) EmptyString)%bool
          then VUndef
          else VStr stringValue
      end
  end.

Definition normalizeSimpleQueryValue (field : IQuerySimpleField) (value : JsVal) : JsVal :=
  match simpleSchemaType field with
  | TNumber | TInteger =>
      let parsed := toNumber value in
      if Js.isNaN parsed then VUndef
      else match simpleSchemaType field with
           | TInteger => VNum (Js.trunc parsed)
           | _ => VNum parsed
           end
  | TBoolean => VBool (toBoolean value)
  | TString => VStr (toStr value)
  end.

Definition shouldIncludeSimpleQueryValue (field : IQuerySimpleField) (value : JsVal) : bool :=
  if simpleRequired field then true
  else if isEmptyValue value then false
  else if (isNumericType (simpleSchemaType field)
           && Js.eqb (toNumber value) (Js.Dec 0 0))%bool
  then negb (isUndefined (simpleDefault field))
  else if (match simpleSchemaType field with TBoolean => true | _ => false end
           && match value with VBool false => true | _ => false end)%bool
  then negb (isUndefined (simpleDefault field))
  else true.

(* ===================================================================== *)
(** * Pagination helpers *)
(* ===================================================================== *)

Definition toDataObjectArray (values : list JsVal) : list JsVal :=
  map (fun value => if isObject value then value else VObj [("value", value)]) values.

Definition extractPaginatedItems (response : JsVal) : list JsVal :=
  match response with
  | VArr items => toDataObjectArray items
  | VObj entries =>
      match getProp "data" entries with
      | VArr data => toDataObjectArray data
      | _ =>
          match getProp "items" entries with
          | VArr items => toDataObjectArray items
          | _ => []
          end
      end
  | _ => []
  end.

(** The page counter and the item count are natural numbers; the page size
    is whatever [resolvePageSize] returned. *)
Definition hasMorePaginatedItems (response : JsVal) (page : nat) (pageSize : Js.Num)
    (itemsCount : nat) : bool :=
  let fallback :=
    (Js.ge (Js.ofNat itemsCount) pageSize && Js.lt (Js.ofNat page) (Js.ofZ 1000))%bool in
  match response with
  | VObj entries =>
      let currentPage := toNumber (getProp "current_page" entries) in
      let lastPage := toNumber (getProp "last_page" entries) in
      if (negb (Js.isNaN currentPage) && negb (Js.isNaN lastPage)
          && Js.gt lastPage (Js.Dec 0 0))%bool
      then Js.lt currentPage lastPage
      else
        let metaPage := toNumber (getProp "page" entries) in
        let metaLastPage := toNumber (getProp "last_page" entries) in
        if (negb (Js.isNaN metaPage) && negb (Js.isNaN metaLastPage)
            && Js.gt metaLastPage (Js.Dec 0 0))%bool
        then Js.lt metaPage metaLastPage
        else if negb (isUndefined (getProp "next_page_url" entries))
        then toBoolean (getProp "next_page_url" entries)
        else
          match getProp "links" entries with
          | VObj links =>
              if negb (isUndefined (getProp "next" links))
              then toBoolean (getProp "next" links)
              else fallback
          | _ => fallback
          end
  | _ => fallback
  end.

(** The [for] loop of [resolvePageSize] over its candidates. *)
Fixpoint firstPositive (candidates : list JsVal) : option Js.Num :=
  match candidates with
  | [] => None
  | candidate :: rest =>
      let parsed := toNumber candidate in
      if (negb (Js.isNaN parsed) && Js.gt parsed (Js.Dec 0 0))%bool
      then Some (Js.trunc parsed)
      else firstPositive rest
  end.

Definition resolvePageSize (limitField : IQuerySimpleField) : Js.Num :=
  match firstPositive
          [simpleMaximum limitField; simpleDefault limitField; simpleExample limitField] with
  | Some size => size
  | None => Js.Dec 50 0
  end.

(* ===================================================================== *)
(** * Response normalization *)
(* ===================================================================== *)

(** An output record is an object with a [json] entry and, for error
    records, a [pairedItem] entry. *)
Definition INodeExecutionData : Type := JsVal.

(** The host helper [returnJsonArray]: one record per element; an element
    that already carries a truthy [json] entry is kept, any other is
    wrapped. *)
Definition returnJsonArray (jsonData : list JsVal) : list INodeExecutionData :=
  map (fun data =>
         match data with
         | VObj entries =>
             if toBoolean (getProp "json" entries)
             then VObj (setProp "json" (getProp "json" entries) entries)
             else VObj [("json", data)]
         | _ => VObj [("json", data)]
         end) jsonData.

(** [JSON.stringify] is only reached with [undefined], which it maps to
    [undefined]. *)
Definition normalizeResponseData (data : JsVal) : list INodeExecutionData :=
  match data with
  | VArr items => returnJsonArray items
  | VObj _ => [VObj [("json", data)]]
  | VNull | VStr _ | VNum _ | VBool _ => [VObj [("json", VObj [("value", data)])]]
  | VUndef => [VObj [("json", VObj [("value", VUndef)])]]
  end.

Definition KEYCRM_BASE_URL : string := "https://openapi.keycrm.app/v1".

Definition buildKeycrmUrl (path : string) : string :=
  KEYCRM_BASE_URL ++ (if Js.startsWith path "/" then path else "/" ++ path).

(* ===================================================================== *)
(** * Payload assembler *)
(* ===================================================================== *)

Definition missing (what path : string) (itemIndex : nat) : JsError :=
  NodeOperationError ("Missing required " ++ what ++ " " ++ Js.quoted path) itemIndex.

(** A collection parameter read as the object its host typing says it is. *)
Definition asDataObject (value : JsVal) : IDataObject :=
  match value with VObj entries => entries | _ => [] end.

(** [output[key] = parsed] unless [parsed] is [undefined]. *)
Definition putDefined (key : string) (parsed : JsVal) (output : IDataObject) : IDataObject :=
  if isUndefined parsed then output else setProp key parsed output.

(** [parsedItems.push(parsed)] unless [parsed] is [undefined]. *)
Definition pushDefined (parsed : JsVal) (parsedItems : list JsVal) : list JsVal :=
  if isUndefined parsed then parsedItems else parsedItems ++ [parsed].

Fixpoint parseBodyFieldValue (operation : IOperationMeta) (itemIndex : nat)
    (field : IBodyField) (rawValue : JsVal) {struct field} : Result JsVal :=
  match field with
  | BodyPrimitive head info =>
      let normalized := normalizePrimitiveValue head info rawValue in
      if (required head && isUndefined normalized)%bool
      then Throw (missing "field" (apiPath head) itemIndex)
      else Ok normalized
  | BodyObject head children =>
      let source := asDataObject rawValue in
      output <-
        (fix eachChild (rest : list IBodyField) (output : IDataObject)
           : Result IDataObject :=
           match rest with
           | [] => Ok output
           | child :: rest' =>
               let childName := bodyFieldParamName operation child in
               if negb (hasKey childName source) then
                 if required (fieldHead child)
                 then Throw (missing "field" (apiPath (fieldHead child)) itemIndex)
                 else eachChild rest' output
               else
                 parsedChild <- parseBodyFieldValue operation itemIndex child
                                  (getProp childName source) ;;
                 eachChild rest' (putDefined (apiKey (fieldHead child)) parsedChild output)
           end) children [] ;;
      match output with
      | [] => if required head
              then Throw (missing "object" (apiPath head) itemIndex)
              else Ok VUndef
      | _ => Ok (VObj output)
      end
  | BodyArray head itemField =>
      let source := asDataObject rawValue in
      let items := match getProp "items" source with VArr l => l | _ => [] end in
      parsedItems <-
        (fix eachItem (rest : list JsVal) (parsedItems : list JsVal)
           : Result (list JsVal) :=
           match rest with
           | [] => Ok parsedItems
           | itemEntry :: rest' =>
               match itemField with
               | BodyPrimitive _ _ =>
                   match itemEntry with
                   | VObj entry =>
                       parsedItem <- parseBodyFieldValue operation itemIndex itemField
                                       (getProp (bodyFieldParamName operation itemField) entry) ;;
                       eachItem rest' (pushDefined parsedItem parsedItems)
                   | _ => eachItem rest' parsedItems
                   end
               | _ =>
                   parsedItem <- parseBodyFieldValue operation itemIndex itemField itemEntry ;;
                   eachItem rest' (pushDefined parsedItem parsedItems)
               end
           end) items [] ;;
      match parsedItems with
      | [] => if required head
              then Throw (missing "array" (apiPath head) itemIndex)
              else Ok VUndef
      | _ => Ok (VArr parsedItems)
      end
  end.

(* ===================================================================== *)
(** * Request orchestrator *)
(* ===================================================================== *)

(** What the host supplies for one input item: the resolved node
    parameters, the names of its binary attachments, and the transport. *)
Inductive RequestBody : Type :=
| NoBody
| JsonBody (payload : IDataObject)
| FormDataBody (fileField binaryPropertyName : string).

Record IHttpRequestOptions : Type := {
  url : string;
  httpMethod : string;
  qs : IDataObject;
  body : RequestBody
}.

Record ItemContext : Type := {
  parameters : IDataObject;
  binaryNames : list string;
  httpRequest : IHttpRequestOptions -> Result JsVal
}.

(** [this.getNodeParameter(name, itemIndex, fallback)]. *)
Definition getNodeParameter (ctx : ItemContext) (name : string) (fallback : option JsVal)
  : Result JsVal :=
  match lookup name (parameters ctx), fallback with
  | Some value, _ => Ok value
  | None, Some value => Ok value
  | None, None => Throw (HostError ("Could not get parameter " ++ Js.quoted name))
  end.

Fixpoint getOperationIn (operations : list IOperationMeta) (operation : string)
  : option IOperationMeta :=
  match operations with
  | [] => None
  | entry :: rest =>
      if String.eqb (operationValue entry) operation then Some entry
      else getOperationIn rest operation
  end.

Fixpoint findOperation (resources : list IResourceMeta) (resourceKey operation : string)
  : option IOperationMeta :=
  match resources with
  | [] => None
  | entry :: rest =>
      if String.eqb (resourceValue entry) resourceKey then
        match getOperationIn (operations entry) operation with
        | Some found => Some found
        | None => findOperation rest resourceKey operation
        end
      else findOperation rest resourceKey operation
  end.

Definition getOperationMetadata (resources : list IResourceMeta)
    (resourceKey operation : string) : Result IOperationMeta :=
  match findOperation resources resourceKey operation with
  | Some found => Ok found
  | None => Throw (ApplicationError
      ("Unknown operation " ++ Js.quoted operation ++ " for resource " ++ Js.quoted resourceKey))
  end.

(** ** PATH *)

(** One turn of the loop over [pathUi], from the value read for the field. *)
Definition substitutePathField (itemIndex : nat) (endpointPath : string)
    (pathField : IPathUiField) (value : JsVal) : Result string :=
  if isEmptyValue value then
    if pathRequired pathField
    then Throw (NodeOperationError
                  ("Missing path parameter " ++ Js.quoted (pathName pathField)) itemIndex)
    else Ok endpointPath
  else Ok (Js.replace endpointPath ("{" ++ pathName pathField ++ "}")
             (Js.encodeURIComponent (toStr value))).

Fixpoint substitutePath (ctx : ItemContext) (operation : IOperationMeta) (itemIndex : nat)
    (fields : list IPathUiField) (endpointPath : string) : Result string :=
  match fields with
  | [] => Ok endpointPath
  | pathField :: rest =>
      value <- getNodeParameter ctx (pathParamName operation pathField) None ;;
      next <- substitutePathField itemIndex endpointPath pathField value ;;
      substitutePath ctx operation itemIndex rest next
  end.

(** ** QUERY *)

Definition isPaging (field : IQuerySimpleField) : bool :=
  (String.eqb (simpleName field) "page" || String.eqb (simpleName field) "limit")%bool.

Definition findSimple (name : string) (fields : list IQuerySimpleField)
  : option IQuerySimpleField :=
  find (fun field => String.eqb (simpleName field) name) fields.

Fixpoint addSimpleFields (ctx : ItemContext) (operation : IOperationMeta)
    (fields : list IQuerySimpleField) (query : IDataObject) : Result IDataObject :=
  match fields with
  | [] => Ok query
  | simpleField :: rest =>
      value <- getNodeParameter ctx (querySimpleParamName operation simpleField) None ;;
      if negb (shouldIncludeSimpleQueryValue simpleField value)
      then addSimpleFields ctx operation rest query
      else addSimpleFields ctx operation rest
             (putDefined (simpleName simpleField)
                (normalizeSimpleQueryValue simpleField value) query)
  end.

Definition invalidValue (name : string) (itemIndex : nat) : JsError :=
  NodeOperationError
    ("Invalid " ++ Js.quoted name ++ " value. Expected a number greater than 0.") itemIndex.

(** [Math.trunc(Number(v))] checked to be a number not below 1. *)
Definition positiveInteger (name : string) (itemIndex : nat) (v : JsVal) : Result JsVal :=
  let parsed := Js.trunc (toNumber v) in
  if (Js.isNaN parsed || Js.lt parsed (Js.Dec 1 0))%bool
  then Throw (invalidValue name itemIndex)
  else Ok (VNum parsed).

Definition addLimit (ctx : ItemContext) (operation : IOperationMeta) (itemIndex : nat)
    (limitField : IQuerySimpleField) (defaultLimit : Js.Num) (query : IDataObject)
  : Result IDataObject :=
  limitValue <- getNodeParameter ctx (querySimpleParamName operation limitField)
                  (Some (VNum defaultLimit)) ;;
  if shouldIncludeSimpleQueryValue limitField limitValue then
    let normalizedLimit := normalizeSimpleQueryValue limitField limitValue in
    if isUndefined normalizedLimit then Ok query
    else
      parsedLimit <- positiveInteger (simpleName limitField) itemIndex normalizedLimit ;;
      Ok (setProp (simpleName limitField) parsedLimit query)
  else Ok query.

Definition addPage (ctx : ItemContext) (operation : IOperationMeta) (itemIndex : nat)
    (pageField : IQuerySimpleField) (query : IDataObject) : Result IDataObject :=
  optionsSource <- getNodeParameter ctx (queryOptionsCollectionParamName operation)
                     (Some (VObj [])) ;;
  let pageValue := getProp (queryPageOptionParamName operation) (asDataObject optionsSource) in
  if isEmptyValue pageValue then Ok query
  else
    parsedPage <- positiveInteger (simpleName pageField) itemIndex pageValue ;;
    Ok (setProp (simpleName pageField) parsedPage query).

(** The paging block: the query and whether all pages are to be fetched. *)
Definition addPaging (ctx : ItemContext) (operation : IOperationMeta) (itemIndex : nat)
    (query : IDataObject) : Result (IDataObject * bool) :=
  let pageField := findSimple "page" (simple (queryUi operation)) in
  let limitField := findSimple "limit" (simple (queryUi operation)) in
  let defaultLimit := match limitField with
                      | Some f => resolvePageSize f
                      | None => Js.Dec 50 0
                      end in
  match pageField, limitField with
  | Some pf, Some lf =>
      getAll <- getNodeParameter ctx (queryGetAllParamName operation) (Some (VBool true)) ;;
      if toBoolean getAll then Ok (query, true)
      else
        q1 <- addLimit ctx operation itemIndex lf defaultLimit query ;;
        q2 <- addPage ctx operation itemIndex pf q1 ;;
        Ok (q2, false)
  | _, _ =>
      q1 <- match limitField with
            | Some lf => addLimit ctx operation itemIndex lf defaultLimit query
            | None => Ok query
            end ;;
      q2 <- match pageField with
            | Some pf => addPage ctx operation itemIndex pf q1
            | None => Ok q1
            end ;;
      Ok (q2, false)
  end.

Definition hasOptions (field : option IQuerySelectField) : bool :=
  match field with
  | Some f => negb (Nat.eqb (List.length (selectOptions f)) 0)
  | None => false
  end.

Definition addInclude (ctx : ItemContext) (operation : IOperationMeta) (query : IDataObject)
  : Result IDataObject :=
  if hasOptions (include (queryUi operation)) then
    includeValues <- getNodeParameter ctx (queryIncludeParamName operation) (Some (VArr [])) ;;
    match includeValues with
    | VArr (_ :: _) => Ok (setProp "include" (VStr (toStr includeValues)) query)
    | _ => Ok query
    end
  else Ok query.

Definition addSort (ctx : ItemContext) (operation : IOperationMeta) (query : IDataObject)
  : Result IDataObject :=
  if hasOptions (sort (queryUi operation)) then
    sortValue <- getNodeParameter ctx (querySortParamName operation) (Some (VStr "")) ;;
    if isEmptyValue sortValue then Ok query else Ok (setProp "sort" sortValue query)
  else Ok query.

Section Filters.

Variable dateParse : string -> option Z.

(** One turn of the loop over the filter fields. *)
Definition addFilterField (operation : IOperationMeta) (itemIndex : nat)
    (filterSource : IDataObject) (filterField : IQueryFilterField)
    (filterPayload : IDataObject) : Result IDataObject :=
  match filterFieldType filterField with
  | FBetweenDateTime =>
      let fromValue := getProp (queryFilterFromParamName operation filterField) filterSource in
      let toValue := getProp (queryFilterToParamName operation filterField) filterSource in
      let hasFrom := negb (isEmptyValue fromValue) in
      let hasTo := negb (isEmptyValue toValue) in
      if negb (Bool.eqb hasFrom hasTo) then
        Throw (NodeOperationError
                 ("Filter " ++ Js.quoted (filterName filterField) ++ " expects both "
                    ++ Js.quoted "from" ++ " and " ++ Js.quoted "to") itemIndex)
      else if (hasFrom && hasTo)%bool then
        fromText <- toKeycrmUtcDateTime dateParse (toStr fromValue) ;;
        toText <- toKeycrmUtcDateTime dateParse (toStr toValue) ;;
        Ok (setProp (filterName filterField) (VStr (fromText ++ ", " ++ toText)) filterPayload)
      else Ok filterPayload
  | fieldType =>
      let fieldKey := queryFilterFieldParamName operation filterField in
      if negb (hasKey fieldKey filterSource) then Ok filterPayload
      else
        let rawValue := getProp fieldKey filterSource in
        if isEmptyValue rawValue then Ok filterPayload
        else
          match fieldType with
          | FNumber | FInteger =>
              let parsed := toNumber rawValue in
              if Js.isNaN parsed then Ok filterPayload
              else Ok (setProp (filterName filterField)
                         (VNum (match fieldType with
                                | FInteger => Js.trunc parsed
                                | _ => parsed
                                end)) filterPayload)
          | FBoolean =>
              Ok (setProp (filterName filterField) (VBool (toBoolean rawValue)) filterPayload)
          | _ =>
              Ok (setProp (filterName filterField) (VStr (toStr rawValue)) filterPayload)
          end
  end.

Fixpoint addFilterFields (operation : IOperationMeta) (itemIndex : nat)
    (filterSource : IDataObject) (fields : list IQueryFilterField)
    (filterPayload : IDataObject) : Result IDataObject :=
  match fields with
  | [] => Ok filterPayload
  | filterField :: rest =>
      next <- addFilterField operation itemIndex filterSource filterField filterPayload ;;
      addFilterFields operation itemIndex filterSource rest next
  end.

Fixpoint customFieldsPayload (items : list JsVal) (payload : IDataObject) : IDataObject :=
  match items with
  | [] => payload
  | VObj item :: rest =>
      let uuid := getProp "uuid" item in
      let value := getProp "value" item in
      if (isEmptyValue uuid || isEmptyValue value)%bool
      then customFieldsPayload rest payload
      else customFieldsPayload rest (setProp (toStr uuid) (VStr (toStr value)) payload)
  | _ :: rest => customFieldsPayload rest payload
  end.

Definition addCustomFields (operation : IOperationMeta) (filterSource : IDataObject)
    (filterPayload : IDataObject) : IDataObject :=
  match getProp (queryCustomFieldsFilterParamName operation) filterSource with
  | VObj raw =>
      match getProp "items" raw with
      | VArr items =>
          match customFieldsPayload items [] with
          | [] => filterPayload
          | payload => setProp "custom_fields" (VObj payload) filterPayload
          end
      | _ => filterPayload
      end
  | _ => filterPayload
  end.

Definition addFilters (ctx : ItemContext) (operation : IOperationMeta) (itemIndex : nat)
    (query : IDataObject) : Result IDataObject :=
  match filters (queryUi operation) with
  | [] => Ok query
  | fields =>
      source <- getNodeParameter ctx (queryFilterCollectionParamName operation)
                  (Some (VObj [])) ;;
      let filterSource := asDataObject source in
      payload <- addFilterFields operation itemIndex filterSource fields [] ;;
      match addCustomFields operation filterSource payload with
      | [] => Ok query
      | filterPayload => Ok (setProp "filter" (VObj filterPayload) query)
      end
  end.

End Filters.

(** ** BODY *)

Fixpoint addRequiredFields (ctx : ItemContext) (operation : IOperationMeta) (itemIndex : nat)
    (fields : list IBodyField) (bodyPayload : IDataObject) : Result IDataObject :=
  match fields with
  | [] => Ok bodyPayload
  | requiredField :: rest =>
      rawRequiredValue <- getNodeParameter ctx (bodyFieldParamName operation requiredField) None ;;
      parsed <- parseBodyFieldValue operation itemIndex requiredField rawRequiredValue ;;
      if isUndefined parsed
      then Throw (missing "body field" (apiPath (fieldHead requiredField)) itemIndex)
      else addRequiredFields ctx operation itemIndex rest
             (setProp (apiKey (fieldHead requiredField)) parsed bodyPayload)
  end.

Fixpoint addOptionalFields (operation : IOperationMeta) (itemIndex : nat)
    (optionalSource : IDataObject) (fields : list IBodyField) (bodyPayload : IDataObject)
  : Result IDataObject :=
  match fields with
  | [] => Ok bodyPayload
  | optionalField :: rest =>
      let optionalKey := bodyFieldParamName operation optionalField in
      if negb (hasKey optionalKey optionalSource)
      then addOptionalFields operation itemIndex optionalSource rest bodyPayload
      else
        parsed <- parseBodyFieldValue operation itemIndex optionalField
                    (getProp optionalKey optionalSource) ;;
        addOptionalFields operation itemIndex optionalSource rest
          (putDefined (apiKey (fieldHead optionalField)) parsed bodyPayload)
  end.

(** The JSON branch of the body block. *)
Definition assembleJsonBody (ctx : ItemContext) (operation : IOperationMeta) (itemIndex : nat)
    (bodyUi : IBodyUi) : Result RequestBody :=
  withRequired <- addRequiredFields ctx operation itemIndex (requiredFields bodyUi) [] ;;
  bodyPayload <-
    match optionalFields bodyUi with
    | [] => Ok withRequired
    | fields =>
        optionalSource <- getNodeParameter ctx (bodyOptionalCollectionParamName operation)
                            (Some (VObj [])) ;;
        addOptionalFields operation itemIndex (asDataObject optionalSource) fields withRequired
    end ;;
  match bodyPayload with
  | [] => Ok NoBody
  | _ => Ok (JsonBody bodyPayload)
  end.

(** The multipart branch: the named attachment must exist on the item. *)
Definition assembleBinaryBody (ctx : ItemContext) (operation : IOperationMeta)
    (fileField : string) : Result RequestBody :=
  binaryPropertyName <- getNodeParameter ctx (bodyBinaryPropertyParamName operation) None ;;
  if existsb (String.eqb (toStr binaryPropertyName)) (binaryNames ctx)
  then Ok (FormDataBody fileField (toStr binaryPropertyName))
  else Throw (HostError ("No binary data property " ++ Js.quoted (toStr binaryPropertyName))).

Definition assembleBody (ctx : ItemContext) (operation : IOperationMeta) (itemIndex : nat)
  : Result RequestBody :=
  match bodyUi operation with
  | None => Ok NoBody
  | Some ui =>
      match String.eqb (contentType ui) "multipart/form-data", binaryProperty ui with
      | true, Some (String c r as fileField) => assembleBinaryBody ctx operation fileField
      | _, _ => assembleJsonBody ctx operation itemIndex ui
      end
  end.

(** ** DISPATCH *)

(** The fetch-all loop.  [respond page] is the outcome of the request
    issued for [page].  The source loops until continuation is refused;
    here [fuel] bounds the number of requests and [None] means the loop
    was still running when it ran out. *)
Fixpoint fetchAllPages (fuel : nat) (respond : nat -> Result JsVal) (pageSize : Js.Num)
    (page : nat) (aggregatedItems : list JsVal)
  : option (Result (list JsVal * JsVal * nat)) :=
  match fuel with
  | O => None
  | S fuel' =>
      match respond page with
      | Throw e => Some (Throw e)
      | Ok response =>
          let pageItems := extractPaginatedItems response in
          let aggregated := (aggregatedItems ++ pageItems)%list in
          if negb (hasMorePaginatedItems response page pageSize (List.length pageItems))
          then Some (Ok (aggregated, response, page))
          else fetchAllPages fuel' respond pageSize (S page) aggregated
      end
  end.

(** What the loop hands to the output once it has stopped. *)
Definition paginatedOutput (aggregatedItems : list JsVal) (lastResponse : JsVal)
  : list INodeExecutionData :=
  match aggregatedItems with
  | _ :: _ => returnJsonArray aggregatedItems
  | [] => if isUndefined lastResponse then [] else normalizeResponseData lastResponse
  end.

Definition paginatedRequest (requestOptions : IHttpRequestOptions)
    (pageName limitName : string) (page : nat) (pageSize : Js.Num) : IHttpRequestOptions :=
  {| url := url requestOptions;
     httpMethod := httpMethod requestOptions;
     qs := setProp limitName (VNum pageSize)
             (setProp pageName (VNum (Js.ofNat page)) (qs requestOptions));
     body := body requestOptions |}.

Section Execute.

Variable dateParse : string -> option Z.
Variable resources : list IResourceMeta.

(** The [try] block for one item. *)
Definition processItem (fuel : nat) (ctx : ItemContext) (itemIndex : nat)
  : option (Result (list INodeExecutionData)) :=
  let prepared :=
    resourceKey <- getNodeParameter ctx "resource" None ;;
    operationName <- getNodeParameter ctx "operation" None ;;
    operationMeta <- getOperationMetadata resources (toStr resourceKey) (toStr operationName) ;;
    endpointPath <- substitutePath ctx operationMeta itemIndex (pathUi operationMeta)
                      (path operationMeta) ;;
    q1 <- addSimpleFields ctx operationMeta
            (filter (fun f => negb (isPaging f)) (simple (queryUi operationMeta))) [] ;;
    paging <- addPaging ctx operationMeta itemIndex q1 ;;
    q3 <- addInclude ctx operationMeta (fst paging) ;;
    q4 <- addSort ctx operationMeta q3 ;;
    query <- addFilters dateParse ctx operationMeta itemIndex q4 ;;
    requestBody <- assembleBody ctx operationMeta itemIndex ;;
    Ok (operationMeta, snd paging,
        {| url := buildKeycrmUrl endpointPath;
           httpMethod := method operationMeta;
           qs := query;
           body := requestBody |}) in
  match prepared with
  | Throw e => Some (Throw e)
  | Ok (operationMeta, useGetAllWithPagination, requestOptions) =>
      match useGetAllWithPagination,
            findSimple "page" (simple (queryUi operationMeta)),
            findSimple "limit" (simple (queryUi operationMeta)) with
      | true, Some pageField, Some limitField =>
          let pageSize := resolvePageSize limitField in
          match fetchAllPages fuel
                  (fun page => httpRequest ctx
                     (paginatedRequest requestOptions (simpleName pageField)
                        (simpleName limitField) page pageSize))
                  pageSize 1 [] with
          | None => None
          | Some (Throw e) => Some (Throw e)
          | Some (Ok (aggregatedItems, lastResponse, _)) =>
              Some (Ok (paginatedOutput aggregatedItems lastResponse))
          end
      | _, _, _ =>
          match httpRequest ctx requestOptions with
          | Throw e => Some (Throw e)
          | Ok response => Some (Ok (normalizeResponseData response))
          end
      end
  end.

(** The record pushed by the [catch] block when the host continues on
    failure. *)
Definition errorRecord (e : JsError) (itemIndex : nat) : INodeExecutionData :=
  VObj [("json", VObj [("error", VStr (errorMessage e))]);
        ("pairedItem", VObj [("item", VNum (Js.ofNat itemIndex))])].

(** The error leaving [execute] otherwise: an operation error as it is,
    anything else wrapped with the item index. *)
Definition rethrown (e : JsError) (itemIndex : nat) : JsError :=
  match e with
  | NodeOperationError _ _ => e
  | _ => NodeOperationError (errorMessage e) itemIndex
  end.

Fixpoint executeFrom (fuel : nat) (continueOnFail : bool) (items : list ItemContext)
    (itemIndex : nat) (returnData : list INodeExecutionData)
  : option (Result (list INodeExecutionData)) :=
  match items with
  | [] => Some (Ok returnData)
  | ctx :: rest =>
      match processItem fuel ctx itemIndex with
      | None => None
      | Some (Ok records) =>
          executeFrom fuel continueOnFail rest (S itemIndex) (returnData ++ records)%list
      | Some (Throw e) =>
          if continueOnFail
          then executeFrom fuel continueOnFail rest (S itemIndex)
                 (returnData ++ [errorRecord e itemIndex])%list
          else Some (Throw (rethrown e itemIndex))
      end
  end.

Definition execute (fuel : nat) (continueOnFail : bool) (items : list ItemContext)
  : option (Result (list INodeExecutionData)) :=
  executeFrom fuel continueOnFail items 0%nat [].

End Execute.

(* ===================================================================== *)
(** * Field-schema compiler: the generated identifiers *)
(* ===================================================================== *)

(** The body fields for which [createBodyFieldNodeProperty] computes a
    name: the field, the children of an object, and for an array what its
    item contributes (the item itself when primitive, its children when an
    object, the inner item when an array). *)
Fixpoint namedBodyFields (field : IBodyField) : list IBodyField :=
  field ::
  match field with
  | BodyPrimitive _ _ => []
  | BodyObject _ children => flat_map namedBodyFields children
  | BodyArray _ itemField =>
      match itemField with
      | BodyPrimitive _ _ => [itemField]
      | BodyObject _ children => flat_map namedBodyFields children
      | BodyArray _ inner => namedBodyFields inner
      end
  end.

(** The simple query fields named by [querySimpleParamName]: the
    non-paging ones and the limit field (the page field is named by
    [queryPageOptionParamName]). *)
Definition namedSimpleFields (operation : IOperationMeta) : list IQuerySimpleField :=
  (filter (fun f => negb (isPaging f)) (simple (queryUi operation))
   ++ match findSimple "limit" (simple (queryUi operation)) with
      | Some limitField => [limitField]
      | None => []
      end)%list.

Definition namedBodyFieldsOf (operation : IOperationMeta) : list IBodyField :=
  match bodyUi operation with
  | Some ui => flat_map namedBodyFields (requiredFields ui ++ optionalFields ui)%list
  | None => []
  end.

(** Identifiers that [buildNodeProperties] derives from an API path or key
    for one operation. *)
Definition operationFieldIds (operation : IOperationMeta) : list string :=
  (map (pathParamName operation) (pathUi operation)
   ++ map (querySimpleParamName operation) (namedSimpleFields operation)
   ++ map (bodyFieldParamName operation) (namedBodyFieldsOf operation))%list.

Definition allOperations (resources : list IResourceMeta) : list IOperationMeta :=
  flat_map operations resources.

Definition documentFieldIds (resources : list IResourceMeta) : list string :=
  flat_map operationFieldIds (allOperations resources).

(** ** Vocabulary of the statements *)

Definition pathFieldToken (field : IPathUiField) : string :=
  sanitizeParamToken (orElse (pathApiPath field) (pathName field)).

Definition simpleFieldToken (field : IQuerySimpleField) : string :=
  sanitizeParamToken (orElse (simpleApiPath field) (simpleName field)).

Definition bodyFieldToken (field : IBodyField) : string :=
  sanitizeParamToken (orElse (apiPath (fieldHead field)) (apiKey (fieldHead field))).

(** The API paths a document declares are distinct: operation identifiers
    across the document, and within each operation the paths of its path
    fields, of its named query fields and of its named body fields. *)
Definition distinctSources (resources : list IResourceMeta) : Prop :=
  NoDup (map operationId (allOperations resources)) /\
  forall operation, In operation (allOperations resources) ->
    NoDup (map (fun f => orElse (pathApiPath f) (pathName f)) (pathUi operation)) /\
    NoDup (map (fun f => orElse (simpleApiPath f) (simpleName f)) (namedSimpleFields operation)) /\
    NoDup (map (fun f => orElse (apiPath (fieldHead f)) (apiKey (fieldHead f)))
             (namedBodyFieldsOf operation)).

Fixpoint endsWithUnderscore (s : string) : bool :=
  match s with
  | EmptyString => false
  | String c EmptyString => Ascii.eqb c "_"
  | String _ r => endsWithUnderscore r
  end.

(** An identifier of the operation: a kind prefix, the operation token,
    the separator and whatever names the field. *)
Definition namedUnder (operation : IOperationMeta) (id : string) : Prop :=
  exists kind rest,
    (kind = "path__" \/ kind = "query__" \/ kind = "body__")
    /\ id = kind ++ operationToken operation ++ "__" ++ rest.

(** No operation token is another one followed by the separator and more. *)
Definition separatedTokens (tokens : list string) : Prop :=
  NoDup tokens /\
  forall a b, In a tokens -> In b tokens -> Js.startsWith b (a ++ "__") = false.

(** The tokens, rather than the raw paths, are distinct. *)
Definition distinctTokens (resources : list IResourceMeta) : Prop :=
  separatedTokens (map operationToken (allOperations resources)) /\
  forall operation, In operation (allOperations resources) ->
    NoDup (map pathFieldToken (pathUi operation)) /\
    NoDup (map simpleFieldToken (namedSimpleFields operation)) /\
    NoDup (map bodyFieldToken (namedBodyFieldsOf operation)).

(** A number that is an integer not below one. *)
Definition isPositiveInteger (x : Js.Num) : Prop :=
  exists z : Z, 0 < z /\ x = Js.Dec z 0.

(** [Number(candidate)] is a number above zero: the test of
    [resolvePageSize]. *)
Definition parsesPositive (candidate : JsVal) : bool :=
  (negb (Js.isNaN (toNumber candidate)) && Js.gt (toNumber candidate) (Js.Dec 0 0))%bool.

(** [Number(candidate)] is finite and not below one. *)
Definition parsesAtLeastOne (candidate : JsVal) : bool :=
  match toNumber candidate with
  | Js.Dec m e => negb (Js.lt (Js.Dec m e) (Js.Dec 1 0))
  | _ => false
  end.

(** A response with none of the entries the continuation policy reads. *)
Definition noPaginationMetadata (response : JsVal) : bool :=
  match response with
  | VObj entries =>
      (negb (hasKey "current_page" entries) && negb (hasKey "last_page" entries)
       && negb (hasKey "page" entries) && negb (hasKey "next_page_url" entries)
       && negb (hasKey "links" entries))%bool
  | _ => true
  end.

(** A response exposing numeric [current_page] and [last_page], the
    latter above zero. *)
Definition hasPageCounters (response : JsVal) : bool :=
  match response with
  | VObj entries =>
      (negb (Js.isNaN (toNumber (getProp "current_page" entries)))
       && negb (Js.isNaN (toNumber (getProp "last_page" entries)))
       && Js.gt (toNumber (getProp "last_page" entries)) (Js.Dec 0 0))%bool
  | _ => false
  end.

Definition currentPageOf (response : JsVal) : Js.Num :=
  toNumber (getProp "current_page" (asDataObject response)).

Definition lastPageOf (response : JsVal) : Js.Num :=
  toNumber (getProp "last_page" (asDataObject response)).

(** Number of items the pages [1..n] of a response sequence carry. *)
Fixpoint itemsUpTo (responses : nat -> JsVal) (n : nat) : nat :=
  match n with
  | O => O
  | S k => (itemsUpTo responses k + List.length (extractPaginatedItems (responses (S k))))%nat
  end.

(** The page returned at least a full page of items. *)
Definition fullPage (pageSize : Js.Num) (response : JsVal) : bool :=
  Js.ge (Js.ofNat (List.length (extractPaginatedItems response))) pageSize.

(** The items of the pages [1..n], in page order. *)
Definition collected (responses : nat -> JsVal) (n : nat) : list JsVal :=
  flat_map (fun page => extractPaginatedItems (responses page)) (seq 1 n).

(** The continuation decision taken after page [page]. *)
Definition continuesAfter (responses : nat -> JsVal) (pageSize : Js.Num) (page : nat) : bool :=
  hasMorePaginatedItems (responses page) page pageSize
    (List.length (extractPaginatedItems (responses page))).

(** The loop over [responses] issues exactly [n] requests: it has returned
    the items of the pages [1..n] once [n] requests are allowed, and is
    still running with fewer. *)
Definition stopsAtPage (responses : nat -> JsVal) (pageSize : Js.Num) (n : nat) : Prop :=
  (forall fuel, (n <= fuel)%nat ->
     fetchAllPages fuel (fun page => Ok (responses page)) pageSize 1 []
     = Some (Ok (collected responses n, responses n, n)))
  /\ (forall fuel, (fuel < n)%nat ->
        fetchAllPages fuel (fun page => Ok (responses page)) pageSize 1 [] = None).

(** Two decimal digits. *)
Definition twoDigits (s : string) : bool :=
  match s with
  | String a (String b EmptyString) => (Js.isDigit a && Js.isDigit b)%bool
  | _ => false
  end.

(** [text] is the stamp [Y-MM-DD HH:MM:SS] of the UTC calendar fields of
    the time value [t], each field but the year written with two digits. *)
Definition isUtcStamp (t : Z) (text : string) : Prop :=
  exists mo d h mi sec : string,
    text = Js.numToString (Js.ofZ (Js.getUTCFullYear t)) ++ "-" ++ mo ++ "-" ++ d
             ++ " " ++ h ++ ":" ++ mi ++ ":" ++ sec
    /\ (twoDigits mo = true /\ Js.digitsValue mo = Js.getUTCMonth t + 1)
    /\ (twoDigits d = true /\ Js.digitsValue d = Js.getUTCDate t)
    /\ (twoDigits h = true /\ Js.digitsValue h = Js.getUTCHours t)
    /\ (twoDigits mi = true /\ Js.digitsValue mi = Js.getUTCMinutes t)
    /\ (twoDigits sec = true /\ Js.digitsValue sec = Js.getUTCSeconds t).

(** The host parser reads the date-only form as the standard prescribes. *)
Definition readsDateOnly (dateParse : string -> option Z) : Prop :=
  forall text t, Js.parseDateOnly text = Some t -> dateParse text = Some t.

(** ** Shape of tokens *)

Fixpoint forallChars (p : ascii -> bool) (s : string) : bool :=
  match s with
  | EmptyString => true
  | String c r => (p c && forallChars p r)%bool
  end.

(** A character of the class [[a-z0-9_]]. *)
Definition isTokenChar (c : ascii) : bool :=
  (Js.isLower c || Js.isDigit c || Ascii.eqb c "_")%bool.

(** A character of the class [[a-zA-Z0-9_]]. *)
Definition isRawTokenChar (c : ascii) : bool :=
  (Js.isAlnum c || Ascii.eqb c "_")%bool.

(** Nothing, or a letter or digit first. *)
Definition opensWithAlnum (s : string) : bool :=
  match s with
  | String e _ => Js.isAlnum e
  | EmptyString => true
  end.

Definition startsWithUnderscore (s : string) : bool :=
  match s with
  | String c _ => Ascii.eqb c "_"
  | EmptyString => false
  end.

(** Every character outside [[a-zA-Z0-9]] is an underscore, underscores
    come in pairs, and a pair is followed by a letter or digit or ends the
    text. *)
Fixpoint separatorsPaired (s : string) : bool :=
  match s with
  | EmptyString => true
  | String c r =>
      if Js.isAlnum c then separatorsPaired r
      else match r with
           | String d r' =>
               (Ascii.eqb c "_" && Ascii.eqb d "_"
                && match r' with
                   | String e _ => Js.isAlnum e
                   | EmptyString => true
                   end
                && separatorsPaired r')%bool
           | EmptyString => false
           end
  end.

(** A number without a fractional part: an integer or an infinity. *)
Definition isIntegral (x : Js.Num) : bool :=
  match x with
  | Js.Dec _ e => Z.eqb e 0
  | Js.Inf _ => true
  | Js.NaN => false
  end.

(** What the primitive normalizer may return for a schema type. *)
Definition fitsSchemaType (head : BodyFieldHead) (type : PrimitiveSchemaType)
    (normalized : JsVal) : Prop :=
  normalized = VUndef
  \/ match type with
     | TNumber => exists n, normalized = VNum n /\ Js.isNaN n = false
     | TInteger => exists n, normalized = VNum n /\ isIntegral n = true
     | TBoolean => exists b, normalized = VBool b
     | TString =>
         exists text, normalized = VStr text
                      /\ (nullable head = false -> Js.trim text <> EmptyString)
     end.

(** ** The loops of [parseBodyFieldValue], by themselves *)

(** The loop over the children of an object field. *)
Fixpoint parseChildren (operation : IOperationMeta) (itemIndex : nat)
    (source : IDataObject) (rest : list IBodyField) (output : IDataObject)
  : Result IDataObject :=
  match rest with
  | [] => Ok output
  | child :: rest' =>
      let childName := bodyFieldParamName operation child in
      if negb (hasKey childName source) then
        if required (fieldHead child)
        then Throw (missing "field" (apiPath (fieldHead child)) itemIndex)
        else parseChildren operation itemIndex source rest' output
      else
        parsedChild <- parseBodyFieldValue operation itemIndex child
                         (getProp childName source) ;;
        parseChildren operation itemIndex source rest'
          (putDefined (apiKey (fieldHead child)) parsedChild output)
  end.

(** The loop over the entries of an array field. *)
Fixpoint parseItems (operation : IOperationMeta) (itemIndex : nat)
    (itemField : IBodyField) (rest : list JsVal) (parsedItems : list JsVal)
  : Result (list JsVal) :=
  match rest with
  | [] => Ok parsedItems
  | itemEntry :: rest' =>
      match itemField with
      | BodyPrimitive _ _ =>
          match itemEntry with
          | VObj entry =>
              parsedItem <- parseBodyFieldValue operation itemIndex itemField
                              (getProp (bodyFieldParamName operation itemField) entry) ;;
              parseItems operation itemIndex itemField rest'
                (pushDefined parsedItem parsedItems)
          | _ => parseItems operation itemIndex itemField rest' parsedItems
          end
      | _ =>
          parsedItem <- parseBodyFieldValue operation itemIndex itemField itemEntry ;;
          parseItems operation itemIndex itemField rest' (pushDefined parsedItem parsedItems)
      end
  end.

(** A value fit to be sent: not [undefined], and when it is an object or
    an array, not empty and made of such values only, at every depth. *)
Fixpoint solid (v : JsVal) : bool :=
  match v with
  | VUndef => false
  | VArr items =>
      (negb (Nat.eqb (List.length items) 0)
       && (fix each (l : list JsVal) : bool :=
             match l with
             | [] => true
             | x :: r => (solid x && each r)%bool
             end) items)%bool
  | VObj entries =>
      (negb (Nat.eqb (List.length entries) 0)
       && (fix each (l : list (string * JsVal)) : bool :=
             match l with
             | [] => true
             | (_, x) :: r => (solid x && each r)%bool
             end) entries)%bool
  | _ => true
  end.

Definition solidItems (items : list JsVal) : bool := forallb solid items.

Definition solidEntries (entries : IDataObject) : bool :=
  forallb (fun kv => solid (snd kv)) entries.

(** An error of the payload assembler: an operation error for the item
    whose message starts with [Missing required]. *)
Definition isMissingError (itemIndex : nat) (e : JsError) : Prop :=
  exists what path, e = missing what path itemIndex.

(** The API key of a body field. *)
Definition fieldKey (field : IBodyField) : string := apiKey (fieldHead field).

(** What a JSON body holds for a body spec: nothing at all only when no
    field is required; otherwise a non-empty object of values fit to be
    sent, keyed by API keys of the spec, with every required key present. *)
Definition bodyFits (ui : IBodyUi) (requestBody : RequestBody) : Prop :=
  match requestBody with
  | NoBody => requiredFields ui = []
  | JsonBody payload =>
      payload <> []
      /\ solidEntries payload = true
      /\ (forall field, In field (requiredFields ui) -> hasKey (fieldKey field) payload = true)
      /\ (forall key, hasKey key payload = true ->
            In key (map fieldKey (requiredFields ui ++ optionalFields ui)))
  | FormDataBody _ _ => False
  end.

(** A page or limit the query accepts: an integer not below one, or
    positive infinity. *)
Definition isAcceptedCount (v : JsVal) : Prop :=
  exists x, v = VNum x /\ (isPositiveInteger x \/ x = Js.Inf false).

(** What a filter of a plain type stores. *)
Definition fitsFilterType (type : QueryFilterFieldType) (v : JsVal) : Prop :=
  match type with
  | FNumber => exists n, v = VNum n /\ Js.isNaN n = false
  | FInteger => exists n, v = VNum n /\ isIntegral n = true
  | FBoolean => exists b, v = VBool b
  | FString => exists text, v = VStr text
  | FBetweenDateTime => False
  end.

(* ===================================================================== *)
(** * Field-schema compiler: the descriptors *)
(* ===================================================================== *)

(** The texts of the metadata that the records above leave out: the
    optional [description] of a field or option and the [summary] and
    [description] of an operation. *)
Record Docs : Type := {
  pathDoc : IPathUiField -> option string;
  simpleDoc : IQuerySimpleField -> option string;
  selectDoc : IQuerySelectField -> option string;
  filterDoc : IQueryFilterField -> option string;
  bodyDoc : IBodyField -> option string;
  optionDoc : IUiOption -> option string;
  operationSummary : IOperationMeta -> string;
  operationDescription : IOperationMeta -> string
}.

Definition newline : string := String (ascii_of_nat 10) EmptyString.

Definition buildApiFieldDescription (description : option string) (apiPath : string)
  : string :=
  match description with
  | Some text =>
      match Js.trim text with
      | EmptyString => "API field: " ++ apiPath
      | normalized => normalized ++ newline ++ "API field: " ++ apiPath
      end
  | None => "API field: " ++ apiPath
  end.

Definition operationDisplayOptions (resourceKey : string) (operation : IOperationMeta)
  : JsVal :=
  VObj [("show", VObj [("resource", VArr [VStr resourceKey]);
                       ("operation", VArr [VStr (operationValue operation)])])].

(** The lookup in the literal mapping; resource values that name a
    built-in property of objects are not among the metadata's. *)
Definition getCustomFieldModelForResource (resourceKey : string) : option string :=
  if String.eqb resourceKey "buyer" then Some "client"
  else if String.eqb resourceKey "company" then Some "client"
  else if String.eqb resourceKey "order" then Some "order"
  else if String.eqb resourceKey "pipelines" then Some "lead"
  else if String.eqb resourceKey "products" then Some "crm_product"
  else None.

Definition isCustomFieldUuidBodyField (head : BodyFieldHead) : bool :=
  (String.eqb (apiKey head) "uuid" && Js.includes (apiPath head) "custom_fields")%bool.

Definition expressionHint : string :=
  "Choose from the list, or specify an ID using an <a href="
    ++ Js.quoted "https://docs.n8n.io/code/expressions/" ++ ">expression</a>".

(** [property.required = true] and [property.displayOptions = ...], each
    only when asked for, in that order. *)
Definition finishProperty (isRequired : bool) (displayOptions : option JsVal)
    (property : IDataObject) : JsVal :=
  let withRequired :=
    if isRequired then setProp "required" (VBool true) property else property in
  VObj (match displayOptions with
        | Some shown => setProp "displayOptions" shown withRequired
        | None => withRequired
        end).

Definition enumOptions (values : list string) : JsVal :=
  VArr (map (fun value => VObj [("name", VStr value); ("value", VStr value)]) values).

Definition textType (fieldFormat : option string) : string :=
  match fieldFormat with
  | Some f => if String.eqb f "date-time" then "dateTime" else "string"
  | None => "string"
  end.

Section Compiler.

Variable docs : Docs.

Definition createPrimitiveNodeProperty (head : BodyFieldHead) (info : PrimitiveInfo)
    (name : string) (isRequired : bool) (displayOptions : option JsVal) : JsVal :=
  let description :=
    buildApiFieldDescription (bodyDoc docs (BodyPrimitive head info)) (apiPath head) in
  if isCustomFieldUuidBodyField head then
    finishProperty isRequired displayOptions
      [("displayName", VStr "Custom Field Name or ID"); ("name", VStr name);
       ("type", VStr "options"); ("description", VStr expressionHint);
       ("default", VStr "");
       ("typeOptions", VObj [("loadOptionsMethod", VStr "getCustomFields")]);
       ("options", VArr [])]
  else if negb (Nat.eqb (List.length (enumValues info)) 0) then
    finishProperty isRequired displayOptions
      [("displayName", VStr (label head)); ("name", VStr name); ("type", VStr "options");
       ("default", VStr ""); ("description", VStr description);
       ("options", enumOptions (enumValues info))]
  else
    match schemaType info with
    | TNumber | TInteger =>
        finishProperty isRequired displayOptions
          [("displayName", VStr (label head)); ("name", VStr name); ("type", VStr "number");
           ("default", VNum (Js.Dec 0 0)); ("description", VStr description)]
    | TBoolean =>
        finishProperty isRequired displayOptions
          [("displayName", VStr (label head)); ("name", VStr name); ("type", VStr "boolean");
           ("default", VBool false); ("description", VStr description)]
    | TString =>
        finishProperty isRequired displayOptions
          [("displayName", VStr (label head)); ("name", VStr name);
           ("type", VStr (textType (format info)));
           ("default", VStr ""); ("description", VStr description)]
    end.

Fixpoint createBodyFieldNodeProperty (operation : IOperationMeta) (field : IBodyField)
    (isRequired : bool) (displayOptions : option JsVal) {struct field} : JsVal :=
  let fieldName := bodyFieldParamName operation field in
  match field with
  | BodyPrimitive head info =>
      createPrimitiveNodeProperty head info fieldName isRequired displayOptions
  | BodyObject head children =>
      finishProperty isRequired displayOptions
        [("displayName", VStr (label head)); ("name", VStr fieldName);
         ("type", VStr "collection"); ("default", VObj []);
         ("description", VStr (buildApiFieldDescription (bodyDoc docs field) (apiPath head)));
         ("options",
          VArr (map (fun child =>
                       createBodyFieldNodeProperty operation child
                         (required (fieldHead child)) None) children))]
  | BodyArray head itemField =>
      let itemValues :=
        match itemField with
        | BodyPrimitive itemHead itemInfo =>
            [createPrimitiveNodeProperty itemHead itemInfo
               (bodyFieldParamName operation itemField) true None]
        | BodyObject _ children =>
            map (fun child =>
                   createBodyFieldNodeProperty operation child
                     (required (fieldHead child)) None) children
        | BodyArray _ inner =>
            [createBodyFieldNodeProperty operation inner (required (fieldHead inner)) None]
        end in
      finishProperty isRequired displayOptions
        [("displayName", VStr (label head)); ("name", VStr fieldName);
         ("type", VStr "fixedCollection"); ("default", VObj []);
         ("description", VStr (buildApiFieldDescription (bodyDoc docs field) (apiPath head)));
         ("typeOptions", VObj [("multipleValues", VBool true)]);
         ("options",
          VArr [VObj [("name", VStr "items"); ("displayName", VStr "Items");
                      ("values", VArr itemValues)]])]
  end.

(** An option of an include or sort selector, as the metadata holds it. *)
Definition uiOption (option : IUiOption) : JsVal :=
  VObj ([("name", VStr (optionName option)); ("value", VStr (optionValue option))]
        ++ match optionDoc docs option with
           | Some text => [("description", VStr text)]
           | None => []
           end)%list.

Definition resourceSelector (resources : list IResourceMeta) : JsVal :=
  VObj [("displayName", VStr "Resource"); ("name", VStr "resource");
        ("type", VStr "options"); ("noDataExpression", VBool true);
        ("default", VStr "buyer");
        ("options",
         VArr (map (fun resource =>
                      VObj [("name", VStr (resourceLabel resource));
                            ("value", VStr (resourceValue resource))]) resources))].

Definition operationSelector (resource : IResourceMeta) : JsVal :=
  VObj [("displayName", VStr "Operation"); ("name", VStr "operation");
        ("type", VStr "options"); ("noDataExpression", VBool true);
        ("displayOptions",
         VObj [("show", VObj [("resource", VArr [VStr (resourceValue resource)])])]);
        ("default",
         VStr (match operations resource with
               | first :: _ => operationValue first
               | [] => "createNewBuyer"
               end));
        ("options",
         VArr (map (fun operation =>
                      VObj [("name", VStr (operationLabel operation));
                            ("value", VStr (operationValue operation));
                            ("description",
                             VStr (orElse (operationSummary docs operation)
                                     (operationDescription docs operation)));
                            ("action", VStr (operationLabel operation))])
                 (operations resource)))].

Definition pathProperty (operation : IOperationMeta) (displayOptions : JsVal)
    (pathParameter : IPathUiField) : JsVal :=
  finishProperty (pathRequired pathParameter) None
    [("displayName", VStr (pathLabel pathParameter));
     ("name", VStr (pathParamName operation pathParameter));
     ("type", VStr "string"); ("default", VStr "");
     ("description",
      VStr (buildApiFieldDescription (pathDoc docs pathParameter) (pathName pathParameter)));
     ("displayOptions", displayOptions)].

Definition simpleProperty (operation : IOperationMeta) (displayOptions : JsVal)
    (simpleField : IQuerySimpleField) : JsVal :=
  let parameterName := querySimpleParamName operation simpleField in
  let description :=
    buildApiFieldDescription (simpleDoc docs simpleField) (simpleName simpleField) in
  if negb (Nat.eqb (List.length (simpleEnumValues simpleField)) 0) then
    VObj [("displayName", VStr (simpleLabel simpleField)); ("name", VStr parameterName);
          ("type", VStr "options"); ("default", VStr ""); ("description", VStr description);
          ("options", enumOptions (simpleEnumValues simpleField));
          ("displayOptions", displayOptions)]
  else
    match simpleSchemaType simpleField with
    | TNumber | TInteger =>
        VObj [("displayName", VStr (simpleLabel simpleField)); ("name", VStr parameterName);
              ("type", VStr "number"); ("default", VNum (Js.Dec 0 0));
              ("description", VStr description); ("displayOptions", displayOptions)]
    | TBoolean =>
        VObj [("displayName", VStr (simpleLabel simpleField)); ("name", VStr parameterName);
              ("type", VStr "boolean"); ("default", VBool false);
              ("description", VStr description); ("displayOptions", displayOptions)]
    | TString =>
        VObj [("displayName", VStr (simpleLabel simpleField)); ("name", VStr parameterName);
              ("type", VStr (textType (simpleFormat simpleField))); ("default", VStr "");
              ("description", VStr description); ("displayOptions", displayOptions)]
    end.

Definition limitProperty (operation : IOperationMeta) (displayOptions : JsVal)
    (limitField : IQuerySimpleField) : JsVal :=
  VObj [("displayName", VStr (simpleLabel limitField));
        ("name", VStr (querySimpleParamName operation limitField));
        ("type", VStr "number"); ("default", VNum (resolvePageSize limitField));
        ("description",
         VStr (buildApiFieldDescription (simpleDoc docs limitField) (simpleName limitField)));
        ("typeOptions", VObj [("minValue", VNum (Js.Dec 1 0))]);
        ("displayOptions", displayOptions)].

Definition pageOptionsProperty (operation : IOperationMeta) (displayOptions : JsVal)
    (pageField : IQuerySimpleField) : JsVal :=
  VObj [("displayName", VStr "Options");
        ("name", VStr (queryOptionsCollectionParamName operation));
        ("type", VStr "collection"); ("default", VObj []);
        ("placeholder", VStr "Add option");
        ("description", VStr "Additional pagination options");
        ("options",
         VArr [VObj [("displayName", VStr (simpleLabel pageField));
                     ("name", VStr (queryPageOptionParamName operation));
                     ("type", VStr "number"); ("default", VNum (Js.Dec 1 0));
                     ("description",
                      VStr (buildApiFieldDescription (simpleDoc docs pageField)
                              (simpleName pageField)));
                     ("typeOptions", VObj [("minValue", VNum (Js.Dec 1 0))])]]);
        ("displayOptions", displayOptions)].

(** [{show: {...show, [getAll]: [false]}}]. *)
Definition pagedDisplayOptions (operation : IOperationMeta) (displayOptions : JsVal) : JsVal :=
  VObj [("show",
         VObj (setProp (queryGetAllParamName operation) (VArr [VBool false])
                 (asDataObject (getProp "show" (asDataObject displayOptions)))))].

Definition pagingProperties (operation : IOperationMeta) (displayOptions : JsVal)
  : list JsVal :=
  match findSimple "page" (simple (queryUi operation)),
        findSimple "limit" (simple (queryUi operation)) with
  | Some pageField, Some limitField =>
      [VObj [("displayName", VStr "Get All");
             ("name", VStr (queryGetAllParamName operation));
             ("type", VStr "boolean"); ("default", VBool true);
             ("description", VStr "Whether to return all records from all pages");
             ("displayOptions", displayOptions)];
       limitProperty operation (pagedDisplayOptions operation displayOptions) limitField;
       pageOptionsProperty operation (pagedDisplayOptions operation displayOptions) pageField]
  | None, Some limitField => [limitProperty operation displayOptions limitField]
  | Some pageField, None => [pageOptionsProperty operation displayOptions pageField]
  | None, None => []
  end.

Definition selectProperty (name type : string) (default : JsVal)
    (displayOptions : JsVal) (field : option IQuerySelectField) : list JsVal :=
  match field with
  | Some select =>
      if negb (Nat.eqb (List.length (selectOptions select)) 0) then
        [VObj [("displayName", VStr (selectLabel select)); ("name", VStr name);
               ("type", VStr type); ("default", default);
               ("description",
                VStr (buildApiFieldDescription (selectDoc docs select) (selectName select)));
               ("options", VArr (map uiOption (selectOptions select)));
               ("displayOptions", displayOptions)]]
      else []
  | None => []
  end.

Definition filterOption (operation : IOperationMeta) (filterField : IQueryFilterField)
  : list JsVal :=
  let plain (type : string) (default : JsVal) :=
    [VObj [("displayName", VStr (filterLabel filterField));
           ("name", VStr (queryFilterFieldParamName operation filterField));
           ("type", VStr type); ("default", default);
           ("description",
            VStr (buildApiFieldDescription (filterDoc docs filterField)
                    (filterName filterField)))]] in
  match filterFieldType filterField with
  | FBetweenDateTime =>
      [VObj [("displayName", VStr (filterLabel filterField ++ " From"));
             ("name", VStr (queryFilterFromParamName operation filterField));
             ("type", VStr "dateTime"); ("default", VStr "");
             ("description",
              VStr (buildApiFieldDescription (filterDoc docs filterField)
                      (filterName filterField ++ ".from")))];
       VObj [("displayName", VStr (filterLabel filterField ++ " To"));
             ("name", VStr (queryFilterToParamName operation filterField));
             ("type", VStr "dateTime"); ("default", VStr "");
             ("description",
              VStr (buildApiFieldDescription (filterDoc docs filterField)
                      (filterName filterField ++ ".to")))]]
  | FNumber | FInteger => plain "number" (VNum (Js.Dec 0 0))
  | FBoolean => plain "boolean" (VBool false)
  | FString => plain "string" (VStr "")
  end.

Definition customFieldsFilterOption (operation : IOperationMeta) : JsVal :=
  VObj [("displayName", VStr "Custom Fields");
        ("name", VStr (queryCustomFieldsFilterParamName operation));
        ("type", VStr "fixedCollection"); ("default", VObj []);
        ("placeholder", VStr "Add custom field filter");
        ("description", VStr "Filter by custom fields");
        ("typeOptions", VObj [("multipleValues", VBool true)]);
        ("options",
         VArr [VObj [("name", VStr "items"); ("displayName", VStr "Custom Field");
                     ("values",
                      VArr [VObj [("displayName", VStr "Custom Field Name or ID");
                                  ("name", VStr "uuid"); ("type", VStr "options");
                                  ("default", VStr "");
                                  ("description", VStr expressionHint);
                                  ("typeOptions",
                                   VObj [("loadOptionsMethod", VStr "getCustomFields")]);
                                  ("options", VArr [])];
                            VObj [("displayName", VStr "Value"); ("name", VStr "value");
                                  ("type", VStr "string"); ("default", VStr "");
                                  ("description", VStr "Value to filter by")]])]])].

Definition filterProperties (resourceKey : string) (operation : IOperationMeta)
    (displayOptions : JsVal) : list JsVal :=
  match filters (queryUi operation) with
  | [] => []
  | fields =>
      let filterOptions :=
        (flat_map (filterOption operation) fields
         ++ match getCustomFieldModelForResource resourceKey with
            | Some _ => [customFieldsFilterOption operation]
            | None => []
            end)%list in
      [VObj [("displayName", VStr "Filter");
             ("name", VStr (queryFilterCollectionParamName operation));
             ("type", VStr "collection"); ("default", VObj []);
             ("placeholder", VStr "Add filter");
             ("description", VStr "Filtering options");
             ("options", VArr filterOptions);
             ("displayOptions", displayOptions)]]
  end.

Definition bodyProperties (operation : IOperationMeta) (displayOptions : JsVal)
  : list JsVal :=
  match bodyUi operation with
  | None => []
  | Some ui =>
      (match String.eqb (contentType ui) "multipart/form-data", binaryProperty ui with
       | true, Some (String c r as fileField) =>
           [VObj [("displayName", VStr "Binary Property");
                  ("name", VStr (bodyBinaryPropertyParamName operation));
                  ("type", VStr "string"); ("default", VStr "data");
                  ("required", VBool true);
                  ("description",
                   VStr ("Input binary property name. File field: " ++ fileField ++ "."));
                  ("displayOptions", displayOptions)]]
       | _, _ => []
       end
       ++ map (fun requiredField =>
                 createBodyFieldNodeProperty operation requiredField true
                   (Some displayOptions)) (requiredFields ui)
       ++ match optionalFields ui with
          | [] => []
          | fields =>
              [VObj [("displayName", VStr "Additional Fields");
                     ("name", VStr (bodyOptionalCollectionParamName operation));
                     ("type", VStr "collection"); ("default", VObj []);
                     ("placeholder", VStr "Add field");
                     ("description", VStr "Optional body fields");
                     ("options",
                      VArr (map (fun optionalField =>
                                   createBodyFieldNodeProperty operation optionalField
                                     false None) fields));
                     ("displayOptions", displayOptions)]]
          end)%list
  end.

(** The descriptors pushed for one operation, in order. *)
Definition operationProperties (resourceKey : string) (operation : IOperationMeta)
  : list JsVal :=
  let displayOptions := operationDisplayOptions resourceKey operation in
  (map (pathProperty operation displayOptions) (pathUi operation)
   ++ map (simpleProperty operation displayOptions)
        (filter (fun f => negb (isPaging f)) (simple (queryUi operation)))
   ++ pagingProperties operation displayOptions
   ++ selectProperty (queryIncludeParamName operation) "multiOptions" (VArr [])
        displayOptions (include (queryUi operation))
   ++ selectProperty (querySortParamName operation) "options" (VStr "")
        displayOptions (sort (queryUi operation))
   ++ filterProperties resourceKey operation displayOptions
   ++ bodyProperties operation displayOptions)%list.

Definition buildNodeProperties (resources : list IResourceMeta) : Result (list JsVal) :=
  match resources with
  | [] => Throw (ApplicationError "No resources found in openapi-data.json")
  | _ =>
      Ok (resourceSelector resources
          :: map operationSelector resources
          ++ flat_map (fun resource =>
                         flat_map (operationProperties (resourceValue resource))
                           (operations resource)) resources)%list
  end.

End Compiler.

(** ** Vocabulary of the statements about descriptors *)

(** [property[key]]. *)
Definition propertyEntry (key : string) (property : JsVal) : JsVal :=
  getProp key (asDataObject property).

(** The descriptor is shown only while the resource and the operation are
    the selected ones. *)
Definition scopedTo (resourceKey : string) (operation : IOperationMeta)
    (property : JsVal) : Prop :=
  exists show,
    propertyEntry "displayOptions" property = VObj [("show", VObj show)]
    /\ getProp "resource" show = VArr [VStr resourceKey]
    /\ getProp "operation" show = VArr [VStr (operationValue operation)].

(** The [type] entries a primitive body field can be given. *)
Definition isPrimitiveType (type : JsVal) : Prop :=
  type = VStr "options" \/ type = VStr "number" \/ type = VStr "boolean"
  \/ type = VStr "string" \/ type = VStr "dateTime".

(** The node parameters that processing an item of the operation reads at
    the top level, besides [resource] and [operation]. *)
Definition readParameterNames (operation : IOperationMeta) : list string :=
  (map (pathParamName operation) (pathUi operation)
   ++ map (querySimpleParamName operation)
        (filter (fun f => negb (isPaging f)) (simple (queryUi operation)))
   ++ match findSimple "page" (simple (queryUi operation)),
            findSimple "limit" (simple (queryUi operation)) with
      | Some _, Some limitField =>
          [queryGetAllParamName operation; querySimpleParamName operation limitField;
           queryOptionsCollectionParamName operation]
      | None, Some limitField => [querySimpleParamName operation limitField]
      | Some _, None => [queryOptionsCollectionParamName operation]
      | None, None => []
      end
   ++ (if hasOptions (include (queryUi operation))
       then [queryIncludeParamName operation] else [])
   ++ (if hasOptions (sort (queryUi operation))
       then [querySortParamName operation] else [])
   ++ match filters (queryUi operation) with
      | [] => []
      | _ => [queryFilterCollectionParamName operation]
      end
   ++ match bodyUi operation with
      | None => []
      | Some ui =>
          match String.eqb (contentType ui) "multipart/form-data", binaryProperty ui with
          | true, Some (String _ _) => [bodyBinaryPropertyParamName operation]
          | _, _ =>
              map (bodyFieldParamName operation) (requiredFields ui)
              ++ match optionalFields ui with
                 | [] => []
                 | _ => [bodyOptionalCollectionParamName operation]
                 end
          end
      end)%list.

(** Two items that differ at most in node parameters the operation does
    not read. *)
Definition sameInputs (names : list string) (a b : ItemContext) : Prop :=
  binaryNames a = binaryNames b
  /\ httpRequest a = httpRequest b
  /\ forall name, In name names -> lookup name (parameters a) = lookup name (parameters b).

(* ===================================================================== *)
(** * Sample metadata *)
(* ===================================================================== *)

Module Sample.

Definition simpleField (name : string) (type : PrimitiveSchemaType) (isRequired : bool)
    (maximum default example : JsVal) : IQuerySimpleField :=
  {| simpleName := name; simpleApiPath := name; simpleLabel := name;
     simpleRequired := isRequired; simpleSchemaType := type; simpleFormat := None;
     simpleEnumValues := []; simpleMaximum := maximum; simpleDefault := default;
     simpleExample := example |}.

Definition zero : JsVal := VNum (Js.Dec 0 0).

Definition noQuery : IQueryUi :=
  {| simple := []; include := None; sort := None; filters := [] |}.

(** [GET /order] without parameters. *)
Definition listOrders : IOperationMeta :=
  {| operationValue := "list"; operationId := "listOrders"; operationLabel := "List orders";
     method := "GET"; path := "/order"; pathUi := []; queryUi := noQuery; bodyUi := None |}.

Definition orders : IResourceMeta :=
  {| resourceValue := "order"; resourceLabel := "Order"; operations := [listOrders] |}.

(** An item selecting [listOrders], answered with [response]. *)
Definition listOrdersItem (response : JsVal) : ItemContext :=
  {| parameters := [("resource", VStr "order"); ("operation", VStr "list")];
     binaryNames := [];
     httpRequest := fun _ => Ok response |}.

Definition pathField (name : string) (isRequired : bool) : IPathUiField :=
  {| pathName := name; pathApiPath := name; pathLabel := name; pathRequired := isRequired |}.

Definition createdBetween : IQueryFilterField :=
  {| filterName := "created_between"; filterLabel := "Created between";
     filterFieldType := FBetweenDateTime |}.

(** The body of the end-to-end scenario: an object [data] holding a
    required string [name] and an optional integer [age]. *)
Definition nameHead (isNullable : bool) : BodyFieldHead :=
  {| apiKey := "name"; apiPath := "data.name"; label := "Name";
     required := true; nullable := isNullable |}.

Definition stringInfo : PrimitiveInfo :=
  {| schemaType := TString; format := None; enumValues := [] |}.

Definition nameField (isNullable : bool) : IBodyField :=
  BodyPrimitive (nameHead isNullable) stringInfo.

Definition ageField : IBodyField :=
  BodyPrimitive
    {| apiKey := "age"; apiPath := "data.age"; label := "Age";
       required := false; nullable := false |}
    {| schemaType := TInteger; format := None; enumValues := [] |}.

Definition dataField (isRequired isNullable : bool) : IBodyField :=
  BodyObject
    {| apiKey := "data"; apiPath := "data"; label := "Data";
       required := isRequired; nullable := false |}
    [nameField isNullable; ageField].

Definition createBuyer : IOperationMeta :=
  {| operationValue := "create"; operationId := "createNewBuyer";
     operationLabel := "Create buyer"; method := "POST"; path := "/buyer";
     pathUi := []; queryUi := noQuery;
     bodyUi := Some {| contentType := "application/json"; binaryProperty := None;
                       requiredFields := [dataField true false];
                       optionalFields := [] |} |}.

Definition buyers : IResourceMeta :=
  {| resourceValue := "buyer"; resourceLabel := "Buyer"; operations := [createBuyer] |}.

(** An item for [createBuyer] whose [data] parameter is [supplied]; the
    transport answers with the JSON body it was sent. *)
Definition createBuyerItem (supplied : JsVal) : ItemContext :=
  {| parameters := [("resource", VStr "buyer"); ("operation", VStr "create");
                    (bodyFieldParamName createBuyer (dataField true false), supplied)];
     binaryNames := [];
     httpRequest := fun request =>
       Ok (match body request with
           | JsonBody payload => VObj payload
           | _ => VNull
           end) |}.

(** A response that always announces a further page. *)
Definition alwaysMore : JsVal :=
  VObj [("current_page", VNum (Js.Dec 1 0)); ("last_page", VNum (Js.Dec 2 0));
        ("data", VArr [])].

(** Page [page] of a three-page listing with counters, two items a page. *)
Definition countedPage (page : nat) : JsVal :=
  VObj [("current_page", VNum (Js.ofNat page)); ("last_page", VNum (Js.Dec 3 0));
        ("data", VArr [VObj [("id", VNum (Js.ofNat page))]; VObj []])].

(** Bare arrays: two full pages of two items, then a page of one. *)
Definition barePage (page : nat) : JsVal :=
  if Nat.ltb page 3 then VArr [VNull; VNull] else VArr [VNull].

(** [GET /order/{id}] with one query field. *)
Definition getOrder : IOperationMeta :=
  {| operationValue := "get"; operationId := "getOrder"; operationLabel := "Get order";
     method := "GET"; path := "/order/{id}"; pathUi := [pathField "id" true];
     queryUi := {| simple := [simpleField "with_items" TBoolean false VUndef VUndef VUndef];
                   include := None; sort := None; filters := [] |};
     bodyUi := None |}.

Definition catalogue : list IResourceMeta :=
  [{| resourceValue := "order"; resourceLabel := "Order";
      operations := [listOrders; getOrder] |};
   buyers].

(** Two operations whose identifiers differ only in punctuation, each with
    a path field [id]. *)
Definition lookalike (id : string) : IOperationMeta :=
  {| operationValue := id; operationId := id; operationLabel := id;
     method := "GET"; path := "/order/{id}"; pathUi := [pathField "id" true];
     queryUi := noQuery; bodyUi := None |}.

Definition lookalikes : list IResourceMeta :=
  [{| resourceValue := "order"; resourceLabel := "Order";
      operations := [lookalike "get-order"; lookalike "get.order"] |}].

(** Two operations with different tokens, one continuing the other past a
    separator: [order] with the path field [item.id], and [order.item] with
    the path field [id]. *)
Definition nestedNames : list IResourceMeta :=
  [{| resourceValue := "order"; resourceLabel := "Order";
      operations :=
        [{| operationValue := "order"; operationId := "order"; operationLabel := "Order";
            method := "GET"; path := "/order/{item.id}";
            pathUi := [pathField "item.id" true]; queryUi := noQuery; bodyUi := None |};
         {| operationValue := "orderItem"; operationId := "order.item";
            operationLabel := "Order item";
            method := "GET"; path := "/order/item/{id}";
            pathUi := [pathField "id" true]; queryUi := noQuery; bodyUi := None |}] |}].

(** A paginated listing with a date-range filter; the transport answers
    with the URL and the query it was sent. *)
Definition limitField : IQuerySimpleField :=
  simpleField "limit" TInteger false (VNum (Js.Dec 50 0)) (VNum (Js.Dec 15 0)) VUndef.

Definition pageField : IQuerySimpleField :=
  simpleField "page" TInteger false VUndef VUndef VUndef.

Definition pagedOrders : IOperationMeta :=
  {| operationValue := "list"; operationId := "getPaginatedListOfOrders";
     operationLabel := "List orders"; method := "GET"; path := "/order"; pathUi := [];
     queryUi := {| simple := [limitField; pageField]; include := None; sort := None;
                   filters := [createdBetween] |};
     bodyUi := None |}.

Definition pagedCatalogue : list IResourceMeta :=
  [{| resourceValue := "order"; resourceLabel := "Order"; operations := [pagedOrders] |}].

Definition pagedItem (supplied : IDataObject) : ItemContext :=
  {| parameters := ("resource", VStr "order") :: ("operation", VStr "list") :: supplied;
     binaryNames := [];
     httpRequest := fun request => Ok (VObj (("url", VStr (url request)) :: qs request)) |}.

(** [listOrdersItem] with one more node parameter set. *)
Definition strayItem (response : JsVal) : ItemContext :=
  {| parameters := [("resource", VStr "order"); ("operation", VStr "list");
                    ("path__getorder__order_id", VStr "7")];
     binaryNames := [];
     httpRequest := fun _ => Ok response |}.

(** Metadata without descriptions. *)
Definition noDocs : Docs :=
  {| pathDoc := fun _ => None; simpleDoc := fun _ => None; selectDoc := fun _ => None;
     filterDoc := fun _ => None; bodyDoc := fun _ => None; optionDoc := fun _ => None;
     operationSummary := fun _ => EmptyString;
     operationDescription := fun _ => EmptyString |}.

End Sample.

(* ===================================================================== *)
(** * Properties *)
(* ===================================================================== *)

Example sanitize_samples :
  sanitizeParamToken "data.name" = "data__name" /\
  sanitizeParamToken "!!!" = "value" /\
  sanitizeParamToken "_a--B_" = "a__b" /\
  sanitizeParamToken "getOrders" = "getorders".
Proof. repeat split; vm_compute; reflexivity. Qed.

Example parseNumber_samples :
  Js.parseNumber " 12.50 " = Js.Dec 1250 (-2) /\
  Js.parseNumber "" = Js.Dec 0 0 /\
  Js.parseNumber "-3e2" = Js.Dec (-3) 2 /\
  Js.parseNumber "0x1F" = Js.Dec 31 0 /\
  Js.parseNumber "abc" = Js.NaN /\
  Js.parseNumber "." = Js.NaN /\
  Js.parseNumber ".5" = Js.Dec 5 (-1) /\
  Js.parseNumber "5." = Js.Dec 5 0 /\
  Js.parseNumber "1e" = Js.NaN /\
  Js.parseNumber "-Infinity" = Js.Inf true.
Proof. repeat split; vm_compute; reflexivity. Qed.

Example numToString_samples :
  Js.numToString (Js.Dec 1250 (-2)) = "12.5" /\
  Js.numToString (Js.Dec (-3) 2) = "-300" /\
  Js.numToString (Js.Dec 5 (-7)) = "5e-7" /\
  Js.numToString (Js.Dec 5 (-3)) = "0.005" /\
  Js.numToString (Js.Dec 123 19) = "1.23e+21" /\
  Js.numToString (Js.Dec 0 3) = "0" /\
  Js.trunc (Js.Dec (-1250) (-2)) = Js.Dec (-12) 0 /\
  Js.trim "  a b  " = "a b".
Proof. repeat split; vm_compute; reflexivity. Qed.

Example hasMorePaginatedItems_samples :
  hasMorePaginatedItems (VObj [("next_page_url", VNull)]) 1 (Js.Dec 50 0) 50 = false
  /\ hasMorePaginatedItems (VObj [("links", VObj [("next", VStr "u")])]) 1 (Js.Dec 50 0) 0
     = true
  /\ hasMorePaginatedItems (VObj [("page", VNum (Js.Dec 1 0)); ("last_page", VStr "3")])
       1 (Js.Dec 50 0) 0 = true
  /\ hasMorePaginatedItems (VArr []) 999 (Js.Dec 50 0) 50 = true
  /\ hasMorePaginatedItems (VArr []) 1000 (Js.Dec 50 0) 50 = false.
Proof. repeat split; vm_compute; reflexivity. Qed.

(** One item through [execute]: an explicit page and limit with a date
    range; a limit of zero; and the fetch-all default. *)
Example execute_paged_samples :
  execute Js.parseDateOnly Sample.pagedCatalogue 5 false
    [Sample.pagedItem
       [(queryGetAllParamName Sample.pagedOrders, VBool false);
        (querySimpleParamName Sample.pagedOrders Sample.limitField, VStr "7.5");
        (queryOptionsCollectionParamName Sample.pagedOrders,
         VObj [(queryPageOptionParamName Sample.pagedOrders, VNum (Js.Dec 2 0))]);
        (queryFilterCollectionParamName Sample.pagedOrders,
         VObj [(queryFilterFromParamName Sample.pagedOrders Sample.createdBetween,
                VStr "2024-01-01");
               (queryFilterToParamName Sample.pagedOrders Sample.createdBetween,
                VStr "2024-01-31")])]]
  = Some (Ok [VObj [("json",
       VObj [("url", VStr "https://openapi.keycrm.app/v1/order");
             ("limit", VNum (Js.Dec 7 0));
             ("page", VNum (Js.Dec 2 0));
             ("filter", VObj [("created_between",
                               VStr "2024-01-01 00:00:00, 2024-01-31 00:00:00")])])]])
  /\ execute Js.parseDateOnly Sample.pagedCatalogue 5 false
       [Sample.pagedItem
          [(queryGetAllParamName Sample.pagedOrders, VBool false);
           (querySimpleParamName Sample.pagedOrders Sample.limitField, VStr "0")]]
     = Some (Throw (invalidValue "limit" 0))
  /\ execute Js.parseDateOnly Sample.pagedCatalogue 5 false [Sample.pagedItem []]
     = Some (Ok [VObj [("json",
          VObj [("url", VStr "https://openapi.keycrm.app/v1/order");
                ("page", VNum (Js.Dec 1 0));
                ("limit", VNum (Js.Dec 50 0))])]]).
Proof. repeat split; vm_compute; reflexivity. Qed.

(* --------------------------------------------------------------------- *)
(** ** Authorization header *)
(* --------------------------------------------------------------------- *)

(** C8, as the code has it: a token that already starts with [bearer ] in
    any letter case is sent trimmed and otherwise unchanged; any other
    token is sent as [Bearer ] followed by the trimmed token; either way
    the header starts with [bearer ] when letter case is ignored. *)
Theorem authorization_header_bearer (apiToken : string) :
  (authorizationHeader apiToken = Js.trim apiToken
   \/ authorizationHeader apiToken = "Bearer " ++ Js.trim apiToken)
  /\ (Js.startsWith (Js.toLowerCase (Js.trim apiToken)) "bearer " = false ->
      authorizationHeader apiToken = "Bearer " ++ Js.trim apiToken)
  /\ (Js.startsWith (Js.toLowerCase (Js.trim apiToken)) "bearer " = true ->
      authorizationHeader apiToken = Js.trim apiToken)
  /\ Js.startsWith (Js.toLowerCase (authorizationHeader apiToken)) "bearer " = true.
Proof.
  unfold authorizationHeader.
  destruct (Js.startsWith (Js.toLowerCase (Js.trim apiToken)) "bearer ") eqn:Hp.
  - destruct apiToken as [|c r]; [discriminate Hp|].
    simpl negb. cbv iota beta. simpl andb.
    repeat split; auto; discriminate.
  - rewrite andb_false_r.
    repeat split; auto; discriminate.
Qed.

Lemma authorization_header_bearer_witness :
  authorizationHeader "  BEARER abc " = "BEARER abc"
  /\ authorizationHeader "abc" = "Bearer abc".
Proof.
  split.
  - apply (authorization_header_bearer "  BEARER abc "). reflexivity.
  - apply (authorization_header_bearer "abc"). reflexivity.
Defined.

(** C8 as stated fails: a token entered with a lower-case prefix is passed
    through, so the header does not start with the exact text [Bearer ]. *)
Lemma authorization_header_keeps_entered_case :
  authorizationHeader "bearer abc" = "bearer abc"
  /\ Js.startsWith (authorizationHeader "bearer abc") "Bearer " = false
  /\ ~ (forall apiToken,
         Js.startsWith (authorizationHeader apiToken) "Bearer " = true).
Proof.
  split; [reflexivity|]. split; [reflexivity|].
  intros H. specialize (H "bearer abc"). discriminate H.
Qed.

(* --------------------------------------------------------------------- *)
(** ** Query value inclusion and coercion *)
(* --------------------------------------------------------------------- *)



(** C4, as the code has it: a number or integer field yields
    [Number(value)], truncated for an integer, and [undefined] when that is
    NaN; a boolean field yields the truthiness of the value; a string field
    yields [String(value)].  The result is [undefined] exactly in the NaN
    case.  It agrees with the primitive normalizer on a non-empty value of a
    numeric field, on a boolean value of a boolean field, and on a value of
    a string field that is neither null nor undefined and is not blank
    (or whose field is nullable). *)
Theorem normalize_query_value_rules (field : IQuerySimpleField) (value : JsVal) :
  (simpleSchemaType field = TNumber ->
   normalizeSimpleQueryValue field value =
     if Js.isNaN (toNumber value) then VUndef else VNum (toNumber value))
  /\ (simpleSchemaType field = TInteger ->
      normalizeSimpleQueryValue field value =
        if Js.isNaN (toNumber value) then VUndef else VNum (Js.trunc (toNumber value)))
  /\ (simpleSchemaType field = TBoolean ->
      normalizeSimpleQueryValue field value = VBool (toBoolean value))
  /\ (simpleSchemaType field = TString ->
      normalizeSimpleQueryValue field value = VStr (toStr value))
  /\ (normalizeSimpleQueryValue field value = VUndef <->
      isNumericType (simpleSchemaType field) = true /\ Js.isNaN (toNumber value) = true)
  /\ (forall head info, schemaType info = simpleSchemaType field ->
      (isNumericType (simpleSchemaType field) = true /\ isEmptyValue value = false)
      \/ (simpleSchemaType field = TBoolean /\ exists b, value = VBool b)
      \/ (simpleSchemaType field = TString /\ value <> VNull /\ value <> VUndef
          /\ (nullable head = true \/ String.eqb (Js.trim (toStr value)) EmptyString = false)) ->
      normalizeSimpleQueryValue field value = normalizePrimitiveValue head info value).
Proof.
  unfold normalizeSimpleQueryValue.
  repeat apply conj.
  - intros ->. reflexivity.
  - intros ->. reflexivity.
  - intros ->. reflexivity.
  - intros ->. reflexivity.
  - destruct (simpleSchemaType field); simpl;
      destruct (Js.isNaN (toNumber value)); try discriminate; auto.
  - intros [Hn Hnan]. rewrite Hnan.
    destruct (simpleSchemaType field); try discriminate Hn; reflexivity.
  - intros head info Ht H. unfold normalizePrimitiveValue. rewrite Ht.
    destruct H as [[Hn He]|[[Hb [b ->]]|[Hs [Hnull [Hundef Hblank]]]]].
    + rewrite He. destruct (simpleSchemaType field); try discriminate Hn; reflexivity.
    + rewrite Hb. reflexivity.
    + rewrite Hs.
      destruct value; try congruence;
        (destruct Hblank as [-> | ->]; [reflexivity | now rewrite andb_false_r]).
Qed.

Lemma normalize_query_value_rules_witness :
  normalizeSimpleQueryValue
    (Sample.simpleField "status_id" TInteger false VUndef VUndef VUndef) (VStr "12.7")
  = VNum (Js.Dec 12 0)
  /\ normalizeSimpleQueryValue
       (Sample.simpleField "status_id" TInteger false VUndef VUndef VUndef) (VStr "abc")
     = VUndef.
Proof.
  split.
  - apply (normalize_query_value_rules
             (Sample.simpleField "status_id" TInteger false VUndef VUndef VUndef)
             (VStr "12.7")). reflexivity.
  - apply (normalize_query_value_rules
             (Sample.simpleField "status_id" TInteger false VUndef VUndef VUndef)
             (VStr "abc")). split; reflexivity.
Defined.

(** C4 as stated fails: text that is no number yields [undefined] in a
    numeric field, and the two normalizers differ on the text ["false"] in a
    boolean field, on an empty text in a numeric field and on [undefined]
    in a string field. *)
Lemma normalize_query_value_differs :
  ~ (forall field value, normalizeSimpleQueryValue field value <> VUndef)
  /\ ~ (forall field head info value,
          schemaType info = simpleSchemaType field ->
          normalizeSimpleQueryValue field value = normalizePrimitiveValue head info value).
Proof.
  split.
  - intros H.
    apply (H (Sample.simpleField "status_id" TNumber false VUndef VUndef VUndef) (VStr "abc")).
    reflexivity.
  - intros H.
    specialize (H (Sample.simpleField "active" TBoolean false VUndef VUndef VUndef)
                  {| apiKey := "active"; apiPath := "active"; label := "Active";
                     required := false; nullable := false |}
                  {| schemaType := TBoolean; format := None; enumValues := [] |}
                  (VStr "false") eq_refl).
    discriminate H.
Qed.

(* --------------------------------------------------------------------- *)
(** ** Page size *)
(* --------------------------------------------------------------------- *)

Lemma pow10_pos (k : Z) : 0 <= k -> 0 < 10 ^ k.
Proof. intros Hk. apply Z.pow_pos_nonneg; lia. Qed.

(** Truncating a finite number that is above zero and not below one gives
    an integer that is at least one. *)
Lemma trunc_at_least_one (m e : Z) :
  Js.gt (Js.Dec m e) (Js.Dec 0 0) = true ->
  Js.lt (Js.Dec m e) (Js.Dec 1 0) = false ->
  isPositiveInteger (Js.trunc (Js.Dec m e)).
Proof.
  unfold Js.gt, Js.lt, Js.align, Js.trunc, isPositiveInteger.
  intros Hpos Hone.
  apply Z.ltb_lt in Hpos. apply Z.ltb_ge in Hone.
  destruct (Z.leb_spec 0 e) as [He|He].
  - exists (m * 10 ^ e). split; [|reflexivity].
    rewrite Z.min_l in Hpos by lia.
    replace (e - 0) with e in Hpos by lia.
    rewrite Z.mul_0_l in Hpos. exact Hpos.
  - exists (Z.quot m (10 ^ (- e))). split; [|reflexivity].
    rewrite Z.min_l in Hone by lia.
    replace (e - e) with 0 in Hone by lia.
    replace (0 - e) with (- e) in Hone by lia.
    pose proof (pow10_pos (- e) ltac:(lia)) as Hp.
    rewrite Z.quot_div_nonneg by lia.
    apply Z.div_str_pos.
    rewrite Z.pow_0_r, Z.mul_1_l, Z.mul_1_r in Hone. lia.
Qed.

Lemma trunc_parsed_positive (candidate : JsVal) :
  parsesPositive candidate = true -> parsesAtLeastOne candidate = true ->
  isPositiveInteger (Js.trunc (toNumber candidate)).
Proof.
  unfold parsesPositive, parsesAtLeastOne.
  destruct (toNumber candidate) as [|neg|m e]; try discriminate.
  intros Hp Ho. apply andb_true_iff in Hp as [_ Hp].
  apply negb_true_iff in Ho. now apply trunc_at_least_one.
Qed.

(** C9, as the code has it: the page size is the truncation of the first
    of the declared maximum, default and example that parses to a number
    above zero, and 50 when none does; it is a positive integer whenever
    every candidate that parses above zero is finite and at least one. *)
Theorem resolve_page_size_chain (limitField : IQuerySimpleField) :
  (parsesPositive (simpleMaximum limitField) = true ->
   resolvePageSize limitField = Js.trunc (toNumber (simpleMaximum limitField)))
  /\ (parsesPositive (simpleMaximum limitField) = false ->
      parsesPositive (simpleDefault limitField) = true ->
      resolvePageSize limitField = Js.trunc (toNumber (simpleDefault limitField)))
  /\ (parsesPositive (simpleMaximum limitField) = false ->
      parsesPositive (simpleDefault limitField) = false ->
      parsesPositive (simpleExample limitField) = true ->
      resolvePageSize limitField = Js.trunc (toNumber (simpleExample limitField)))
  /\ (parsesPositive (simpleMaximum limitField) = false ->
      parsesPositive (simpleDefault limitField) = false ->
      parsesPositive (simpleExample limitField) = false ->
      resolvePageSize limitField = Js.Dec 50 0)
  /\ ((forall candidate,
         In candidate [simpleMaximum limitField; simpleDefault limitField;
                       simpleExample limitField] ->
         parsesPositive candidate = true -> parsesAtLeastOne candidate = true) ->
      isPositiveInteger (resolvePageSize limitField)).
Proof.
  unfold resolvePageSize, firstPositive.
  fold (parsesPositive (simpleMaximum limitField)).
  fold (parsesPositive (simpleDefault limitField)).
  fold (parsesPositive (simpleExample limitField)).
  repeat apply conj.
  - intros ->. reflexivity.
  - intros -> ->. reflexivity.
  - intros -> -> ->. reflexivity.
  - intros -> -> ->. reflexivity.
  - intros Hall.
    destruct (parsesPositive (simpleMaximum limitField)) eqn:H1.
    { apply trunc_parsed_positive; [exact H1|]. apply Hall; simpl; auto. }
    destruct (parsesPositive (simpleDefault limitField)) eqn:H2.
    { apply trunc_parsed_positive; [exact H2|]. apply Hall; simpl; auto. }
    destruct (parsesPositive (simpleExample limitField)) eqn:H3.
    { apply trunc_parsed_positive; [exact H3|]. apply Hall; simpl; auto. }
    exists 50. split; [lia|reflexivity].
Qed.

Lemma resolve_page_size_chain_witness :
  resolvePageSize
    (Sample.simpleField "limit" TInteger false (VNum (Js.Dec 50 0)) (VNum (Js.Dec 15 0)) VUndef)
  = Js.Dec 50 0
  /\ resolvePageSize
       (Sample.simpleField "limit" TInteger false VUndef (VStr "15") VUndef)
     = Js.Dec 15 0
  /\ isPositiveInteger
       (resolvePageSize (Sample.simpleField "limit" TInteger false VUndef (VStr "15") VUndef)).
Proof.
  split; [|split].
  - exact (proj1 (resolve_page_size_chain
             (Sample.simpleField "limit" TInteger false (VNum (Js.Dec 50 0))
                (VNum (Js.Dec 15 0)) VUndef)) eq_refl).
  - exact (proj1 (proj2 (resolve_page_size_chain
             (Sample.simpleField "limit" TInteger false VUndef (VStr "15") VUndef)))
             eq_refl eq_refl).
  - apply (proj2 (proj2 (proj2 (proj2 (resolve_page_size_chain
             (Sample.simpleField "limit" TInteger false VUndef (VStr "15") VUndef)))))).
    intros candidate [<-|[<-|[<-|[]]]]; intros H; try discriminate H; reflexivity.
Defined.

(** C9 as stated fails twice: the declared example is tried before the
    fallback constant, and a declared maximum between zero and one
    truncates to zero. *)
Lemma resolve_page_size_not_as_stated :
  resolvePageSize
    (Sample.simpleField "limit" TInteger false VUndef VUndef (VNum (Js.Dec 20 0)))
  = Js.Dec 20 0
  /\ resolvePageSize
       (Sample.simpleField "limit" TInteger false (VNum (Js.Dec 5 (-1))) VUndef VUndef)
     = Js.Dec 0 0
  /\ ~ (forall limitField,
          parsesPositive (simpleMaximum limitField) = false ->
          parsesPositive (simpleDefault limitField) = false ->
          resolvePageSize limitField = Js.Dec 50 0)
  /\ ~ (forall limitField, isPositiveInteger (resolvePageSize limitField)).
Proof.
  repeat apply conj; try reflexivity.
  - intros H.
    specialize (H (Sample.simpleField "limit" TInteger false VUndef VUndef
                     (VNum (Js.Dec 20 0))) eq_refl eq_refl).
    discriminate H.
  - intros H.
    destruct (H (Sample.simpleField "limit" TInteger false (VNum (Js.Dec 5 (-1)))
                   VUndef VUndef)) as [z [Hz Heq]].
    vm_compute in Heq. injection Heq as <-. lia.
Qed.

(* --------------------------------------------------------------------- *)
(** ** Response normalization *)
(* --------------------------------------------------------------------- *)

Lemma returnJsonArray_length (items : list JsVal) :
  List.length (returnJsonArray items) = List.length items.
Proof. unfold returnJsonArray. apply length_map. Qed.

(** C5, as the code has it: a bare array yields one record per element,
    hence none when it is empty; an object yields one record holding it; a
    scalar (and [undefined]) yields one record wrapping it; so every
    response other than an empty array yields at least one record. *)
Theorem normalize_response_records (data : JsVal) :
  (forall items, data = VArr items ->
     List.length (normalizeResponseData data) = List.length items)
  /\ (isObject data = true -> normalizeResponseData data = [VObj [("json", data)]])
  /\ (match data with VArr _ | VObj _ => False | _ => True end ->
      normalizeResponseData data = [VObj [("json", VObj [("value", data)])]])
  /\ (data <> VArr [] -> (1 <= List.length (normalizeResponseData data))%nat).
Proof.
  repeat apply conj.
  - intros items ->. apply returnJsonArray_length.
  - destruct data; try discriminate. reflexivity.
  - destruct data; try contradiction; reflexivity.
  - intros Hne. destruct data as [| | | | |items|]; simpl; try lia.
    rewrite returnJsonArray_length. destruct items; [congruence|simpl; lia].
Qed.

Lemma normalize_response_records_witness :
  List.length (normalizeResponseData (VArr [VNull; VObj []])) = 2%nat
  /\ normalizeResponseData (VStr "ok") = [VObj [("json", VObj [("value", VStr "ok")])]]
  /\ (1 <= List.length (normalizeResponseData (VObj [])))%nat.
Proof.
  split; [|split].
  - exact (proj1 (normalize_response_records (VArr [VNull; VObj []])) _ eq_refl).
  - exact (proj1 (proj2 (proj2 (normalize_response_records (VStr "ok")))) I).
  - apply (proj2 (proj2 (proj2 (normalize_response_records (VObj []))))). discriminate.
Defined.

(** C5 as stated fails: an empty array response yields no record, and an
    item answered with one passes through [execute] leaving neither a data
    record nor an error record. *)
Lemma empty_array_response_yields_nothing :
  normalizeResponseData (VArr []) = []
  /\ (forall dateParse fuel continueOnFail,
        execute dateParse [Sample.orders] fuel continueOnFail
          [Sample.listOrdersItem (VArr [])] = Some (Ok []))
  /\ ~ (forall data, (1 <= List.length (normalizeResponseData data))%nat).
Proof.
  repeat apply conj.
  - reflexivity.
  - intros dateParse fuel continueOnFail. reflexivity.
  - intros H. specialize (H (VArr [])). simpl in H. lia.
Qed.

(* --------------------------------------------------------------------- *)
(** ** Path substitution *)
(* --------------------------------------------------------------------- *)

Lemma startsWith_app (pat rest : string) : Js.startsWith (pat ++ rest) pat = true.
Proof.
  induction pat as [|c pat IH]; simpl; [reflexivity|].
  now rewrite Ascii.eqb_refl, IH.
Qed.

Lemma drop_app_length (pat rest : string) : Js.drop (String.length pat) (pat ++ rest) = rest.
Proof. induction pat as [|c pat IH]; simpl; [now destruct rest|exact IH]. Qed.

Lemma splitAtFirst_eq (pat s : string) :
  Js.splitAtFirst pat s =
    if Js.startsWith s pat then Some (EmptyString, Js.drop (String.length pat) s)
    else match s with
         | EmptyString => None
         | String c r =>
             match Js.splitAtFirst pat r with
             | Some (before, after) => Some (String c before, after)
             | None => None
             end
         end.
Proof. destruct s; reflexivity. Qed.

(** The first occurrence is where no earlier position starts one. *)
Lemma splitAtFirst_first (pat before after : string) :
  (forall i, (i < String.length before)%nat ->
     Js.startsWith (Js.drop i (before ++ pat ++ after)) pat = false) ->
  Js.splitAtFirst pat (before ++ pat ++ after) = Some (before, after).
Proof.
  induction before as [|c before IH]; intros Hnone.
  - simpl append at 1.
    now rewrite splitAtFirst_eq, startsWith_app, drop_app_length.
  - pose proof (Hnone 0%nat ltac:(simpl; lia)) as H0.
    change ((String c before ++ pat ++ after)%string)
      with (String c (before ++ pat ++ after)) in *.
    simpl Js.drop in H0.
    rewrite splitAtFirst_eq, H0. cbv beta iota.
    rewrite IH; [reflexivity|].
    intros i Hi. apply (Hnone (S i)). simpl. lia.
Qed.

Lemma splitAtFirst_none (pat s : string) :
  (forall i, Js.startsWith (Js.drop i s) pat = false) ->
  Js.splitAtFirst pat s = None.
Proof.
  induction s as [|c s IH]; intros Hnone.
  - rewrite splitAtFirst_eq. now rewrite (Hnone 0%nat : Js.startsWith "" pat = false).
  - rewrite splitAtFirst_eq.
    rewrite (Hnone 0%nat : Js.startsWith (String c s) pat = false).
    cbv beta iota.
    rewrite IH; [reflexivity|]. intros i. apply (Hnone (S i)).
Qed.

Lemma includes_dollar_cons (c : ascii) (r : string) :
  Js.includes (String c r) "$" = (Ascii.eqb "$" c || Js.includes r "$")%bool.
Proof.
  change (Js.includes (String c r) "$")
    with (if (Ascii.eqb "$" c && Js.startsWith r "")%bool then true else Js.includes r "$").
  destruct r; simpl Js.startsWith; rewrite andb_true_r;
    destruct (Ascii.eqb "$" c); reflexivity.
Qed.

(** A replacement text without a dollar sign stands for itself. *)
Lemma getSubstitution_plain (matched before after rep : string) :
  Js.includes rep "$" = false ->
  Js.getSubstitution matched before after rep = rep.
Proof.
  induction rep as [|c rep IH]; intros Hplain; [reflexivity|].
  rewrite includes_dollar_cons in Hplain.
  apply orb_false_iff in Hplain as [Hc Hrest].
  specialize (IH Hrest).
  assert (Hstep : Js.getSubstitution matched before after (String c rep)
                  = String c (Js.getSubstitution matched before after rep)).
  { destruct c as [[] [] [] [] [] [] [] []]; try reflexivity; discriminate Hc. }
  now rewrite Hstep, IH.
Qed.

Lemma hexDigit_plain (n : nat) : (n < 16)%nat -> Ascii.eqb "$" (Js.hexDigit n) = false.
Proof.
  intros Hn. do 16 (destruct n as [|n]; [reflexivity|]). lia.
Qed.

Lemma encodeURIComponent_cons (c : ascii) (r : string) :
  Js.encodeURIComponent (String c r) =
    if Js.isUriUnreserved c then String c (Js.encodeURIComponent r)
    else String "%" (String (Js.hexDigit (Nat.div (Js.code c) 16))
                       (String (Js.hexDigit (Nat.modulo (Js.code c) 16))
                          (Js.encodeURIComponent r))).
Proof. reflexivity. Qed.

Lemma encodeURIComponent_plain (s : string) :
  Js.includes (Js.encodeURIComponent s) "$" = false.
Proof.
  induction s as [|c s IH]; [reflexivity|].
  rewrite encodeURIComponent_cons.
  destruct (Js.isUriUnreserved c) eqn:Hc.
  - rewrite includes_dollar_cons, IH, orb_false_r.
    destruct (Ascii.eqb "$" c) eqn:Heq; [|reflexivity].
    apply Ascii.eqb_eq in Heq. subst c. discriminate Hc.
  - pose proof (nat_ascii_bounded c) as Hc256. fold (Js.code c) in Hc256.
    rewrite !includes_dollar_cons, !hexDigit_plain, IH; [reflexivity| |].
    + apply Nat.mod_upper_bound. lia.
    + apply Nat.Div0.div_lt_upper_bound. lia.
Qed.



(* --------------------------------------------------------------------- *)
(** ** Date-range filter *)
(* --------------------------------------------------------------------- *)

Lemma padDatePart_below_100 :
  forallb (fun n => (twoDigits (padDatePart (Z.of_nat n))
                     && Z.eqb (Js.digitsValue (padDatePart (Z.of_nat n))) (Z.of_nat n))%bool)
          (seq 0 100) = true.
Proof. vm_compute. reflexivity. Qed.

Lemma padDatePart_two_digits (v : Z) :
  0 <= v < 100 ->
  twoDigits (padDatePart v) = true /\ Js.digitsValue (padDatePart v) = v.
Proof.
  intros Hv.
  pose proof padDatePart_below_100 as Hall.
  rewrite forallb_forall in Hall.
  specialize (Hall (Z.to_nat v)).
  rewrite Z2Nat.id in Hall by lia.
  assert (Hin : In (Z.to_nat v) (seq 0 100)) by (apply in_seq; lia).
  apply Hall in Hin. apply andb_true_iff in Hin as [H2 Hval].
  apply Z.eqb_eq in Hval. auto.
Qed.

(** Month and day of month of any day number are in range. *)
Lemma civilFromDays_ranges (days : Z) :
  1 <= snd (fst (Js.civilFromDays days)) <= 12
  /\ 1 <= snd (Js.civilFromDays days) <= 31.
Proof.
  unfold Js.civilFromDays. cbv zeta. cbn [fst snd].
  set (z := days + 719468).
  set (era := z / 146097).
  set (doe := z - era * 146097).
  assert (Hdoe : 0 <= doe <= 146096).
  { unfold doe, era. pose proof (Z.mod_pos_bound z 146097 ltac:(lia)) as H.
    rewrite Z.mod_eq in H by lia. lia. }
  clearbody doe. clear z era.
  set (yoe := (doe - doe / 1460 + doe / 36524 - doe / 146096) / 365).
  set (doy := doe - (365 * yoe + yoe / 4 - yoe / 100)).
  assert (Hdoy : 0 <= doy <= 365).
  { unfold doy, yoe. Z.div_mod_to_equations. lia. }
  clearbody doy.
  set (mp := (5 * doy + 2) / 153).
  assert (Hmp : 0 <= mp <= 11).
  { unfold mp. Z.div_mod_to_equations. lia. }
  set (d := doy - (153 * mp + 2) / 5 + 1).
  assert (Hd : 1 <= d <= 31).
  { unfold d, mp. Z.div_mod_to_equations. lia. }
  destruct (Z.ltb_spec mp 10); lia.
Qed.

Lemma timeOfDay_ranges (t : Z) :
  0 <= Js.getUTCHours t < 100 /\ 0 <= Js.getUTCMinutes t < 100
  /\ 0 <= Js.getUTCSeconds t < 100.
Proof.
  unfold Js.getUTCHours, Js.getUTCMinutes, Js.getUTCSeconds, Js.msPerDay.
  repeat apply conj; Z.div_mod_to_equations; lia.
Qed.

(** Whatever the parser accepts is printed as a UTC stamp. *)
Lemma toKeycrmUtcDateTime_stamp (dateParse : string -> option Z) (value : string) (t : Z) :
  dateParse value = Some t ->
  exists text, toKeycrmUtcDateTime dateParse value = Ok text /\ isUtcStamp t text.
Proof.
  intros Hparse. unfold toKeycrmUtcDateTime. rewrite Hparse.
  eexists. split; [reflexivity|].
  pose proof (civilFromDays_ranges (t / Js.msPerDay)) as [Hm Hd].
  pose proof (timeOfDay_ranges t) as [Hh [Hmi Hs]].
  exists (padDatePart (Js.getUTCMonth t + 1)), (padDatePart (Js.getUTCDate t)),
         (padDatePart (Js.getUTCHours t)), (padDatePart (Js.getUTCMinutes t)),
         (padDatePart (Js.getUTCSeconds t)).
  split; [reflexivity|].
  unfold Js.getUTCMonth, Js.getUTCDate in *.
  repeat apply conj; apply padDatePart_two_digits; lia.
Qed.



(* --------------------------------------------------------------------- *)
(** ** Payload assembly: the end-to-end scenario *)
(* --------------------------------------------------------------------- *)

Lemma string_eqb_app_l (p a b : string) :
  String.eqb (p ++ a) (p ++ b) = String.eqb a b.
Proof.
  induction p as [|c p IH]; simpl; [reflexivity|]. now rewrite Ascii.eqb_refl.
Qed.

Lemma lookup_head (key : string) (v : JsVal) (rest : IDataObject) :
  lookup key ((key, v) :: rest) = Some v.
Proof. simpl. now rewrite String.eqb_refl. Qed.

(** The identifiers of [name] and [age] differ, whatever the operation. *)
Lemma name_id_is_not_age_id (operation : IOperationMeta) (isNullable : bool) :
  String.eqb (bodyFieldParamName operation (Sample.nameField isNullable))
             (bodyFieldParamName operation Sample.ageField) = false.
Proof.
  unfold bodyFieldParamName.
  rewrite (string_eqb_app_l "body__"), string_eqb_app_l.
  reflexivity.
Qed.

Section Scenario.

Variables (ctx : ItemContext) (operation : IOperationMeta) (itemIndex : nat).
Variables (ui : IBodyUi) (dataRequired nameNullable : bool) (supplied : JsVal).

Hypothesis operation_body : bodyUi operation = Some ui.
Hypothesis json_body : contentType ui = "application/json".
Hypothesis only_data : requiredFields ui = [Sample.dataField dataRequired nameNullable].
Hypothesis no_optional : optionalFields ui = [].
Hypothesis data_supplied :
  lookup (bodyFieldParamName operation (Sample.dataField dataRequired nameNullable))
         (parameters ctx) = Some supplied.

Let nameId : string := bodyFieldParamName operation (Sample.nameField nameNullable).

(** The body block comes down to parsing [data]. *)
Lemma scenario_body :
  assembleBody ctx operation itemIndex =
    parsed <- parseBodyFieldValue operation itemIndex
                (Sample.dataField dataRequired nameNullable) supplied ;;
    if isUndefined parsed
    then Throw (missing "body field" "data" itemIndex)
    else Ok (JsonBody [("data", parsed)]).
Proof.
  unfold assembleBody. rewrite operation_body, json_body.
  change (String.eqb "application/json" "multipart/form-data") with false.
  cbv iota. unfold assembleJsonBody. rewrite only_data, no_optional.
  unfold addRequiredFields, getNodeParameter. rewrite data_supplied.
  unfold bind at 2.
  destruct (parseBodyFieldValue operation itemIndex _ supplied) as [parsed|e];
    [|reflexivity].
  unfold bind. destruct (isUndefined parsed); reflexivity.
Qed.

End Scenario.

Section ParseData.

Variables (operation : IOperationMeta) (itemIndex : nat).
Variables (dataRequired nameNullable : bool).

Let nameId : string := bodyFieldParamName operation (Sample.nameField nameNullable).

(** Parsing [data] when no entry for [name] was supplied. *)
Lemma scenario_name_absent (supplied : JsVal) :
  lookup nameId (asDataObject supplied) = None ->
  parseBodyFieldValue operation itemIndex
    (Sample.dataField dataRequired nameNullable) supplied
  = Throw (missing "field" "data.name" itemIndex).
Proof.
  intros Habsent. unfold Sample.dataField.
  cbn -[bodyFieldParamName hasKey getProp asDataObject Sample.nameField Sample.ageField].
  fold nameId. unfold hasKey. rewrite Habsent. reflexivity.
Qed.

(** Parsing [data] when the entry for [name] normalizes to [undefined]. *)
Lemma scenario_name_undefined (supplied v : JsVal) :
  lookup nameId (asDataObject supplied) = Some v ->
  normalizePrimitiveValue (Sample.nameHead nameNullable) Sample.stringInfo v = VUndef ->
  parseBodyFieldValue operation itemIndex
    (Sample.dataField dataRequired nameNullable) supplied
  = Throw (missing "field" "data.name" itemIndex).
Proof.
  intros Hsome Hundef. unfold Sample.dataField.
  cbn -[bodyFieldParamName hasKey getProp asDataObject Sample.nameField Sample.ageField
        normalizePrimitiveValue].
  fold nameId. unfold hasKey, getProp. rewrite Hsome.
  cbn -[normalizePrimitiveValue].
  change (normalizePrimitiveValue _ _ v)
    with (normalizePrimitiveValue (Sample.nameHead nameNullable) Sample.stringInfo v).
  rewrite Hundef. reflexivity.
Qed.

(** Parsing [data] when only [name] was supplied, as the text Ada. *)
Lemma scenario_name_ada :
  parseBodyFieldValue operation itemIndex
    (Sample.dataField dataRequired nameNullable) (VObj [(nameId, VStr "Ada")])
  = Ok (VObj [("name", VStr "Ada")]).
Proof.
  unfold Sample.dataField.
  cbn -[bodyFieldParamName hasKey getProp Sample.nameField Sample.ageField].
  fold nameId. unfold hasKey, getProp.
  rewrite lookup_head.
  assert (Hage : lookup (bodyFieldParamName operation Sample.ageField)
                   [(nameId, VStr "Ada")] = None).
  { cbn [lookup]. unfold nameId. now rewrite name_id_is_not_age_id. }
  rewrite Hage.
  cbn -[bodyFieldParamName]. now rewrite andb_false_r.
Qed.

End ParseData.

(** C1: with [data] holding the required string [name] (API path
    [data.name]) and the optional integer [age], supplying only the text
    Ada under the identifier of [name] gives the body
    [{"data":{"name":"Ada"}}]; supplying no entry for [name], or one that
    normalizes to [undefined], raises an error whose message names
    [data.name]. *)
Theorem body_scenario (ctx : ItemContext) (operation : IOperationMeta) (itemIndex : nat)
    (ui : IBodyUi) (dataRequired nameNullable : bool) (supplied : JsVal) :
  bodyUi operation = Some ui ->
  contentType ui = "application/json" ->
  requiredFields ui = [Sample.dataField dataRequired nameNullable] ->
  optionalFields ui = [] ->
  lookup (bodyFieldParamName operation (Sample.dataField dataRequired nameNullable))
         (parameters ctx) = Some supplied ->
  (supplied = VObj [(bodyFieldParamName operation (Sample.nameField nameNullable),
                     VStr "Ada")] ->
   assembleBody ctx operation itemIndex
   = Ok (JsonBody [("data", VObj [("name", VStr "Ada")])]))
  /\ (lookup (bodyFieldParamName operation (Sample.nameField nameNullable))
             (asDataObject supplied) = None ->
      assembleBody ctx operation itemIndex
      = Throw (NodeOperationError
                 ("Missing required field " ++ Js.quoted "data.name") itemIndex))
  /\ (forall v,
        lookup (bodyFieldParamName operation (Sample.nameField nameNullable))
               (asDataObject supplied) = Some v ->
        normalizePrimitiveValue (Sample.nameHead nameNullable) Sample.stringInfo v = VUndef ->
        assembleBody ctx operation itemIndex
        = Throw (NodeOperationError
                   ("Missing required field " ++ Js.quoted "data.name") itemIndex)).
Proof.
  intros Hbody Hjson Hreq Hopt Hdata.
  rewrite (scenario_body ctx operation itemIndex ui dataRequired nameNullable supplied
             Hbody Hjson Hreq Hopt Hdata).
  repeat apply conj.
  - intros ->. now rewrite scenario_name_ada.
  - intros Habsent. now rewrite (scenario_name_absent operation itemIndex _ _ _ Habsent).
  - intros v Hsome Hundef.
    now rewrite (scenario_name_undefined operation itemIndex _ _ _ v Hsome Hundef).
Qed.

Lemma body_scenario_witness :
  assembleBody
    (Sample.createBuyerItem
       (VObj [(bodyFieldParamName Sample.createBuyer (Sample.nameField false), VStr "Ada")]))
    Sample.createBuyer 0
  = Ok (JsonBody [("data", VObj [("name", VStr "Ada")])])
  /\ assembleBody (Sample.createBuyerItem (VObj [])) Sample.createBuyer 0
     = Throw (NodeOperationError ("Missing required field " ++ Js.quoted "data.name") 0)
  /\ assembleBody
       (Sample.createBuyerItem
          (VObj [(bodyFieldParamName Sample.createBuyer (Sample.nameField false), VStr "  ")]))
       Sample.createBuyer 0
     = Throw (NodeOperationError ("Missing required field " ++ Js.quoted "data.name") 0).
Proof.
  split; [|split].
  - apply (proj1 (body_scenario
             (Sample.createBuyerItem
                (VObj [(bodyFieldParamName Sample.createBuyer (Sample.nameField false),
                        VStr "Ada")]))
             Sample.createBuyer 0 _ true false _ eq_refl eq_refl eq_refl eq_refl eq_refl)).
    reflexivity.
  - apply (proj1 (proj2 (body_scenario (Sample.createBuyerItem (VObj []))
             Sample.createBuyer 0 _ true false _ eq_refl eq_refl eq_refl eq_refl eq_refl))).
    reflexivity.
  - apply (proj2 (proj2 (body_scenario
             (Sample.createBuyerItem
                (VObj [(bodyFieldParamName Sample.createBuyer (Sample.nameField false),
                        VStr "  ")]))
             Sample.createBuyer 0 _ true false _ eq_refl eq_refl eq_refl eq_refl eq_refl))
             (VStr "  ")); reflexivity.
Defined.

(** The scenario run through [execute]: the request carries the body
    [{"data":{"name":"Ada"}}], and without [name] the item fails. *)
Example execute_scenario :
  execute Js.parseDateOnly [Sample.buyers] 1 false
    [Sample.createBuyerItem
       (VObj [(bodyFieldParamName Sample.createBuyer (Sample.nameField false), VStr "Ada")])]
  = Some (Ok [VObj [("json", VObj [("data", VObj [("name", VStr "Ada")])])]])
  /\ execute Js.parseDateOnly [Sample.buyers] 1 true
       [Sample.createBuyerItem (VObj [])]
     = Some (Ok [errorRecord
                   (NodeOperationError
                      ("Missing required field " ++ Js.quoted "data.name") 0) 0]).
Proof. split; vm_compute; reflexivity. Qed.

(* --------------------------------------------------------------------- *)
(** ** Pagination *)
(* --------------------------------------------------------------------- *)

Lemma collected_succ (responses : nat -> JsVal) (n : nat) :
  collected responses (S n)
  = (collected responses n ++ extractPaginatedItems (responses (S n)))%list.
Proof.
  unfold collected. rewrite seq_S, flat_map_app. simpl. now rewrite app_nil_r.
Qed.

Lemma collected_length (responses : nat -> JsVal) (n : nat) :
  List.length (collected responses n) = itemsUpTo responses n.
Proof.
  induction n as [|n IH]; [reflexivity|].
  rewrite collected_succ, length_app, IH. reflexivity.
Qed.

(** From page [page] on, [k] pages that ask for more followed by one that
    does not: the loop returns after that one, given fuel for it. *)
Lemma fetchAllPages_run (responses : nat -> JsVal) (pageSize : Js.Num) (k : nat) :
  forall page aggregated fuel,
    (forall p, (page <= p < page + k)%nat -> continuesAfter responses pageSize p = true) ->
    continuesAfter responses pageSize (page + k) = false ->
    (k < fuel)%nat ->
    fetchAllPages fuel (fun p => Ok (responses p)) pageSize page aggregated
    = Some (Ok ((aggregated
                 ++ flat_map (fun p => extractPaginatedItems (responses p))
                      (seq page (S k)))%list,
                responses (page + k)%nat, (page + k)%nat)).
Proof.
  induction k as [|k IH]; intros page aggregated fuel Hmore Hstop Hfuel.
  - destruct fuel as [|fuel]; [lia|].
    rewrite Nat.add_0_r in *. unfold continuesAfter in Hstop.
    simpl. rewrite Hstop. simpl. now rewrite app_nil_r.
  - destruct fuel as [|fuel]; [lia|].
    pose proof (Hmore page ltac:(lia)) as Hfirst. unfold continuesAfter in Hfirst.
    cbn [fetchAllPages]. rewrite Hfirst. cbn [negb].
    rewrite (IH (S page) _ fuel).
    + rewrite <- app_assoc. replace (S page + k)%nat with (page + S k)%nat by lia.
      reflexivity.
    + intros p Hp. apply Hmore. lia.
    + replace (S page + k)%nat with (page + S k)%nat by lia. exact Hstop.
    + lia.
Qed.

(** While every page asks for more, the loop is still running. *)
Lemma fetchAllPages_running (responses : nat -> JsVal) (pageSize : Js.Num) (fuel : nat) :
  forall page aggregated,
    (forall p, (page <= p < page + fuel)%nat -> continuesAfter responses pageSize p = true) ->
    fetchAllPages fuel (fun p => Ok (responses p)) pageSize page aggregated = None.
Proof.
  induction fuel as [|fuel IH]; intros page aggregated Hmore; [reflexivity|].
  pose proof (Hmore page ltac:(lia)) as Hfirst. unfold continuesAfter in Hfirst.
  cbn [fetchAllPages]. rewrite Hfirst. cbn [negb].
  apply IH. intros p Hp. apply Hmore. lia.
Qed.

(** The loop stops on the first page that refuses continuation. *)
Lemma stops_at_first_refusal (responses : nat -> JsVal) (pageSize : Js.Num) (n : nat) :
  (1 <= n)%nat ->
  (forall p, (1 <= p < n)%nat -> continuesAfter responses pageSize p = true) ->
  continuesAfter responses pageSize n = false ->
  stopsAtPage responses pageSize n.
Proof.
  intros Hn Hmore Hstop. destruct n as [|k]; [lia|]. split.
  - intros fuel Hfuel.
    rewrite (fetchAllPages_run responses pageSize k 1 [] fuel); try lia.
    + reflexivity.
    + intros p Hp. apply Hmore. lia.
    + exact Hstop.
  - intros fuel Hfuel. apply fetchAllPages_running.
    intros p Hp. apply Hmore. lia.
Qed.

Lemma lt_ofNat_1000 (page : nat) :
  Js.lt (Js.ofNat page) (Js.ofZ 1000) = Nat.ltb page 1000.
Proof.
  unfold Js.lt, Js.ofNat, Js.ofZ, Js.align.
  change (Z.min 0 0) with 0. change (10 ^ (0 - 0)) with 1.
  rewrite !Z.mul_1_r.
  destruct (Nat.ltb_spec page 1000); [apply Z.ltb_lt|apply Z.ltb_ge]; lia.
Qed.

(** With counters, continuation is [current_page < last_page]. *)
Lemma hasMore_with_counters (response : JsVal) (page : nat) (pageSize : Js.Num)
    (itemsCount : nat) :
  hasPageCounters response = true ->
  hasMorePaginatedItems response page pageSize itemsCount
  = Js.lt (currentPageOf response) (lastPageOf response).
Proof.
  destruct response; try discriminate. intros H.
  unfold hasPageCounters in H. unfold hasMorePaginatedItems. rewrite H. reflexivity.
Qed.

Lemma getProp_absent (key : string) (entries : IDataObject) :
  hasKey key entries = false -> getProp key entries = VUndef.
Proof. unfold hasKey, getProp. destruct (lookup key entries); [discriminate|reflexivity]. Qed.

(** Without metadata, continuation is a full page below the ceiling. *)
Lemma hasMore_without_metadata (response : JsVal) (page : nat) (pageSize : Js.Num)
    (itemsCount : nat) :
  noPaginationMetadata response = true ->
  hasMorePaginatedItems response page pageSize itemsCount
  = (Js.ge (Js.ofNat itemsCount) pageSize && Nat.ltb page 1000)%bool.
Proof.
  intros H. unfold hasMorePaginatedItems. rewrite lt_ofNat_1000.
  destruct response; try reflexivity.
  unfold noPaginationMetadata in H.
  repeat (apply andb_true_iff in H as [H ?]).
  repeat match goal with
         | Hk : negb (hasKey _ _) = true |- _ =>
             apply negb_true_iff in Hk; apply getProp_absent in Hk; rewrite Hk
         end.
  reflexivity.
Qed.

(** C3, as the code has it: the loop stops on the first page whose
    response refuses continuation.  With numeric [current_page] and
    [last_page] (the latter above zero) on every page, that is the first
    page where [current_page] is not below [last_page], and the items
    gathered number the sum of the page item counts.  Without pagination
    metadata it is the first page short of the page size, when that page
    is not beyond page 1000; and when the first 1000 pages are all full it
    is page 1000 exactly. *)
Theorem pagination_stopping_points (responses : nat -> JsVal) (pageSize : Js.Num) (n : nat) :
  (1 <= n)%nat ->
  ((forall p, (1 <= p < n)%nat -> continuesAfter responses pageSize p = true) ->
   continuesAfter responses pageSize n = false ->
   stopsAtPage responses pageSize n)
  /\ ((forall p, (1 <= p <= n)%nat -> hasPageCounters (responses p) = true) ->
      (forall p, (1 <= p < n)%nat ->
         Js.lt (currentPageOf (responses p)) (lastPageOf (responses p)) = true) ->
      Js.lt (currentPageOf (responses n)) (lastPageOf (responses n)) = false ->
      stopsAtPage responses pageSize n
      /\ List.length (collected responses n) = itemsUpTo responses n)
  /\ ((forall p, (1 <= p <= n)%nat -> noPaginationMetadata (responses p) = true) ->
      (forall p, (1 <= p < n)%nat -> fullPage pageSize (responses p) = true) ->
      fullPage pageSize (responses n) = false ->
      (n <= 1000)%nat ->
      stopsAtPage responses pageSize n)
  /\ ((forall p, (1 <= p <= 1000)%nat ->
         noPaginationMetadata (responses p) = true
         /\ fullPage pageSize (responses p) = true) ->
      stopsAtPage responses pageSize 1000).
Proof.
  intros Hn. repeat apply conj.
  - intros Hmore Hstop. now apply stops_at_first_refusal.
  - intros Hcount Hbelow Hlast. split; [|apply collected_length].
    apply stops_at_first_refusal; [exact Hn| |].
    + intros p Hp. unfold continuesAfter.
      rewrite hasMore_with_counters by (apply Hcount; lia). apply Hbelow. exact Hp.
    + unfold continuesAfter.
      rewrite hasMore_with_counters by (apply Hcount; lia). exact Hlast.
  - intros Hmeta Hfull Hshort Hceil.
    apply stops_at_first_refusal; [exact Hn| |].
    + intros p Hp. unfold continuesAfter.
      rewrite hasMore_without_metadata by (apply Hmeta; lia).
      unfold fullPage in Hfull. rewrite (Hfull p Hp).
      destruct (Nat.ltb_spec p 1000); [reflexivity|lia].
    + unfold continuesAfter. rewrite hasMore_without_metadata by (apply Hmeta; lia).
      unfold fullPage in Hshort. now rewrite Hshort.
  - intros Hall.
    apply stops_at_first_refusal; [lia| |].
    + intros p Hp. destruct (Hall p ltac:(lia)) as [Hmeta Hfull].
      unfold continuesAfter. rewrite hasMore_without_metadata by exact Hmeta.
      unfold fullPage in Hfull. rewrite Hfull.
      destruct (Nat.ltb_spec p 1000); [reflexivity|lia].
    + destruct (Hall 1000%nat ltac:(lia)) as [Hmeta _].
      unfold continuesAfter. rewrite hasMore_without_metadata by exact Hmeta.
      apply andb_false_r.
Qed.

Lemma pagination_stopping_points_witness :
  (stopsAtPage Sample.countedPage (Js.Dec 2 0) 3
   /\ List.length (collected Sample.countedPage 3) = itemsUpTo Sample.countedPage 3)
  /\ stopsAtPage Sample.barePage (Js.Dec 2 0) 3
  /\ stopsAtPage (fun _ => VArr [VNull]) (Js.Dec 1 0) 1000.
Proof.
  split; [|split].
  - apply (proj1 (proj2 (pagination_stopping_points Sample.countedPage (Js.Dec 2 0) 3
                           ltac:(lia)))).
    + intros p Hp. reflexivity.
    + intros p Hp. destruct p as [|[|[|p]]]; try lia; reflexivity.
    + reflexivity.
  - apply (proj1 (proj2 (proj2 (pagination_stopping_points Sample.barePage (Js.Dec 2 0) 3
                                  ltac:(lia))))).
    + intros p Hp. destruct p as [|[|[|[|p]]]]; try lia; reflexivity.
    + intros p Hp. destruct p as [|[|[|p]]]; try lia; reflexivity.
    + reflexivity.
    + lia.
  - apply (proj2 (proj2 (proj2 (pagination_stopping_points (fun _ => VArr [VNull])
                                  (Js.Dec 1 0) 1 ltac:(lia))))).
    intros p Hp. split; reflexivity.
Defined.

(** C3 as stated fails: against responses that announce a further page
    every time, the loop never stops; the 1000-page ceiling guards only
    the branch without metadata. *)
Lemma pagination_may_not_terminate :
  (forall fuel pageSize,
     fetchAllPages fuel (fun _ => Ok Sample.alwaysMore) pageSize 1 [] = None)
  /\ ~ (forall (respond : nat -> Result JsVal) (pageSize : Js.Num),
          exists fuel, fetchAllPages fuel respond pageSize 1 [] <> None).
Proof.
  assert (Hloop : forall fuel pageSize,
             fetchAllPages fuel (fun _ => Ok Sample.alwaysMore) pageSize 1 [] = None).
  { intros fuel pageSize.
    apply (fetchAllPages_running (fun _ => Sample.alwaysMore)).
    intros p _. reflexivity. }
  split; [exact Hloop|].
  intros Hterm.
  destruct (Hterm (fun _ => Ok Sample.alwaysMore) (Js.Dec 50 0)) as [fuel Hfuel].
  apply Hfuel, Hloop.
Qed.

(* --------------------------------------------------------------------- *)
(** ** Generated identifiers *)
(* --------------------------------------------------------------------- *)

Lemma stripTrailingUnderscores_clean (s : string) :
  endsWithUnderscore (stripTrailingUnderscores s) = false.
Proof.
  induction s as [|c s IH]; [reflexivity|].
  simpl. destruct (stripTrailingUnderscores s) as [|d r].
  - destruct (Ascii.eqb c "_") eqn:Hc; [reflexivity|exact Hc].
  - exact IH.
Qed.

Lemma lowerChar_underscore (c : ascii) :
  Ascii.eqb (Js.lowerChar c) "_" = Ascii.eqb c "_".
Proof. destruct c as [[] [] [] [] [] [] [] []]; reflexivity. Qed.

Lemma toLowerCase_clean (s : string) :
  endsWithUnderscore (Js.toLowerCase s) = endsWithUnderscore s.
Proof.
  induction s as [|c s IH]; [reflexivity|].
  destruct s as [|d r].
  - simpl. apply lowerChar_underscore.
  - exact IH.
Qed.

(** A token never ends with the separator character. *)
Lemma sanitizeParamToken_clean (value : string) :
  endsWithUnderscore (sanitizeParamToken value) = false.
Proof.
  unfold sanitizeParamToken, stripUnderscores.
  pose proof (stripTrailingUnderscores_clean
                (stripLeadingUnderscores (replaceSymbolRuns false value))) as H.
  rewrite <- toLowerCase_clean in H.
  destruct (Js.toLowerCase _); [reflexivity|exact H].
Qed.

Lemma endsWithUnderscore_tail (c : ascii) (r : string) :
  endsWithUnderscore (String c r) = false -> endsWithUnderscore r = false.
Proof. destruct r; [reflexivity|auto]. Qed.

Lemma startsWith_true_cons (c : ascii) (s p : string) :
  Js.startsWith s p = true -> Js.startsWith (String c s) (String c p) = true.
Proof. intros H. simpl. now rewrite Ascii.eqb_refl. Qed.

(** Two clean tokens followed by the separator open the same text only if
    they are equal or one continues the other past a separator. *)
Lemma separator_splits (t1 : string) :
  forall t2 f1 f2,
    endsWithUnderscore t1 = false -> endsWithUnderscore t2 = false ->
    t1 ++ "__" ++ f1 = t2 ++ "__" ++ f2 ->
    t1 = t2 \/ Js.startsWith t2 (t1 ++ "__") = true \/ Js.startsWith t1 (t2 ++ "__") = true.
Proof.
  induction t1 as [|a t1 IH]; intros t2 f1 f2 H1 H2 Heq.
  - destruct t2 as [|b [|c t2]]; [now left| |].
    + simpl in Heq. injection Heq as Hb _. subst b. discriminate H2.
    + simpl in Heq. injection Heq as Hb Hc _. subst b c. right. left. reflexivity.
  - destruct t2 as [|b t2].
    + destruct t1 as [|c t1].
      * simpl in Heq. injection Heq as Ha _. subst a. discriminate H1.
      * simpl in Heq. injection Heq as Ha Hc _. subst a c. right. right. reflexivity.
    + simpl in Heq. injection Heq as Hab Hrest. subst b.
      apply endsWithUnderscore_tail in H1. apply endsWithUnderscore_tail in H2.
      destruct (IH t2 f1 f2 H1 H2 Hrest) as [->|[H|H]].
      * now left.
      * right. left. now apply startsWith_true_cons.
      * right. right. now apply startsWith_true_cons.
Qed.

Lemma append_inj_l (p a b : string) : p ++ a = p ++ b -> a = b.
Proof.
  induction p as [|c p IH]; simpl; intros H; [exact H|].
  injection H as H. auto.
Qed.

Lemma operationFieldIds_namedUnder (operation : IOperationMeta) (id : string) :
  In id (operationFieldIds operation) -> namedUnder operation id.
Proof.
  unfold operationFieldIds. rewrite !in_app_iff, !in_map_iff.
  intros Hin. destruct Hin as [Hin|Hin]; [|destruct Hin as [Hin|Hin]];
    destruct Hin as [f [<- _]].
  - exists "path__", (pathFieldToken f). auto.
  - exists "query__", (simpleFieldToken f). auto.
  - exists "body__", (bodyFieldToken f). auto.
Qed.

(** Identifiers under separated operation tokens belong to one token. *)
Lemma namedUnder_same_token (x y : IOperationMeta) (id : string) :
  namedUnder x id -> namedUnder y id ->
  Js.startsWith (operationToken y) (operationToken x ++ "__") = false ->
  Js.startsWith (operationToken x) (operationToken y ++ "__") = false ->
  operationToken x = operationToken y.
Proof.
  intros [k1 [r1 [Hk1 ->]]] [k2 [r2 [Hk2 Heq]]] Hxy Hyx.
  assert (Hk : k1 = k2 /\ operationToken x ++ "__" ++ r1 = operationToken y ++ "__" ++ r2).
  { destruct Hk1 as [-> | [-> | ->] ]; destruct Hk2 as [-> | [-> | ->] ];
      try discriminate Heq; split; try reflexivity.
    - now apply (append_inj_l "path__").
    - now apply (append_inj_l "query__").
    - now apply (append_inj_l "body__"). }
  destruct Hk as [_ Htok].
  destruct (separator_splits (operationToken x) (operationToken y) r1 r2
              (sanitizeParamToken_clean _) (sanitizeParamToken_clean _) Htok)
    as [H|[H|H]];
    [exact H|congruence|congruence].
Qed.

Lemma NoDup_map_injective_on {A B : Type} (f : A -> B) (l : list A) :
  (forall x y, f x = f y -> x = y) -> NoDup l -> NoDup (map f l).
Proof.
  intros Hinj Hl. induction Hl as [|x l Hx _ IH]; simpl; constructor; [|exact IH].
  rewrite in_map_iff. intros [y [Hy Hin]]. apply Hinj in Hy. now subst.
Qed.

Lemma NoDup_named (kind token : string) (tokens : list string) :
  NoDup tokens -> NoDup (map (fun t => kind ++ token ++ "__" ++ t) tokens).
Proof.
  apply NoDup_map_injective_on. intros x y H.
  now apply append_inj_l, append_inj_l, append_inj_l in H.
Qed.

(** Within one operation, distinct tokens give distinct identifiers. *)
Lemma operationFieldIds_NoDup (operation : IOperationMeta) :
  NoDup (map pathFieldToken (pathUi operation)) ->
  NoDup (map simpleFieldToken (namedSimpleFields operation)) ->
  NoDup (map bodyFieldToken (namedBodyFieldsOf operation)) ->
  NoDup (operationFieldIds operation).
Proof.
  intros Hp Hq Hb. unfold operationFieldIds.
  apply (NoDup_named "path__" (operationToken operation)) in Hp.
  apply (NoDup_named "query__" (operationToken operation)) in Hq.
  apply (NoDup_named "body__" (operationToken operation)) in Hb.
  rewrite map_map in Hp, Hq, Hb.
  apply NoDup_app; [exact Hp| |].
  - apply NoDup_app; [exact Hq|exact Hb|].
    intros id. rewrite !in_map_iff. intros [f [<- _]] [g [Hg _]]. discriminate Hg.
  - intros id. rewrite in_app_iff, !in_map_iff.
    intros [f [<- _]] Hin. destruct Hin as [Hin|Hin];
      destruct Hin as [g [Hg _]]; discriminate Hg.
Qed.

Lemma NoDup_flat_map_keyed {A B K : Type} (key : A -> K) (f : A -> list B) (l : list A) :
  NoDup (map key l) ->
  (forall x, In x l -> NoDup (f x)) ->
  (forall x y b, In x l -> In y l -> In b (f x) -> In b (f y) -> key x = key y) ->
  NoDup (flat_map f l).
Proof.
  induction l as [|a l IH]; intros Hkeys Heach Hshare; [constructor|].
  simpl in Hkeys. apply NoDup_cons_iff in Hkeys as [Hfresh Hkeys].
  simpl. apply NoDup_app.
  - apply Heach. now left.
  - apply IH; [exact Hkeys| |].
    + intros x Hx. apply Heach. now right.
    + intros x y b Hx Hy. apply Hshare; now right.
  - intros b Hba Hbl. apply in_flat_map in Hbl as [y [Hy Hby]].
    apply Hfresh. rewrite (Hshare a y b (or_introl eq_refl) (or_intror Hy) Hba Hby).
    now apply in_map.
Qed.


Ltac distinct_strings :=
  vm_compute; repeat constructor; simpl; intuition discriminate.

Lemma catalogue_distinctTokens : distinctTokens Sample.catalogue.
Proof.
  split; [split|].
  - distinct_strings.
  - intros a b Ha Hb. vm_compute in Ha, Hb.
    destruct Ha as [<-|[<-|[<-|[]]]]; destruct Hb as [<-|[<-|[<-|[]]]]; reflexivity.
  - intros operation Hin. vm_compute in Hin.
    destruct Hin as [<-|[<-|[<-|[]]]]; repeat split; distinct_strings.
Defined.


Example catalogue_ids :
  documentFieldIds Sample.catalogue
  = ["path__getorder__id"; "query__getorder__with__items";
     "body__createnewbuyer__data"; "body__createnewbuyer__data__name";
     "body__createnewbuyer__data__age"].
Proof. vm_compute. reflexivity. Qed.


(* --------------------------------------------------------------------- *)
(** ** Tokens *)
(* --------------------------------------------------------------------- *)

Lemma stripLeadingUnderscores_cons (c : ascii) (r : string) :
  stripLeadingUnderscores (String c r)
  = if Ascii.eqb c "_" then stripLeadingUnderscores r else String c r.
Proof. destruct c as [[] [] [] [] [] [] [] []]; reflexivity. Qed.

Lemma forallChars_weaken (p q : ascii -> bool) (s : string) :
  (forall c, p c = true -> q c = true) ->
  forallChars p s = true -> forallChars q s = true.
Proof.
  intros Hpq. induction s as [|c s IH]; [reflexivity|].
  simpl. intros H. apply andb_true_iff in H as [Hc Hs].
  now rewrite (Hpq c Hc), IH.
Qed.

Lemma replaceSymbolRuns_chars (s : string) :
  forall inRun, forallChars isRawTokenChar (replaceSymbolRuns inRun s) = true.
Proof.
  induction s as [|c s IH]; intros inRun; [reflexivity|].
  simpl. destruct (Js.isAlnum c) eqn:Hc.
  - simpl. unfold isRawTokenChar at 1. now rewrite Hc, IH.
  - destruct inRun; [apply IH|]. simpl. apply IH.
Qed.

Lemma stripLeadingUnderscores_chars (p : ascii -> bool) (s : string) :
  forallChars p s = true -> forallChars p (stripLeadingUnderscores s) = true.
Proof.
  induction s as [|c s IH]; [reflexivity|].
  rewrite stripLeadingUnderscores_cons. intros H.
  destruct (Ascii.eqb c "_"); [|exact H].
  simpl in H. apply andb_true_iff in H as [_ H]. now apply IH.
Qed.

Lemma stripTrailingUnderscores_chars (p : ascii -> bool) (s : string) :
  forallChars p s = true -> forallChars p (stripTrailingUnderscores s) = true.
Proof.
  induction s as [|c s IH]; [reflexivity|].
  simpl. intros H. apply andb_true_iff in H as [Hc Hs]. specialize (IH Hs).
  destruct (stripTrailingUnderscores s) as [|d r].
  - destruct (Ascii.eqb c "_"); [reflexivity|]. simpl. now rewrite Hc.
  - change (forallChars p (String c (String d r)))
      with (p c && forallChars p (String d r))%bool. now rewrite Hc, IH.
Qed.

Lemma lowerChar_token (c : ascii) :
  isRawTokenChar c = true -> isTokenChar (Js.lowerChar c) = true.
Proof. destruct c as [[] [] [] [] [] [] [] []]; intros H; try reflexivity; discriminate H. Qed.

Lemma toLowerCase_chars (s : string) :
  forallChars isRawTokenChar s = true -> forallChars isTokenChar (Js.toLowerCase s) = true.
Proof.
  induction s as [|c s IH]; [reflexivity|].
  simpl. intros H. apply andb_true_iff in H as [Hc Hs].
  now rewrite (lowerChar_token c Hc), IH.
Qed.

Lemma stripLeadingUnderscores_start (s : string) :
  startsWithUnderscore (stripLeadingUnderscores s) = false.
Proof.
  induction s as [|c s IH]; [reflexivity|].
  rewrite stripLeadingUnderscores_cons.
  destruct (Ascii.eqb c "_") eqn:Hc; [exact IH|exact Hc].
Qed.

Lemma stripTrailingUnderscores_start (s : string) :
  startsWithUnderscore s = false ->
  startsWithUnderscore (stripTrailingUnderscores s) = false.
Proof.
  destruct s as [|c s]; [reflexivity|].
  simpl. intros Hc. destruct (stripTrailingUnderscores s).
  - now rewrite Hc.
  - exact Hc.
Qed.

Lemma toLowerCase_start (s : string) :
  startsWithUnderscore (Js.toLowerCase s) = startsWithUnderscore s.
Proof. destruct s as [|c s]; [reflexivity|]. apply lowerChar_underscore. Qed.

Lemma sanitizeParamToken_cases (value : string) :
  let cleaned := Js.toLowerCase (stripUnderscores (replaceSymbolRuns false value)) in
  (cleaned = EmptyString /\ sanitizeParamToken value = "value")
  \/ (cleaned <> EmptyString /\ sanitizeParamToken value = cleaned).
Proof.
  unfold sanitizeParamToken. cbv zeta.
  destruct (Js.toLowerCase _); [left|right]; split; congruence.
Qed.

Lemma replaceSymbolRuns_symbols (s : string) :
  forallChars (fun c => negb (Js.isAlnum c)) s = true ->
  replaceSymbolRuns true s = EmptyString
  /\ (replaceSymbolRuns false s = EmptyString \/ replaceSymbolRuns false s = "__").
Proof.
  induction s as [|c s IH]; [auto|].
  simpl. intros H. apply andb_true_iff in H as [Hc Hs].
  apply negb_true_iff in Hc. rewrite Hc.
  destruct (IH Hs) as [Hrun _]. rewrite Hrun. auto.
Qed.

Lemma sanitizeParamToken_nonempty (value : string) :
  sanitizeParamToken value <> EmptyString.
Proof.
  destruct (sanitizeParamToken_cases value) as [[_ ->]|[Hne ->]];
    [discriminate|exact Hne].
Qed.

Lemma sanitizeParamToken_chars (value : string) :
  forallChars isTokenChar (sanitizeParamToken value) = true.
Proof.
  destruct (sanitizeParamToken_cases value) as [[_ ->]|[_ ->]]; [reflexivity|].
  apply toLowerCase_chars. unfold stripUnderscores.
  apply stripTrailingUnderscores_chars, stripLeadingUnderscores_chars,
    replaceSymbolRuns_chars.
Qed.

Lemma sanitizeParamToken_start (value : string) :
  startsWithUnderscore (sanitizeParamToken value) = false.
Proof.
  destruct (sanitizeParamToken_cases value) as [[_ ->]|[_ ->]]; [reflexivity|].
  rewrite toLowerCase_start. unfold stripUnderscores.
  apply stripTrailingUnderscores_start, stripLeadingUnderscores_start.
Qed.

(** X1: a token is never empty, consists of characters of [[a-z0-9_]]
    only, neither starts nor ends with an underscore, and is the fallback
    [value] whenever the raw text holds no letter or digit. *)
Theorem sanitizeParamToken_shape (value : string) :
  sanitizeParamToken value <> EmptyString
  /\ forallChars isTokenChar (sanitizeParamToken value) = true
  /\ startsWithUnderscore (sanitizeParamToken value) = false
  /\ endsWithUnderscore (sanitizeParamToken value) = false
  /\ (forallChars (fun c => negb (Js.isAlnum c)) value = true ->
      sanitizeParamToken value = "value").
Proof.
  split; [|split; [|split; [|split]]].
  - apply sanitizeParamToken_nonempty.
  - apply sanitizeParamToken_chars.
  - apply sanitizeParamToken_start.
  - apply sanitizeParamToken_clean.
  - intros Hsym. destruct (replaceSymbolRuns_symbols value Hsym) as [_ [H|H]];
      unfold sanitizeParamToken; rewrite H; reflexivity.
Qed.

Lemma sanitizeParamToken_shape_witness :
  sanitizeParamToken "?!/" = "value".
Proof.
  apply (proj2 (proj2 (proj2 (proj2 (sanitizeParamToken_shape "?!/"))))). reflexivity.
Defined.

(** Induction on strings that can look two characters ahead. *)
Lemma string_pair_ind (P : string -> Prop) :
  P EmptyString ->
  (forall c, P (String c EmptyString)) ->
  (forall c d r, P r -> P (String d r) -> P (String c (String d r))) ->
  forall s, P s.
Proof.
  intros H0 H1 H2 s.
  assert (Hboth : P s /\ forall c, P (String c s)).
  { induction s as [|d r [IHr IHdr]]; split; auto. }
  exact (proj1 Hboth).
Qed.

Lemma separatorsPaired_cons (c : ascii) (r : string) :
  separatorsPaired (String c r)
  = if Js.isAlnum c then separatorsPaired r
    else match r with
         | String d r' =>
             (Ascii.eqb c "_" && Ascii.eqb d "_" && opensWithAlnum r'
              && separatorsPaired r')%bool
         | EmptyString => false
         end.
Proof. reflexivity. Qed.

Lemma replaceSymbolRuns_paired (s : string) :
  separatorsPaired (replaceSymbolRuns false s) = true
  /\ separatorsPaired (replaceSymbolRuns true s) = true
  /\ opensWithAlnum (replaceSymbolRuns true s) = true.
Proof.
  induction s as [|c s [IHf [IHt IHo]]]; [auto|].
  simpl replaceSymbolRuns. destruct (Js.isAlnum c) eqn:Hc.
  - rewrite separatorsPaired_cons, Hc. simpl opensWithAlnum. auto.
  - repeat split; auto.
    rewrite separatorsPaired_cons.
    change (Js.isAlnum "_") with false. cbv iota.
    now rewrite IHo, IHt.
Qed.

Lemma alnum_not_underscore (c : ascii) : Js.isAlnum c = true -> Ascii.eqb c "_" = false.
Proof. destruct c as [[] [] [] [] [] [] [] []]; intros H; try reflexivity; discriminate H. Qed.

Lemma opensWithAlnum_start (s : string) :
  opensWithAlnum s = true -> startsWithUnderscore s = false.
Proof. destruct s as [|e s]; [reflexivity|]. apply alnum_not_underscore. Qed.

Lemma stripLeadingUnderscores_id (s : string) :
  startsWithUnderscore s = false -> stripLeadingUnderscores s = s.
Proof.
  destruct s as [|c s]; [reflexivity|].
  rewrite stripLeadingUnderscores_cons. simpl. now intros ->.
Qed.

Lemma stripLeadingUnderscores_paired (s : string) :
  separatorsPaired s = true -> separatorsPaired (stripLeadingUnderscores s) = true.
Proof.
  destruct s as [|c r]; [reflexivity|].
  rewrite stripLeadingUnderscores_cons, separatorsPaired_cons.
  destruct (Js.isAlnum c) eqn:Hc.
  - rewrite (alnum_not_underscore c Hc). now rewrite separatorsPaired_cons, Hc.
  - destruct r as [|d r']; [discriminate|].
    intros H. apply andb_true_iff in H as [H Hp].
    apply andb_true_iff in H as [H Ho]. apply andb_true_iff in H as [Hcu Hdu].
    rewrite Hcu, stripLeadingUnderscores_cons, Hdu.
    now rewrite stripLeadingUnderscores_id by now apply opensWithAlnum_start.
Qed.

Lemma stripTrailingUnderscores_cons (c : ascii) (r : string) :
  stripTrailingUnderscores (String c r)
  = match stripTrailingUnderscores r with
    | EmptyString => if Ascii.eqb c "_" then EmptyString else String c EmptyString
    | r' => String c r'
    end.
Proof. reflexivity. Qed.

(** A text opening with a letter or digit keeps it when stripped. *)
Lemma stripTrailingUnderscores_opens (s : string) :
  opensWithAlnum s = true -> opensWithAlnum (stripTrailingUnderscores s) = true.
Proof.
  destruct s as [|e r]; [reflexivity|]. intros He.
  change (Js.isAlnum e = true) in He.
  rewrite stripTrailingUnderscores_cons.
  destruct (stripTrailingUnderscores r); [|exact He].
  now rewrite (alnum_not_underscore e He).
Qed.

Lemma stripTrailingUnderscores_paired :
  forall s, separatorsPaired s = true ->
            separatorsPaired (stripTrailingUnderscores s) = true.
Proof.
  apply (string_pair_ind
           (fun s => separatorsPaired s = true ->
                     separatorsPaired (stripTrailingUnderscores s) = true)).
  - reflexivity.
  - intros c. rewrite separatorsPaired_cons.
    destruct (Js.isAlnum c) eqn:Hc; [|discriminate]. intros _.
    rewrite stripTrailingUnderscores_cons. simpl stripTrailingUnderscores.
    rewrite (alnum_not_underscore c Hc). now rewrite separatorsPaired_cons, Hc.
  - intros c d r IHr IHdr. rewrite separatorsPaired_cons.
    destruct (Js.isAlnum c) eqn:Hc.
    + intros H. specialize (IHdr H).
      rewrite stripTrailingUnderscores_cons.
      destruct (stripTrailingUnderscores (String d r)).
      * rewrite (alnum_not_underscore c Hc). now rewrite separatorsPaired_cons, Hc.
      * now rewrite separatorsPaired_cons, Hc.
    + intros H. apply andb_true_iff in H as [H Hp].
      apply andb_true_iff in H as [H Ho]. apply andb_true_iff in H as [Hcu Hdu].
      specialize (IHr Hp). pose proof (stripTrailingUnderscores_opens r Ho) as Ho'.
      rewrite stripTrailingUnderscores_cons, (stripTrailingUnderscores_cons d r).
      destruct (stripTrailingUnderscores r) as [|e t] eqn:Hstrip.
      * now rewrite Hdu, Hcu.
      * rewrite separatorsPaired_cons, Hc, Hcu, Hdu, Ho', IHr. reflexivity.
Qed.

Lemma lowerChar_alnum (c : ascii) : Js.isAlnum (Js.lowerChar c) = Js.isAlnum c.
Proof. destruct c as [[] [] [] [] [] [] [] []]; reflexivity. Qed.

Lemma toLowerCase_opens (s : string) :
  opensWithAlnum (Js.toLowerCase s) = opensWithAlnum s.
Proof. destruct s as [|e r]; [reflexivity|]. apply lowerChar_alnum. Qed.

Lemma toLowerCase_paired :
  forall s, separatorsPaired (Js.toLowerCase s) = separatorsPaired s.
Proof.
  apply (string_pair_ind
           (fun s => separatorsPaired (Js.toLowerCase s) = separatorsPaired s)).
  - reflexivity.
  - intros c. simpl Js.toLowerCase.
    now rewrite !separatorsPaired_cons, lowerChar_alnum.
  - intros c d r IHr IHdr.
    change (Js.toLowerCase (String c (String d r)))
      with (String (Js.lowerChar c) (Js.toLowerCase (String d r))).
    rewrite !separatorsPaired_cons, lowerChar_alnum, IHdr.
    change (Js.toLowerCase (String d r))
      with (String (Js.lowerChar d) (Js.toLowerCase r)).
    now rewrite !lowerChar_underscore, toLowerCase_opens, IHr.
Qed.

Lemma replaceSymbolRuns_cons (inRun : bool) (c : ascii) (r : string) :
  replaceSymbolRuns inRun (String c r)
  = if Js.isAlnum c then String c (replaceSymbolRuns false r)
    else if inRun then replaceSymbolRuns true r
    else String "_" (String "_" (replaceSymbolRuns true r)).
Proof. reflexivity. Qed.

(** On a text whose separators are paired the replacement changes nothing. *)
Lemma replaceSymbolRuns_paired_id :
  forall s, separatorsPaired s = true -> replaceSymbolRuns false s = s.
Proof.
  apply (string_pair_ind
           (fun s => separatorsPaired s = true -> replaceSymbolRuns false s = s)).
  - reflexivity.
  - intros c. rewrite separatorsPaired_cons, replaceSymbolRuns_cons.
    destruct (Js.isAlnum c) eqn:Hc; [reflexivity|discriminate].
  - intros c d r IHr IHdr. rewrite separatorsPaired_cons, replaceSymbolRuns_cons.
    destruct (Js.isAlnum c) eqn:Hc.
    + intros H. now rewrite (IHdr H).
    + intros H. apply andb_true_iff in H as [H Hp].
      apply andb_true_iff in H as [H Ho]. apply andb_true_iff in H as [Hcu Hdu].
      apply Ascii.eqb_eq in Hcu, Hdu. subst c d.
      specialize (IHr Hp).
      rewrite (replaceSymbolRuns_cons true "_" r).
      change (Js.isAlnum "_") with false. cbv iota.
      destruct r as [|e r']; [reflexivity|].
      change (Js.isAlnum e = true) in Ho.
      rewrite replaceSymbolRuns_cons, Ho.
      rewrite replaceSymbolRuns_cons, Ho in IHr. now rewrite IHr.
Qed.

Lemma stripTrailingUnderscores_id (s : string) :
  endsWithUnderscore s = false -> stripTrailingUnderscores s = s.
Proof.
  induction s as [|c s IH]; [reflexivity|].
  intros H. rewrite stripTrailingUnderscores_cons.
  destruct s as [|d r].
  - simpl in *. now rewrite H.
  - rewrite IH by exact H. reflexivity.
Qed.

Lemma lowerChar_token_id (c : ascii) : isTokenChar c = true -> Js.lowerChar c = c.
Proof. destruct c as [[] [] [] [] [] [] [] []]; intros H; try reflexivity; discriminate H. Qed.

Lemma toLowerCase_token_id (s : string) :
  forallChars isTokenChar s = true -> Js.toLowerCase s = s.
Proof.
  induction s as [|c s IH]; [reflexivity|].
  simpl. intros H. apply andb_true_iff in H as [Hc Hs].
  now rewrite (lowerChar_token_id c Hc), IH.
Qed.

Lemma sanitizeParamToken_paired (value : string) :
  separatorsPaired (sanitizeParamToken value) = true.
Proof.
  destruct (sanitizeParamToken_cases value) as [[_ ->]|[_ ->]]; [reflexivity|].
  rewrite toLowerCase_paired. unfold stripUnderscores.
  apply stripTrailingUnderscores_paired, stripLeadingUnderscores_paired,
    replaceSymbolRuns_paired.
Qed.

(** X2: sanitizing a token again returns it unchanged. *)
Theorem sanitizeParamToken_idempotent (value : string) :
  sanitizeParamToken (sanitizeParamToken value) = sanitizeParamToken value.
Proof.
  pose proof (sanitizeParamToken_nonempty value) as Hne.
  pose proof (sanitizeParamToken_chars value) as Hchars.
  pose proof (sanitizeParamToken_start value) as Hstart.
  pose proof (sanitizeParamToken_clean value) as Hend.
  pose proof (sanitizeParamToken_paired value) as Hpaired.
  set (token := sanitizeParamToken value) in *.
  unfold sanitizeParamToken at 1. unfold stripUnderscores.
  rewrite (replaceSymbolRuns_paired_id token Hpaired).
  rewrite (stripLeadingUnderscores_id token Hstart).
  rewrite (stripTrailingUnderscores_id token Hend).
  rewrite (toLowerCase_token_id token Hchars).
  destruct token; [contradiction|reflexivity].
Qed.

(* --------------------------------------------------------------------- *)
(** ** Primitive normalizer *)
(* --------------------------------------------------------------------- *)

Lemma trunc_integral (x : Js.Num) : Js.isNaN x = false -> isIntegral (Js.trunc x) = true.
Proof.
  destruct x as [|neg|m e]; [discriminate|reflexivity|]. intros _.
  simpl. destruct (Z.leb 0 e); reflexivity.
Qed.

Lemma trunc_idempotent (x : Js.Num) : Js.trunc (Js.trunc x) = Js.trunc x.
Proof.
  destruct x as [|neg|m e]; try reflexivity.
  unfold Js.trunc. destruct (Z.leb 0 e);
    change (Z.leb 0 0) with true; cbv iota; rewrite Z.pow_0_r, Z.mul_1_r; reflexivity.
Qed.

Lemma trunc_not_NaN (x : Js.Num) : Js.isNaN (Js.trunc x) = Js.isNaN x.
Proof. destruct x as [|neg|m e]; try reflexivity. simpl. now destruct (Z.leb 0 e). Qed.


(** X4: normalizing a normalized value changes nothing. *)
Theorem normalizePrimitiveValue_idempotent (head : BodyFieldHead) (info : PrimitiveInfo)
    (value : JsVal) :
  normalizePrimitiveValue head info (normalizePrimitiveValue head info value)
  = normalizePrimitiveValue head info value.
Proof.
  unfold normalizePrimitiveValue.
  destruct (schemaType info).
  - destruct value; try reflexivity.
    all: match goal with
         | |- context [Js.trim ?t] => generalize t; intros text
         end.
    all: destruct (negb (nullable head) && String.eqb (Js.trim text) EmptyString)%bool
           eqn:Hb; [reflexivity|].
    all: cbn [toStr]; rewrite Hb; reflexivity.
  - destruct (isEmptyValue value); [reflexivity|].
    destruct (Js.isNaN (toNumber value)) eqn:Hnan; [reflexivity|].
    cbn [isEmptyValue toNumber]. now rewrite Hnan.
  - destruct (isEmptyValue value); [reflexivity|].
    destruct (Js.isNaN (toNumber value)) eqn:Hnan; [reflexivity|].
    cbn [isEmptyValue toNumber]. now rewrite trunc_not_NaN, Hnan, trunc_idempotent.
  - destruct value; try reflexivity.
    destruct (String.eqb _ "true"); [reflexivity|].
    destruct (String.eqb _ "false"); reflexivity.
Qed.

(* --------------------------------------------------------------------- *)
(** ** Operation lookup *)
(* --------------------------------------------------------------------- *)

Lemma getOperationIn_some (ops : list IOperationMeta) (name : string)
    (found : IOperationMeta) :
  getOperationIn ops name = Some found ->
  In found ops /\ operationValue found = name.
Proof.
  induction ops as [|entry rest IH]; [discriminate|].
  simpl. destruct (String.eqb (operationValue entry) name) eqn:Heq.
  - intros [= <-]. apply String.eqb_eq in Heq. auto.
  - intros H. destruct (IH H). auto.
Qed.

Lemma getOperationIn_none (ops : list IOperationMeta) (name : string) :
  getOperationIn ops name = None <->
  forall entry, In entry ops -> operationValue entry <> name.
Proof.
  induction ops as [|entry rest IH]; simpl.
  - split; [intros _ e []|reflexivity].
  - destruct (String.eqb (operationValue entry) name) eqn:Heq.
    + apply String.eqb_eq in Heq. split; [discriminate|].
      intros H. exfalso. apply (H entry); auto.
    + apply String.eqb_neq in Heq. rewrite IH. split.
      * intros H e [<-|He]; auto.
      * intros H e He. apply H. auto.
Qed.

Lemma findOperation_some (resources : list IResourceMeta) (key name : string)
    (found : IOperationMeta) :
  findOperation resources key name = Some found ->
  operationValue found = name
  /\ exists resource, In resource resources /\ resourceValue resource = key
                      /\ In found (operations resource).
Proof.
  induction resources as [|entry rest IH]; [discriminate|].
  simpl. destruct (String.eqb (resourceValue entry) key) eqn:Hkey.
  - destruct (getOperationIn (operations entry) name) as [hit|] eqn:Hin.
    + intros [= <-]. apply getOperationIn_some in Hin as [Hin Hname].
      apply String.eqb_eq in Hkey. split; [exact Hname|]. exists entry. auto.
    + intros H. destruct (IH H) as [Hname [r [Hr Hrest]]].
      split; [exact Hname|]. exists r. auto.
  - intros H. destruct (IH H) as [Hname [r [Hr Hrest]]].
    split; [exact Hname|]. exists r. auto.
Qed.

Lemma findOperation_none (resources : list IResourceMeta) (key name : string) :
  findOperation resources key name = None <->
  forall resource entry,
    In resource resources -> resourceValue resource = key ->
    In entry (operations resource) -> operationValue entry <> name.
Proof.
  induction resources as [|head rest IH]; simpl.
  - split; [intros _ r e []|reflexivity].
  - destruct (String.eqb (resourceValue head) key) eqn:Hkey.
    + apply String.eqb_eq in Hkey.
      destruct (getOperationIn (operations head) name) as [hit|] eqn:Hin.
      * apply getOperationIn_some in Hin as [Hin Hname].
        split; [discriminate|]. intros H. exfalso.
        apply (H head hit); auto.
      * rewrite IH. rewrite getOperationIn_none in Hin. split.
        -- intros H r e [<-|Hr] Hk He; [now apply Hin|now apply (H r e)].
        -- intros H r e Hr. apply H. auto.
    + apply String.eqb_neq in Hkey. rewrite IH. split.
      * intros H r e [<-|Hr] Hk He; [contradiction|now apply (H r e)].
      * intros H r e Hr. apply H. auto.
Qed.

(** X5: the operation returned carries the requested operation value and
    belongs to a resource with the requested key; the lookup throws the
    unknown-operation error exactly when no resource with that key holds
    such an operation. *)
Theorem getOperationMetadata_spec (resources : list IResourceMeta)
    (resourceKey operation : string) :
  (forall found,
     getOperationMetadata resources resourceKey operation = Ok found ->
     operationValue found = operation
     /\ exists resource, In resource resources /\ resourceValue resource = resourceKey
                         /\ In found (operations resource))
  /\ ((forall resource entry,
         In resource resources -> resourceValue resource = resourceKey ->
         In entry (operations resource) -> operationValue entry <> operation)
      <-> getOperationMetadata resources resourceKey operation
          = Throw (ApplicationError
                     ("Unknown operation " ++ Js.quoted operation ++ " for resource "
                        ++ Js.quoted resourceKey))).
Proof.
  unfold getOperationMetadata. split.
  - intros found.
    destruct (findOperation resources resourceKey operation) as [hit|] eqn:Hfind;
      [|discriminate].
    intros [= <-]. now apply findOperation_some.
  - rewrite <- findOperation_none.
    destruct (findOperation resources resourceKey operation);
      split; try reflexivity; discriminate.
Qed.

Lemma getOperationMetadata_spec_witness :
  getOperationMetadata Sample.catalogue "buyer" "list"
  = Throw (ApplicationError
             ("Unknown operation " ++ Js.quoted "list" ++ " for resource "
                ++ Js.quoted "buyer")).
Proof.
  apply (proj2 (getOperationMetadata_spec Sample.catalogue "buyer" "list")).
  intros resource entry Hr Hk He. vm_compute in Hr.
  destruct Hr as [<-|[<-|[]]]; [discriminate Hk|].
  vm_compute in He. destruct He as [<-|[]]. discriminate.
Defined.

(* --------------------------------------------------------------------- *)
(** ** Payload assembler *)
(* --------------------------------------------------------------------- *)

Lemma parseBodyFieldValue_object (operation : IOperationMeta) (itemIndex : nat)
    (head : BodyFieldHead) (children : list IBodyField) (rawValue : JsVal) :
  parseBodyFieldValue operation itemIndex (BodyObject head children) rawValue
  = (output <- parseChildren operation itemIndex (asDataObject rawValue) children [] ;;
     match output with
     | [] => if required head
             then Throw (missing "object" (apiPath head) itemIndex)
             else Ok VUndef
     | _ => Ok (VObj output)
     end).
Proof.
  cbn [parseBodyFieldValue].
  match goal with
  | |- bind (?loop children []) _ = _ =>
      assert (Hloop : forall rest output,
                 loop rest output
                 = parseChildren operation itemIndex (asDataObject rawValue) rest output)
  end.
  { induction rest as [|child rest IH]; intros output; [reflexivity|].
    cbn [parseChildren].
    destruct (negb (hasKey (bodyFieldParamName operation child) (asDataObject rawValue))).
    - destruct (required (fieldHead child)); [reflexivity|apply IH].
    - destruct (parseBodyFieldValue operation itemIndex child _); [apply IH|reflexivity]. }
  now rewrite Hloop.
Qed.

Lemma parseBodyFieldValue_array (operation : IOperationMeta) (itemIndex : nat)
    (head : BodyFieldHead) (itemField : IBodyField) (rawValue : JsVal) :
  parseBodyFieldValue operation itemIndex (BodyArray head itemField) rawValue
  = (parsedItems <-
       parseItems operation itemIndex itemField
         (match getProp "items" (asDataObject rawValue) with VArr l => l | _ => [] end) [] ;;
     match parsedItems with
     | [] => if required head
             then Throw (missing "array" (apiPath head) itemIndex)
             else Ok VUndef
     | _ => Ok (VArr parsedItems)
     end).
Proof.
  cbn [parseBodyFieldValue].
  match goal with
  | |- bind (?loop ?items []) _ = _ =>
      assert (Hloop : forall rest parsedItems,
                 loop rest parsedItems
                 = parseItems operation itemIndex itemField rest parsedItems)
  end.
  { induction rest as [|itemEntry rest IH]; intros parsedItems; [reflexivity|].
    cbn [parseItems].
    destruct itemField.
    - destruct itemEntry; try apply IH.
      destruct (parseBodyFieldValue operation itemIndex _ _); [apply IH|reflexivity].
    - destruct (parseBodyFieldValue operation itemIndex _ _); [apply IH|reflexivity].
    - destruct (parseBodyFieldValue operation itemIndex _ _); [apply IH|reflexivity]. }
  now rewrite Hloop.
Qed.

(** Induction on body fields that reaches the children of an object. *)
Lemma IBodyField_deep_ind (P : IBodyField -> Prop) :
  (forall head info, P (BodyPrimitive head info)) ->
  (forall head children, Forall P children -> P (BodyObject head children)) ->
  (forall head itemField, P itemField -> P (BodyArray head itemField)) ->
  forall field, P field.
Proof.
  intros Hprimitive Hobject Harray. fix IH 1. intros [head info|head children|head item].
  - apply Hprimitive.
  - apply Hobject. revert children. fix IHchildren 1. intros [|child rest].
    + constructor.
    + constructor; [apply IH|apply IHchildren].
  - apply Harray, IH.
Qed.

Lemma lookup_setProp (key key' : string) (v : JsVal) (obj : IDataObject) :
  lookup key (setProp key' v obj)
  = if String.eqb key' key then Some v else lookup key obj.
Proof.
  induction obj as [|[k w] rest IH]; [reflexivity|].
  simpl. destruct (String.eqb k key') eqn:Hk.
  - apply String.eqb_eq in Hk. subst k. simpl.
    destruct (String.eqb key' key); reflexivity.
  - simpl. rewrite IH. destruct (String.eqb k key) eqn:Hkk; [|reflexivity].
    apply String.eqb_eq in Hkk. subst k. now rewrite String.eqb_sym, Hk.
Qed.

Lemma setProp_nonempty (key : string) (v : JsVal) (obj : IDataObject) :
  setProp key v obj <> [].
Proof. destruct obj as [|[k w] rest]; simpl; [|destruct (String.eqb k key)]; discriminate. Qed.

Lemma solid_object (entries : IDataObject) :
  solid (VObj entries)
  = (negb (Nat.eqb (List.length entries) 0) && solidEntries entries)%bool.
Proof.
  cbn [solid]. f_equal.
  induction entries as [|[k v] rest IH]; [reflexivity|].
  simpl. now rewrite IH.
Qed.

Lemma solid_array (items : list JsVal) :
  solid (VArr items)
  = (negb (Nat.eqb (List.length items) 0) && solidItems items)%bool.
Proof.
  cbn [solid]. f_equal.
Qed.

Lemma solidEntries_setProp (key : string) (v : JsVal) (obj : IDataObject) :
  solid v = true -> solidEntries obj = true -> solidEntries (setProp key v obj) = true.
Proof.
  intros Hv. induction obj as [|[k w] rest IH]; simpl.
  - intros _. now rewrite Hv.
  - intros H. apply andb_true_iff in H as [Hw Hrest].
    destruct (String.eqb k key); simpl.
    + now rewrite Hv, Hrest.
    + now rewrite Hw, IH.
Qed.

Lemma solidEntries_putDefined (key : string) (v : JsVal) (obj : IDataObject) :
  v = VUndef \/ solid v = true -> solidEntries obj = true ->
  solidEntries (putDefined key v obj) = true.
Proof.
  unfold putDefined. intros [->|Hv] Hobj; [exact Hobj|].
  destruct (isUndefined v); [exact Hobj|]. now apply solidEntries_setProp.
Qed.

Lemma solidItems_pushDefined (v : JsVal) (items : list JsVal) :
  v = VUndef \/ solid v = true -> solidItems items = true ->
  solidItems (pushDefined v items) = true.
Proof.
  unfold pushDefined, solidItems. intros [->|Hv] Hitems; [exact Hitems|].
  destruct (isUndefined v); [exact Hitems|].
  rewrite forallb_app, Hitems. simpl. now rewrite Hv.
Qed.

Lemma normalizePrimitiveValue_solid (head : BodyFieldHead) (info : PrimitiveInfo)
    (value : JsVal) :
  normalizePrimitiveValue head info value = VUndef
  \/ solid (normalizePrimitiveValue head info value) = true.
Proof.
  unfold normalizePrimitiveValue.
  destruct (schemaType info).
  - destruct value; auto;
      destruct (negb (nullable head) && _)%bool; auto.
  - destruct (isEmptyValue value); auto. destruct (Js.isNaN _); auto.
  - destruct (isEmptyValue value); auto. destruct (Js.isNaN _); auto.
  - destruct value; auto.
    destruct (String.eqb _ "true"); auto. destruct (String.eqb _ "false"); auto.
Qed.

Section ParseInvariants.

Variables (operation : IOperationMeta) (itemIndex : nat).

(** What holds of every outcome of parsing a field. *)
Let sound (field : IBodyField) : Prop :=
  forall rawValue,
    match parseBodyFieldValue operation itemIndex field rawValue with
    | Ok v => v = VUndef \/ solid v = true
    | Throw e => isMissingError itemIndex e
    end.

Lemma parseChildren_sound (source : IDataObject) (children : list IBodyField) :
  Forall sound children ->
  forall output,
    solidEntries output = true ->
    match parseChildren operation itemIndex source children output with
    | Ok out => solidEntries out = true
    | Throw e => isMissingError itemIndex e
    end.
Proof.
  induction 1 as [|child rest Hchild _ IH]; intros output Hout; [exact Hout|].
  cbn [parseChildren].
  destruct (negb (hasKey (bodyFieldParamName operation child) source)).
  - destruct (required (fieldHead child)); [|now apply IH].
    now exists "field", (apiPath (fieldHead child)).
  - specialize (Hchild (getProp (bodyFieldParamName operation child) source)).
    destruct (parseBodyFieldValue operation itemIndex child _) as [v|e]; [|exact Hchild].
    cbn [bind]. apply IH. now apply solidEntries_putDefined.
Qed.

Lemma parseItems_sound (itemField : IBodyField) (items : list JsVal) :
  sound itemField ->
  forall parsedItems,
    solidItems parsedItems = true ->
    match parseItems operation itemIndex itemField items parsedItems with
    | Ok out => solidItems out = true
    | Throw e => isMissingError itemIndex e
    end.
Proof.
  intros Hitem. induction items as [|itemEntry rest IH]; intros parsedItems Hp; [exact Hp|].
  cbn [parseItems].
  assert (Hstep : forall raw,
             match (parsedItem <- parseBodyFieldValue operation itemIndex itemField raw ;;
                    parseItems operation itemIndex itemField rest
                      (pushDefined parsedItem parsedItems)) with
             | Ok out => solidItems out = true
             | Throw e => isMissingError itemIndex e
             end).
  { intros raw. specialize (Hitem raw).
    destruct (parseBodyFieldValue operation itemIndex itemField raw) as [v|e];
      [|exact Hitem].
    cbn [bind]. apply IH. now apply solidItems_pushDefined. }
  destruct itemField; try apply Hstep.
  destruct itemEntry; try (now apply IH). apply Hstep.
Qed.

Lemma parseBodyFieldValue_sound (field : IBodyField) : sound field.
Proof.
  induction field as [head info|head children IH|head itemField IH]
    using IBodyField_deep_ind; intros rawValue.
  - cbn [parseBodyFieldValue].
    destruct (required head && isUndefined _)%bool.
    + now exists "field", (apiPath head).
    + apply normalizePrimitiveValue_solid.
  - rewrite parseBodyFieldValue_object.
    pose proof (parseChildren_sound (asDataObject rawValue) children IH [] eq_refl) as H.
    destruct (parseChildren operation itemIndex _ children []) as [out|e]; [|exact H].
    cbn [bind]. destruct out as [|entry out].
    + destruct (required head); [|now left].
      now exists "object", (apiPath head).
    + right. rewrite solid_object. now rewrite H.
  - rewrite parseBodyFieldValue_array.
    pose proof (parseItems_sound itemField
                  (match getProp "items" (asDataObject rawValue) with
                   | VArr l => l
                   | _ => []
                   end) IH [] eq_refl) as H.
    destruct (parseItems operation itemIndex itemField _ []) as [out|e]; [|exact H].
    cbn [bind]. destruct out as [|item out].
    + destruct (required head); [|now left].
      now exists "array", (apiPath head).
    + right. rewrite solid_array. now rewrite H.
Qed.

End ParseInvariants.

(** A required field never comes back as [undefined]. *)
Lemma parseBodyFieldValue_required_defined (operation : IOperationMeta) (itemIndex : nat)
    (field : IBodyField) (rawValue : JsVal) :
  required (fieldHead field) = true ->
  parseBodyFieldValue operation itemIndex field rawValue <> Ok VUndef.
Proof.
  intros Hreq. destruct field as [head info|head children|head item].
  - cbn [parseBodyFieldValue fieldHead] in *. rewrite Hreq. cbn [andb].
    destruct (isUndefined _) eqn:Hu; [discriminate|].
    intros [= Hn]. rewrite Hn in Hu. discriminate Hu.
  - rewrite parseBodyFieldValue_object. cbn [fieldHead] in Hreq. rewrite Hreq.
    destruct (parseChildren _ _ _ _ _) as [[|entry out]|e]; discriminate.
  - rewrite parseBodyFieldValue_array. cbn [fieldHead] in Hreq. rewrite Hreq.
    destruct (parseItems _ _ _ _ _) as [[|entry out]|e]; discriminate.
Qed.

(** X6: whatever is supplied, parsing a body field either throws a
    missing-field operation error tagged with the item, or returns
    [undefined] or a value without [undefined] and without an empty
    object or array at any depth; a required field never returns
    [undefined]. *)
Theorem parseBodyFieldValue_outcome (operation : IOperationMeta) (itemIndex : nat)
    (field : IBodyField) (rawValue : JsVal) :
  (forall e, parseBodyFieldValue operation itemIndex field rawValue = Throw e ->
             isMissingError itemIndex e)
  /\ (forall v, parseBodyFieldValue operation itemIndex field rawValue = Ok v ->
                (v = VUndef \/ solid v = true)
                /\ (required (fieldHead field) = true -> v <> VUndef)).
Proof.
  pose proof (parseBodyFieldValue_sound operation itemIndex field rawValue) as H.
  split.
  - intros e He. now rewrite He in H.
  - intros v Hv. rewrite Hv in H. split; [exact H|].
    intros Hreq ->.
    now apply (parseBodyFieldValue_required_defined operation itemIndex field rawValue).
Qed.

Lemma parseBodyFieldValue_outcome_witness :
  parseBodyFieldValue Sample.createBuyer 0 (Sample.dataField true false) (VObj [])
  <> Ok VUndef.
Proof.
  intros H.
  apply (proj2 (proj2 (parseBodyFieldValue_outcome Sample.createBuyer 0
                         (Sample.dataField true false) (VObj [])) VUndef H) eq_refl).
  reflexivity.
Defined.

Lemma hasKey_setProp (key key' : string) (v : JsVal) (obj : IDataObject) :
  hasKey key (setProp key' v obj) = (String.eqb key' key || hasKey key obj)%bool.
Proof.
  unfold hasKey. rewrite lookup_setProp. now destruct (String.eqb key' key).
Qed.

Lemma hasKey_putDefined_mono (key key' : string) (v : JsVal) (obj : IDataObject) :
  hasKey key obj = true -> hasKey key (putDefined key' v obj) = true.
Proof.
  unfold putDefined. intros H. destruct (isUndefined v); [exact H|].
  rewrite hasKey_setProp, H. apply orb_true_r.
Qed.

Lemma hasKey_putDefined_inv (key key' : string) (v : JsVal) (obj : IDataObject) :
  hasKey key (putDefined key' v obj) = true -> key = key' \/ hasKey key obj = true.
Proof.
  unfold putDefined. destruct (isUndefined v); [auto|].
  rewrite hasKey_setProp. intros H. apply orb_true_iff in H as [H|H]; [|auto].
  apply String.eqb_eq in H. auto.
Qed.

Lemma hasKey_putDefined_same (key : string) (v : JsVal) (obj : IDataObject) :
  v <> VUndef -> hasKey key (putDefined key v obj) = true.
Proof.
  unfold putDefined. intros Hv. destruct v; try contradiction;
    cbn [isUndefined]; rewrite hasKey_setProp, String.eqb_refl; reflexivity.
Qed.

Section ChildKeys.

Variables (operation : IOperationMeta) (itemIndex : nat) (source : IDataObject).

Lemma parseChildren_keys (children : list IBodyField) :
  forall output out,
    parseChildren operation itemIndex source children output = Ok out ->
    (forall key, hasKey key output = true -> hasKey key out = true)
    /\ (forall key, hasKey key out = true ->
          hasKey key output = true
          \/ In key (map (fun child => apiKey (fieldHead child)) children))
    /\ (forall child, In child children -> required (fieldHead child) = true ->
          hasKey (apiKey (fieldHead child)) out = true).
Proof.
  induction children as [|child rest IH]; intros output out.
  - intros [= <-]. split; [|split]; auto; intros child [].
  - cbn [parseChildren].
    destruct (negb (hasKey (bodyFieldParamName operation child) source)).
    + destruct (required (fieldHead child)) eqn:Hreq; [discriminate|].
      intros H. destruct (IH _ _ H) as [Hmono [Hsub Hpresent]].
      split; [exact Hmono|split].
      * intros key Hkey. destruct (Hsub key Hkey); auto. right. now right.
      * intros c [<-|Hc] Hr; [congruence|auto].
    + destruct (parseBodyFieldValue operation itemIndex child _) as [v|e] eqn:Hparse;
        [|discriminate].
      cbn [bind]. intros H. destruct (IH _ _ H) as [Hmono [Hsub Hpresent]].
      split; [|split].
      * intros key Hkey. now apply Hmono, hasKey_putDefined_mono.
      * intros key Hkey. destruct (Hsub key Hkey) as [Hput|Hin].
        -- apply hasKey_putDefined_inv in Hput as [->|Hput]; auto. right. now left.
        -- right. now right.
      * intros c [<-|Hc] Hr; [|auto].
        apply Hmono, hasKey_putDefined_same. intros ->.
        exact (parseBodyFieldValue_required_defined operation itemIndex child _ Hr Hparse).
Qed.

End ChildKeys.

(** X7: the object built for an object field is keyed by API keys of its
    children only, and holds the API key of every required child. *)
Theorem parsed_object_keys (operation : IOperationMeta) (itemIndex : nat)
    (head : BodyFieldHead) (children : list IBodyField) (rawValue : JsVal)
    (output : IDataObject) :
  parseBodyFieldValue operation itemIndex (BodyObject head children) rawValue
  = Ok (VObj output) ->
  (forall key, hasKey key output = true ->
     In key (map (fun child => apiKey (fieldHead child)) children))
  /\ (forall child, In child children -> required (fieldHead child) = true ->
        hasKey (apiKey (fieldHead child)) output = true).
Proof.
  rewrite parseBodyFieldValue_object.
  destruct (parseChildren operation itemIndex _ children []) as [out|e] eqn:Hloop;
    [|discriminate].
  cbn [bind]. intros Hout.
  assert (out = output) as ->.
  { destruct out; [destruct (required head); discriminate|]. now injection Hout. }
  destruct (parseChildren_keys operation itemIndex _ children [] output Hloop)
    as [_ [Hsub Hpresent]].
  split; [|exact Hpresent].
  intros key Hkey. destruct (Hsub key Hkey) as [H|H]; [discriminate H|exact H].
Qed.

Lemma parsed_object_keys_witness :
  hasKey "name" [("name", VStr "Ada")] = true.
Proof.
  apply (proj2 (parsed_object_keys Sample.createBuyer 0
                  {| apiKey := "data"; apiPath := "data"; label := "Data";
                     required := true; nullable := false |}
                  [Sample.nameField false; Sample.ageField]
                  (VObj [(bodyFieldParamName Sample.createBuyer (Sample.nameField false),
                          VStr "Ada")])
                  [("name", VStr "Ada")] eq_refl)
           (Sample.nameField false)); [now left|reflexivity].
Defined.

Section BodyKeys.

Variables (ctx : ItemContext) (operation : IOperationMeta) (itemIndex : nat).

Lemma addRequiredFields_keys (fields : list IBodyField) :
  forall payload out,
    addRequiredFields ctx operation itemIndex fields payload = Ok out ->
    (forall key, hasKey key payload = true -> hasKey key out = true)
    /\ (forall key, hasKey key out = true ->
          hasKey key payload = true \/ In key (map fieldKey fields))
    /\ (forall field, In field fields -> hasKey (fieldKey field) out = true)
    /\ (solidEntries payload = true -> solidEntries out = true).
Proof.
  induction fields as [|field rest IH]; intros payload out.
  - intros [= <-]. split; [|split; [|split]]; auto; intros field [].
  - cbn [addRequiredFields].
    destruct (getNodeParameter ctx _ None) as [raw|e]; [|discriminate]. cbn [bind].
    pose proof (parseBodyFieldValue_sound operation itemIndex field raw) as Hsound.
    destruct (parseBodyFieldValue operation itemIndex field raw) as [v|e]; [|discriminate].
    cbn [bind]. destruct (isUndefined v) eqn:Hu; [discriminate|].
    intros H. destruct (IH _ _ H) as [Hmono [Hsub [Hpresent Hsolid]]].
    split; [|split; [|split]].
    + intros key Hkey. apply Hmono. rewrite hasKey_setProp, Hkey. apply orb_true_r.
    + intros key Hkey. destruct (Hsub key Hkey) as [Hset|Hin].
      * rewrite hasKey_setProp in Hset. apply orb_true_iff in Hset as [Heq|Hp]; auto.
        apply String.eqb_eq in Heq. right. left. exact Heq.
      * right. now right.
    + intros f [<-|Hf]; [|auto].
      apply Hmono. unfold fieldKey. now rewrite hasKey_setProp, String.eqb_refl.
    + intros Hp. apply Hsolid, solidEntries_setProp; [|exact Hp].
      destruct Hsound as [->|Hv]; [discriminate Hu|exact Hv].
Qed.

Lemma addOptionalFields_keys (optionalSource : IDataObject) (fields : list IBodyField) :
  forall payload out,
    addOptionalFields operation itemIndex optionalSource fields payload = Ok out ->
    (forall key, hasKey key payload = true -> hasKey key out = true)
    /\ (forall key, hasKey key out = true ->
          hasKey key payload = true \/ In key (map fieldKey fields))
    /\ (solidEntries payload = true -> solidEntries out = true).
Proof.
  induction fields as [|field rest IH]; intros payload out.
  - intros [= <-]. auto.
  - cbn [addOptionalFields].
    destruct (negb (hasKey (bodyFieldParamName operation field) optionalSource)).
    + intros H. destruct (IH _ _ H) as [Hmono [Hsub Hsolid]].
      split; [exact Hmono|split; [|exact Hsolid]].
      intros key Hkey. destruct (Hsub key Hkey); auto. right. now right.
    + pose proof (parseBodyFieldValue_sound operation itemIndex field
                    (getProp (bodyFieldParamName operation field) optionalSource))
        as Hsound.
      destruct (parseBodyFieldValue operation itemIndex field _) as [v|e]; [|discriminate].
      cbn [bind]. intros H. destruct (IH _ _ H) as [Hmono [Hsub Hsolid]].
      split; [|split].
      * intros key Hkey. now apply Hmono, hasKey_putDefined_mono.
      * intros key Hkey. destruct (Hsub key Hkey) as [Hput|Hin].
        -- apply hasKey_putDefined_inv in Hput as [->|Hput]; auto. right. now left.
        -- right. now right.
      * intros Hp. now apply Hsolid, solidEntries_putDefined.
Qed.

End BodyKeys.

(** X8: a JSON body that is assembled fits its body spec: it is left out
    only when no field is required, and otherwise is a non-empty object of
    defined values without empty containers, keyed by API keys of the spec
    and holding the key of every required field. *)
Theorem assembleJsonBody_fits (ctx : ItemContext) (operation : IOperationMeta)
    (itemIndex : nat) (ui : IBodyUi) (requestBody : RequestBody) :
  assembleJsonBody ctx operation itemIndex ui = Ok requestBody ->
  bodyFits ui requestBody.
Proof.
  unfold assembleJsonBody.
  destruct (addRequiredFields ctx operation itemIndex (requiredFields ui) [])
    as [withRequired|e] eqn:Hreq; [|discriminate].
  cbn [bind].
  destruct (addRequiredFields_keys ctx operation itemIndex _ _ _ Hreq)
    as [_ [Hsub [Hpresent Hsolid]]].
  assert (Hfinal : exists bodyPayload,
             (forall key, hasKey key withRequired = true -> hasKey key bodyPayload = true)
             /\ (forall key, hasKey key bodyPayload = true ->
                   hasKey key withRequired = true
                   \/ In key (map fieldKey (optionalFields ui)))
             /\ solidEntries bodyPayload = true
             /\ (assembleJsonBody ctx operation itemIndex ui = Ok requestBody ->
                 requestBody = match bodyPayload with
                               | [] => NoBody
                               | _ => JsonBody bodyPayload
                               end)).
  { unfold assembleJsonBody. rewrite Hreq. cbn [bind].
    destruct (optionalFields ui) as [|field rest] eqn:Hopt.
    - exists withRequired. cbn [bind]. repeat split; auto.
      destruct withRequired; congruence.
    - destruct (getNodeParameter ctx _ _) as [source|e].
      + cbn [bind].
        destruct (addOptionalFields operation itemIndex (asDataObject source)
                    (field :: rest) withRequired) as [out|e] eqn:Hadd.
        * destruct (addOptionalFields_keys operation itemIndex _ _ _ _ Hadd)
            as [Hm [Hs Hso]].
          exists out. cbn [bind]. repeat split; auto.
          destruct out; congruence.
        * exists withRequired. cbn [bind]. repeat split; auto. discriminate.
      + exists withRequired. cbn [bind]. repeat split; auto. discriminate. }
  destruct Hfinal as [bodyPayload [Hmono [Hsub' [Hsolid' Hbody]]]].
  intros Hok.
  assert (Hbody' : requestBody = match bodyPayload with
                                 | [] => NoBody
                                 | _ => JsonBody bodyPayload
                                 end).
  { apply Hbody. unfold assembleJsonBody. rewrite Hreq. exact Hok. }
  subst requestBody.
  destruct bodyPayload as [|entry more] eqn:Hpayload.
  - cbn [bodyFits]. destruct (requiredFields ui) as [|field rest]; [reflexivity|].
    specialize (Hpresent field (or_introl eq_refl)).
    apply Hmono in Hpresent. discriminate Hpresent.
  - cbn [bodyFits]. split; [discriminate|]. split; [exact Hsolid'|]. split.
    + intros field Hin. now apply Hmono, Hpresent.
    + intros key Hkey. rewrite map_app, in_app_iff.
      destruct (Hsub' key Hkey) as [H|H]; [|now right].
      destruct (Hsub key H) as [Hempty|Hin]; [discriminate Hempty|now left].
Qed.

Lemma assembleJsonBody_fits_witness :
  bodyFits {| contentType := "application/json"; binaryProperty := None;
              requiredFields := [Sample.dataField true false]; optionalFields := [] |}
    (JsonBody [("data", VObj [("name", VStr "Ada")])]).
Proof.
  apply (assembleJsonBody_fits
           (Sample.createBuyerItem
              (VObj [(bodyFieldParamName Sample.createBuyer (Sample.nameField false),
                      VStr "Ada")]))
           Sample.createBuyer 0).
  reflexivity.
Defined.

(* --------------------------------------------------------------------- *)
(** ** Pagination: bounds and failures *)
(* --------------------------------------------------------------------- *)

(** Up to any page, either every page asks for more or some first page
    refuses. *)
Lemma first_refusal_search (responses : nat -> JsVal) (pageSize : Js.Num) (k : nat) :
  (forall p, (1 <= p <= k)%nat -> continuesAfter responses pageSize p = true)
  \/ exists n, (1 <= n <= k)%nat
               /\ (forall p, (1 <= p < n)%nat -> continuesAfter responses pageSize p = true)
               /\ continuesAfter responses pageSize n = false.
Proof.
  induction k as [|k [Hall|[n [Hn [Hbefore Hstop]]]]].
  - left. intros p Hp. lia.
  - destruct (continuesAfter responses pageSize (S k)) eqn:Hnext.
    + left. intros p Hp. destruct (Nat.eq_dec p (S k)) as [->|Hne]; [exact Hnext|].
      apply Hall. lia.
    + right. exists (S k). split; [lia|]. split; [|exact Hnext].
      intros p Hp. apply Hall. lia.
  - right. exists n. split; [lia|]. auto.
Qed.

(** X9: against responses without pagination metadata the loop always
    stops, after at most 1000 requests. *)
Theorem fetch_all_bounded_without_metadata (responses : nat -> JsVal) (pageSize : Js.Num) :
  (forall p, (1 <= p <= 1000)%nat -> noPaginationMetadata (responses p) = true) ->
  exists n, (1 <= n <= 1000)%nat /\ stopsAtPage responses pageSize n.
Proof.
  intros Hmeta.
  destruct (first_refusal_search responses pageSize 1000)
    as [Hall|[n [Hn [Hbefore Hstop]]]].
  - specialize (Hall 1000%nat ltac:(lia)). unfold continuesAfter in Hall.
    rewrite hasMore_without_metadata in Hall by (apply Hmeta; lia).
    rewrite andb_false_r in Hall. discriminate Hall.
  - exists n. split; [exact Hn|]. apply stops_at_first_refusal; [lia|exact Hbefore|exact Hstop].
Qed.

Lemma fetch_all_bounded_without_metadata_witness :
  exists n, (1 <= n <= 1000)%nat /\ stopsAtPage Sample.barePage (Js.Dec 2 0) n.
Proof.
  apply (fetch_all_bounded_without_metadata Sample.barePage (Js.Dec 2 0)).
  intros p Hp. unfold Sample.barePage. destruct (Nat.ltb p 3); reflexivity.
Defined.

(** X10: a request that fails on some page ends the loop with that
    failure, whatever the earlier pages returned. *)
Theorem fetch_all_failure (respond : nat -> Result JsVal) (responses : nat -> JsVal)
    (pageSize : Js.Num) (n : nat) (e : JsError) :
  (1 <= n)%nat ->
  (forall p, (1 <= p < n)%nat ->
     respond p = Ok (responses p) /\ continuesAfter responses pageSize p = true) ->
  respond n = Throw e ->
  forall fuel, (n <= fuel)%nat ->
    fetchAllPages fuel respond pageSize 1 [] = Some (Throw e).
Proof.
  intros Hn Hbefore Hfail.
  assert (Hgen : forall k page aggregated fuel,
             (page + k = n)%nat -> (1 <= page)%nat -> (k < fuel)%nat ->
             fetchAllPages fuel respond pageSize page aggregated = Some (Throw e)).
  { induction k as [|k IH]; intros page aggregated fuel Hsum Hpage Hfuel;
      (destruct fuel as [|fuel]; [lia|]); cbn [fetchAllPages].
    - replace page with n by lia. now rewrite Hfail.
    - destruct (Hbefore page ltac:(lia)) as [Hok Hmore].
      rewrite Hok. unfold continuesAfter in Hmore. rewrite Hmore. cbn [negb].
      apply IH; lia. }
  intros fuel Hfuel. apply (Hgen (n - 1)%nat); lia.
Qed.

Lemma fetch_all_failure_witness :
  fetchAllPages 5
    (fun p => if Nat.ltb p 2 then Ok (Sample.countedPage p)
              else Throw (HostError "timeout"))
    (Js.Dec 2 0) 1 [] = Some (Throw (HostError "timeout")).
Proof.
  apply (fetch_all_failure _ Sample.countedPage (Js.Dec 2 0) 2); try lia; try reflexivity.
  intros p Hp. assert (p = 1%nat) as -> by lia. split; reflexivity.
Defined.

Lemma toDataObjectArray_objects (values : list JsVal) :
  Forall (fun item => isObject item = true) (toDataObjectArray values)
  /\ List.length (toDataObjectArray values) = List.length values.
Proof.
  unfold toDataObjectArray. split; [|apply length_map].
  apply Forall_map, Forall_forall. intros value _.
  destruct (isObject value) eqn:Hobj; [exact Hobj|reflexivity].
Qed.



(* --------------------------------------------------------------------- *)
(** ** Query assembler *)
(* --------------------------------------------------------------------- *)

Lemma positiveInteger_checked (name : string) (itemIndex : nat) (v : JsVal) :
  match positiveInteger name itemIndex v with
  | Ok accepted => isAcceptedCount accepted
  | Throw e => e = invalidValue name itemIndex
  end.
Proof.
  unfold positiveInteger.
  destruct (Js.trunc (toNumber v)) as [|[|]|m e] eqn:Htrunc; try reflexivity.
  - exists (Js.Inf false). auto.
  - destruct (Js.lt (Js.Dec m e) (Js.Dec 1 0)) eqn:Hlt; [reflexivity|].
    cbn [Js.isNaN orb]. exists (Js.Dec m e). split; [reflexivity|]. left.
    assert (He : e = 0).
    { destruct (toNumber v) as [|neg|m' e']; try discriminate Htrunc.
      cbn [Js.trunc] in Htrunc. destruct (Z.leb 0 e'); now injection Htrunc. }
    subst e. exists m. split; [|reflexivity].
    unfold Js.lt, Js.align in Hlt. change (Z.min 0 0) with 0 in Hlt.
    change (10 ^ (0 - 0)) with 1 in Hlt. apply Z.ltb_ge in Hlt. lia.
Qed.

(** X12: outside fetch-all mode, the page and the limit reach the query
    only as an integer not below one (or as infinity): either step leaves
    the query as it is, sets its own entry to such a number, or throws the
    invalid-value error for its field. *)
Theorem paging_values_checked (ctx : ItemContext) (operation : IOperationMeta)
    (itemIndex : nat) (field : IQuerySimpleField) (defaultLimit : Js.Num)
    (query : IDataObject) :
  (forall q, addPage ctx operation itemIndex field query = Ok q ->
     q = query
     \/ exists v, isAcceptedCount v /\ q = setProp (simpleName field) v query)
  /\ (forall q, addLimit ctx operation itemIndex field defaultLimit query = Ok q ->
        q = query
        \/ exists v, isAcceptedCount v /\ q = setProp (simpleName field) v query)
  /\ (forall e, addPage ctx operation itemIndex field query = Throw e ->
        e = invalidValue (simpleName field) itemIndex)
  /\ (forall e, addLimit ctx operation itemIndex field defaultLimit query = Throw e ->
        e = invalidValue (simpleName field) itemIndex).
Proof.
  unfold addPage, addLimit, getNodeParameter.
  split; [|split; [|split]].
  - intros q.
    destruct (lookup _ (parameters ctx)) as [source|]; cbn [bind];
      (destruct (isEmptyValue _); [intros [= <-]; now left|]);
      match goal with
      | |- context [positiveInteger ?n ?i ?v] =>
          pose proof (positiveInteger_checked n i v) as Hc;
          destruct (positiveInteger n i v) as [accepted|e]
      end; cbn [bind]; try discriminate;
      intros [= <-]; right; exists accepted; auto.
  - intros q.
    destruct (lookup _ (parameters ctx)) as [limitValue|]; cbn [bind];
      (destruct (shouldIncludeSimpleQueryValue field _); [|intros [= <-]; now left]);
      (destruct (isUndefined _); [intros [= <-]; now left|]);
      match goal with
      | |- context [positiveInteger ?n ?i ?v] =>
          pose proof (positiveInteger_checked n i v) as Hc;
          destruct (positiveInteger n i v) as [accepted|e]
      end; cbn [bind]; try discriminate;
      intros [= <-]; right; exists accepted; auto.
  - intros e.
    destruct (lookup _ (parameters ctx)) as [source|]; cbn [bind];
      (destruct (isEmptyValue _); [discriminate|]);
      match goal with
      | |- context [positiveInteger ?n ?i ?v] =>
          pose proof (positiveInteger_checked n i v) as Hc;
          destruct (positiveInteger n i v) as [accepted|e']
      end; cbn [bind]; try discriminate; intros [= <-]; exact Hc.
  - intros e.
    destruct (lookup _ (parameters ctx)) as [limitValue|]; cbn [bind];
      (destruct (shouldIncludeSimpleQueryValue field _); [|discriminate]);
      (destruct (isUndefined _); [discriminate|]);
      match goal with
      | |- context [positiveInteger ?n ?i ?v] =>
          pose proof (positiveInteger_checked n i v) as Hc;
          destruct (positiveInteger n i v) as [accepted|e']
      end; cbn [bind]; try discriminate; intros [= <-]; exact Hc.
Qed.

Lemma paging_values_checked_witness :
  invalidValue "limit" 0 = invalidValue "limit" 0.
Proof.
  apply (proj2 (proj2 (proj2 (paging_values_checked
           (Sample.pagedItem
              [(querySimpleParamName Sample.pagedOrders Sample.limitField, VStr "0")])
           Sample.pagedOrders 0 Sample.limitField (Js.Dec 50 0) [])))).
  reflexivity.
Defined.



(* --------------------------------------------------------------------- *)
(** ** Failure policy of [execute] *)
(* --------------------------------------------------------------------- *)

Section ExecutePolicy.

Variable dateParse : string -> option Z.
Variable resources : list IResourceMeta.

Lemma executeFrom_continue_never_throws (fuel : nat) (items : list ItemContext) :
  forall itemIndex returnData e,
    executeFrom dateParse resources fuel true items itemIndex returnData <> Some (Throw e).
Proof.
  induction items as [|ctx rest IH]; intros itemIndex returnData e; [discriminate|].
  cbn [executeFrom].
  destruct (processItem dateParse resources fuel ctx itemIndex) as [[records|e']|];
    [apply IH|apply IH|discriminate].
Qed.

Lemma executeFrom_abort_error (fuel : nat) (items : list ItemContext) :
  forall itemIndex returnData e,
    executeFrom dateParse resources fuel false items itemIndex returnData = Some (Throw e) ->
    exists message index, e = NodeOperationError message index.
Proof.
  induction items as [|ctx rest IH]; intros itemIndex returnData e; [discriminate|].
  cbn [executeFrom].
  destruct (processItem dateParse resources fuel ctx itemIndex) as [[records|e']|];
    [apply IH| |discriminate].
  intros [= <-]. destruct e'; cbn [rethrown]; eauto.
Qed.

Lemma executeFrom_app (fuel : nat) (continueOnFail : bool) (first second : list ItemContext) :
  forall itemIndex returnData,
    executeFrom dateParse resources fuel continueOnFail (first ++ second) itemIndex returnData
    = match executeFrom dateParse resources fuel continueOnFail first itemIndex returnData with
      | Some (Ok soFar) =>
          executeFrom dateParse resources fuel continueOnFail second
            (itemIndex + List.length first) soFar
      | other => other
      end.
Proof.
  induction first as [|ctx rest IH]; intros itemIndex returnData.
  - cbn [app executeFrom List.length]. now rewrite Nat.add_0_r.
  - cbn [app executeFrom List.length].
    destruct (processItem dateParse resources fuel ctx itemIndex) as [[records|e]|];
      try reflexivity.
    + rewrite IH. now rewrite Nat.add_succ_r.
    + destruct continueOnFail; [|reflexivity]. rewrite IH. now rewrite Nat.add_succ_r.
Qed.

Lemma executeFrom_extends (fuel : nat) (continueOnFail : bool) (items : list ItemContext) :
  forall itemIndex returnData out,
    executeFrom dateParse resources fuel continueOnFail items itemIndex returnData
    = Some (Ok out) ->
    exists added, out = (returnData ++ added)%list.
Proof.
  induction items as [|ctx rest IH]; intros itemIndex returnData out.
  - intros [= <-]. exists []. now rewrite app_nil_r.
  - cbn [executeFrom].
    destruct (processItem dateParse resources fuel ctx itemIndex) as [[records|e]|];
      [| |discriminate].
    + intros H. destruct (IH _ _ _ H) as [added ->].
      exists (records ++ added)%list. now rewrite app_assoc.
    + destruct continueOnFail; [|discriminate].
      intros H. destruct (IH _ _ _ H) as [added ->].
      exists ([errorRecord e itemIndex] ++ added)%list. now rewrite app_assoc.
Qed.

End ExecutePolicy.

(** X14: when the host continues on failure [execute] never throws; when
    it does not, whatever [execute] throws is an operation error. *)
Theorem execute_failure_policy (dateParse : string -> option Z)
    (resources : list IResourceMeta) (fuel : nat) (items : list ItemContext)
    (e : JsError) :
  execute dateParse resources fuel true items <> Some (Throw e)
  /\ (execute dateParse resources fuel false items = Some (Throw e) ->
      exists message index, e = NodeOperationError message index).
Proof.
  split.
  - apply executeFrom_continue_never_throws.
  - apply executeFrom_abort_error.
Qed.

Lemma execute_failure_policy_witness :
  exists message index,
    NodeOperationError ("Missing required field " ++ Js.quoted "data.name") 0
    = NodeOperationError message index.
Proof.
  apply (proj2 (execute_failure_policy Js.parseDateOnly [Sample.buyers] 1
                  [Sample.createBuyerItem (VObj [])]
                  (NodeOperationError ("Missing required field " ++ Js.quoted "data.name") 0))).
  reflexivity.
Defined.

(** X15: items are processed in order and independently: running
    [execute] on two batches in a row is running it on the first and then
    continuing on the second with the index and the output reached; the
    records already gathered are never dropped or reordered. *)
Theorem execute_in_sequence (dateParse : string -> option Z)
    (resources : list IResourceMeta) (fuel : nat) (continueOnFail : bool)
    (first second : list ItemContext) :
  execute dateParse resources fuel continueOnFail (first ++ second)
  = match execute dateParse resources fuel continueOnFail first with
    | Some (Ok soFar) =>
        executeFrom dateParse resources fuel continueOnFail second (List.length first) soFar
    | other => other
    end
  /\ (forall itemIndex returnData out,
        executeFrom dateParse resources fuel continueOnFail second itemIndex returnData
        = Some (Ok out) ->
        exists added, out = (returnData ++ added)%list).
Proof.
  split.
  - unfold execute. apply executeFrom_app.
  - apply executeFrom_extends.
Qed.

Lemma execute_in_sequence_witness :
  executeFrom Js.parseDateOnly Sample.catalogue 1 false
    [Sample.listOrdersItem (VObj [("id", VNum (Js.Dec 7 0))])] 2 [VObj [("json", VObj [])]]
  = Some (Ok [VObj [("json", VObj [])]; VObj [("json", VObj [("id", VNum (Js.Dec 7 0))])]])
  /\ exists added,
       [VObj [("json", VObj [])]; VObj [("json", VObj [("id", VNum (Js.Dec 7 0))])]]
       = ([VObj [("json", VObj [])]] ++ added)%list.
Proof.
  split; [reflexivity|].
  apply (proj2 (execute_in_sequence Js.parseDateOnly Sample.catalogue 1 false []
                  [Sample.listOrdersItem (VObj [("id", VNum (Js.Dec 7 0))])]) 2%nat).
  reflexivity.
Defined.

(* --------------------------------------------------------------------- *)
(** ** Field-schema compiler *)
(* --------------------------------------------------------------------- *)

Lemma finishProperty_displayOptions (isRequired : bool) (shown : JsVal)
    (property : IDataObject) :
  propertyEntry "displayOptions" (finishProperty isRequired (Some shown) property) = shown.
Proof.
  unfold propertyEntry, finishProperty, getProp. cbn [asDataObject].
  now rewrite lookup_setProp, String.eqb_refl.
Qed.

Lemma finishProperty_entry (key : string) (isRequired : bool)
    (displayOptions : option JsVal) (property : IDataObject) :
  String.eqb "required" key = false -> String.eqb "displayOptions" key = false ->
  propertyEntry key (finishProperty isRequired displayOptions property)
  = getProp key property.
Proof.
  intros Hr Hd. unfold propertyEntry, finishProperty, getProp. cbn [asDataObject].
  destruct displayOptions, isRequired; rewrite ?lookup_setProp, ?Hd, ?Hr; reflexivity.
Qed.

Lemma finishProperty_required (isRequired : bool) (displayOptions : option JsVal)
    (property : IDataObject) :
  lookup "required" property = None ->
  propertyEntry "required" (finishProperty isRequired displayOptions property)
  = if isRequired then VBool true else VUndef.
Proof.
  intros Hnone. unfold propertyEntry, finishProperty, getProp. cbn [asDataObject].
  destruct displayOptions, isRequired; rewrite ?lookup_setProp; cbn [String.eqb];
    try rewrite Hnone; reflexivity.
Qed.

(** What every body-field descriptor is: a literal finished with the
    [required] and [displayOptions] entries. *)
Lemma createBodyFieldNodeProperty_finished (docs : Docs) (operation : IOperationMeta)
    (field : IBodyField) (isRequired : bool) (displayOptions : option JsVal) :
  exists property,
    createBodyFieldNodeProperty docs operation field isRequired displayOptions
    = finishProperty isRequired displayOptions property
    /\ lookup "required" property = None
    /\ getProp "name" property = VStr (bodyFieldParamName operation field)
    /\ match field with
       | BodyPrimitive _ _ => isPrimitiveType (getProp "type" property)
       | BodyObject _ children =>
           getProp "type" property = VStr "collection"
           /\ getProp "options" property
              = VArr (map (fun child =>
                             createBodyFieldNodeProperty docs operation child
                               (required (fieldHead child)) None) children)
       | BodyArray _ _ => getProp "type" property = VStr "fixedCollection"
       end.
Proof.
  destruct field as [head info|head children|head item].
  - cbn [createBodyFieldNodeProperty]. unfold createPrimitiveNodeProperty, isPrimitiveType.
    destruct (isCustomFieldUuidBodyField head);
      [eexists; repeat split; try reflexivity; cbn; auto|].
    destruct (negb (Nat.eqb (List.length (enumValues info)) 0));
      [eexists; repeat split; try reflexivity; cbn; auto|].
    destruct (schemaType info);
      eexists; (split; [reflexivity|]); (split; [reflexivity|]);
      (split; [reflexivity|]); cbn; auto.
    unfold textType. destruct (format info) as [f|]; [destruct (String.eqb f "date-time")|];
      auto 6.
  - eexists. cbn [createBodyFieldNodeProperty]. repeat split; reflexivity.
  - eexists. cbn [createBodyFieldNodeProperty]. repeat split; reflexivity.
Qed.

(** X16: the descriptor compiled for a body field is named by the
    field's generated identifier, carries [required: true] exactly when
    compiled as required, and is typed by the field's kind: a primitive
    type, [collection] for an object (its options being the descriptors of
    the children), [fixedCollection] for an array. *)
Theorem body_field_descriptor (docs : Docs) (operation : IOperationMeta)
    (field : IBodyField) (isRequired : bool) (displayOptions : option JsVal) :
  let property :=
    createBodyFieldNodeProperty docs operation field isRequired displayOptions in
  propertyEntry "name" property = VStr (bodyFieldParamName operation field)
  /\ propertyEntry "required" property = (if isRequired then VBool true else VUndef)
  /\ match field with
     | BodyPrimitive _ _ => isPrimitiveType (propertyEntry "type" property)
     | BodyObject _ children =>
         propertyEntry "type" property = VStr "collection"
         /\ propertyEntry "options" property
            = VArr (map (fun child =>
                           createBodyFieldNodeProperty docs operation child
                             (required (fieldHead child)) None) children)
     | BodyArray _ _ => propertyEntry "type" property = VStr "fixedCollection"
     end.
Proof.
  cbv zeta.
  destruct (createBodyFieldNodeProperty_finished docs operation field isRequired
              displayOptions) as [property [-> [Hreq [Hname Hkind]]]].
  rewrite finishProperty_required by exact Hreq.
  rewrite !finishProperty_entry by reflexivity.
  split; [exact Hname|]. split; [reflexivity|].
  destruct field; exact Hkind.
Qed.

Lemma scoped_by_displayOptions (resourceKey : string) (operation : IOperationMeta)
    (property : JsVal) :
  propertyEntry "displayOptions" property = operationDisplayOptions resourceKey operation
  \/ propertyEntry "displayOptions" property
     = pagedDisplayOptions operation (operationDisplayOptions resourceKey operation) ->
  scopedTo resourceKey operation property.
Proof.
  intros [H|H]; unfold scopedTo; rewrite H.
  - eexists. split; [reflexivity|]. split; reflexivity.
  - eexists. split; [reflexivity|]. split; reflexivity.
Qed.

Section CompiledFor.

Variables (docs : Docs) (resourceKey : string) (operation : IOperationMeta).

Let shown : JsVal := operationDisplayOptions resourceKey operation.

Lemma pathProperty_entries (pathParameter : IPathUiField) :
  propertyEntry "displayOptions" (pathProperty docs operation shown pathParameter) = shown
  /\ propertyEntry "name" (pathProperty docs operation shown pathParameter)
     = VStr (pathParamName operation pathParameter).
Proof. unfold pathProperty. destruct (pathRequired pathParameter); split; reflexivity. Qed.

Lemma simpleProperty_entries (simpleField : IQuerySimpleField) :
  propertyEntry "displayOptions" (simpleProperty docs operation shown simpleField) = shown
  /\ propertyEntry "name" (simpleProperty docs operation shown simpleField)
     = VStr (querySimpleParamName operation simpleField).
Proof.
  unfold simpleProperty.
  destruct (negb (Nat.eqb (List.length (simpleEnumValues simpleField)) 0));
    [split; reflexivity|].
  destruct (simpleSchemaType simpleField); split; reflexivity.
Qed.

Lemma requiredBodyProperty_entries (field : IBodyField) :
  propertyEntry "displayOptions"
    (createBodyFieldNodeProperty docs operation field true (Some shown)) = shown
  /\ propertyEntry "name"
       (createBodyFieldNodeProperty docs operation field true (Some shown))
     = VStr (bodyFieldParamName operation field).
Proof.
  destruct (createBodyFieldNodeProperty_finished docs operation field true (Some shown))
    as [property [-> [_ [Hname _]]]].
  split; [apply finishProperty_displayOptions|].
  now rewrite finishProperty_entry by reflexivity.
Qed.

Lemma operationProperties_scoped :
  Forall (scopedTo resourceKey operation) (operationProperties docs resourceKey operation).
Proof.
  unfold operationProperties. fold shown.
  repeat (apply Forall_app; split).
  - apply Forall_map, Forall_forall. intros f _.
    apply scoped_by_displayOptions. left. apply pathProperty_entries.
  - apply Forall_map, Forall_forall. intros f _.
    apply scoped_by_displayOptions. left. apply simpleProperty_entries.
  - unfold pagingProperties.
    destruct (findSimple "page" _), (findSimple "limit" _);
      repeat constructor; apply scoped_by_displayOptions; auto.
  - unfold selectProperty. destruct (include (queryUi operation)) as [select|]; [|constructor].
    destruct (negb _); repeat constructor. apply scoped_by_displayOptions. now left.
  - unfold selectProperty. destruct (sort (queryUi operation)) as [select|]; [|constructor].
    destruct (negb _); repeat constructor. apply scoped_by_displayOptions. now left.
  - unfold filterProperties. destruct (filters (queryUi operation)); repeat constructor.
    apply scoped_by_displayOptions. now left.
  - unfold bodyProperties. destruct (bodyUi operation) as [ui|]; [|constructor].
    repeat (apply Forall_app; split).
    + destruct (String.eqb (contentType ui) "multipart/form-data");
        [|constructor].
      destruct (binaryProperty ui) as [[|c r]|]; repeat constructor.
      apply scoped_by_displayOptions. now left.
    + apply Forall_map, Forall_forall. intros f _.
      apply scoped_by_displayOptions. left. apply requiredBodyProperty_entries.
    + destruct (optionalFields ui); repeat constructor.
      apply scoped_by_displayOptions. now left.
Qed.

Lemma operationProperties_names (name : string) :
  In name (readParameterNames operation) ->
  In (VStr name)
     (map (propertyEntry "name") (operationProperties docs resourceKey operation)).
Proof.
  unfold readParameterNames, operationProperties. fold shown.
  rewrite !map_app, !in_app_iff.
  intros [H|[H|[H|[H|[H|[H|H]]]]]].
  - left. apply in_map_iff in H as [f [<- Hf]]. rewrite map_map.
    apply in_map_iff. exists f. split; [apply pathProperty_entries|exact Hf].
  - right. left. apply in_map_iff in H as [f [<- Hf]]. rewrite map_map.
    apply in_map_iff. exists f. split; [apply simpleProperty_entries|exact Hf].
  - right. right. left. unfold pagingProperties.
    destruct (findSimple "page" _), (findSimple "limit" _);
      cbn [In] in H; cbn [map In]; intuition (subst; auto).
  - right. right. right. left. unfold hasOptions, selectProperty in *.
    destruct (include (queryUi operation)) as [select|]; [|destruct H].
    destruct (negb _); [|destruct H]. destruct H as [<-|[]]. now left.
  - right. right. right. right. left. unfold hasOptions, selectProperty in *.
    destruct (sort (queryUi operation)) as [select|]; [|destruct H].
    destruct (negb _); [|destruct H]. destruct H as [<-|[]]. now left.
  - right. right. right. right. right. left. unfold filterProperties.
    destruct (filters (queryUi operation)); [destruct H|].
    destruct H as [<-|[]]. now left.
  - right. right. right. right. right. right. unfold bodyProperties.
    destruct (bodyUi operation) as [ui|]; [|destruct H].
    rewrite !map_app, !in_app_iff.
    assert (Hjson : In name (map (bodyFieldParamName operation) (requiredFields ui)
                             ++ match optionalFields ui with
                                | [] => []
                                | _ => [bodyOptionalCollectionParamName operation]
                                end)%list ->
                    In (VStr name)
                       (map (propertyEntry "name")
                          (map (fun requiredField =>
                                  createBodyFieldNodeProperty docs operation requiredField
                                    true (Some shown)) (requiredFields ui)))
                    \/ In (VStr name)
                         (map (propertyEntry "name")
                            match optionalFields ui with
                            | [] => []
                            | fields =>
                                [VObj [("displayName", VStr "Additional Fields");
                                       ("name",
                                        VStr (bodyOptionalCollectionParamName operation));
                                       ("type", VStr "collection"); ("default", VObj []);
                                       ("placeholder", VStr "Add field");
                                       ("description", VStr "Optional body fields");
                                       ("options",
                                        VArr (map (fun optionalField =>
                                                     createBodyFieldNodeProperty docs
                                                       operation optionalField false None)
                                                fields));
                                       ("displayOptions", shown)]]
                            end)).
    { rewrite in_app_iff. intros [Hr|Ho].
      - left. apply in_map_iff in Hr as [f [<- Hf]]. rewrite map_map.
        apply in_map_iff. exists f. split; [apply requiredBodyProperty_entries|exact Hf].
      - right. destruct (optionalFields ui); [destruct Ho|].
        destruct Ho as [<-|[]]. now left. }
    destruct (String.eqb (contentType ui) "multipart/form-data");
      [|right; now apply Hjson].
    destruct (binaryProperty ui) as [[|c r]|]; try (right; now apply Hjson).
    destruct H as [<-|[]]. left. now left.
Qed.

End CompiledFor.

(** X17: compiling fails exactly on an empty list of resources;
    otherwise the list opens with the resource selector, goes on with one
    operation selector per resource, in order, and every descriptor after
    those is shown only for one operation of one resource of the list. *)
Theorem compiled_properties_scoped (docs : Docs) (resources : list IResourceMeta) :
  (resources = [] ->
   buildNodeProperties docs resources
   = Throw (ApplicationError "No resources found in openapi-data.json"))
  /\ (resources <> [] ->
      exists scoped,
        buildNodeProperties docs resources
        = Ok (resourceSelector resources
              :: map (operationSelector docs) resources ++ scoped)%list
        /\ Forall (fun property =>
                     exists resource operation,
                       In resource resources /\ In operation (operations resource)
                       /\ scopedTo (resourceValue resource) operation property) scoped).
Proof.
  split; [now intros ->|].
  intros Hne. destruct resources as [|first rest]; [contradiction|].
  eexists. split; [reflexivity|]. clear Hne.
  generalize (first :: rest). intros listed.
  apply Forall_forall. intros property Hin.
  apply in_flat_map in Hin as [resource [Hr Hin]].
  apply in_flat_map in Hin as [operation [Ho Hin]].
  exists resource, operation. split; [exact Hr|]. split; [exact Ho|].
  pose proof (operationProperties_scoped docs (resourceValue resource) operation) as Hall.
  rewrite Forall_forall in Hall. now apply Hall.
Qed.

Lemma compiled_properties_scoped_witness :
  buildNodeProperties Sample.noDocs []
  = Throw (ApplicationError "No resources found in openapi-data.json")
  /\ exists scoped,
       buildNodeProperties Sample.noDocs Sample.pagedCatalogue
       = Ok (resourceSelector Sample.pagedCatalogue
             :: map (operationSelector Sample.noDocs) Sample.pagedCatalogue ++ scoped)%list
       /\ Forall (fun property =>
                    exists resource operation,
                      In resource Sample.pagedCatalogue
                      /\ In operation (operations resource)
                      /\ scopedTo (resourceValue resource) operation property) scoped.
Proof.
  split.
  - apply (proj1 (compiled_properties_scoped Sample.noDocs [])). reflexivity.
  - apply (proj2 (compiled_properties_scoped Sample.noDocs Sample.pagedCatalogue)).
    discriminate.
Defined.

(** X18: every node parameter that processing an item of an operation
    reads at the top level is the name of a descriptor compiled for that
    operation. *)
Theorem read_parameters_are_compiled (docs : Docs) (resourceKey : string)
    (operation : IOperationMeta) (name : string) :
  In name (readParameterNames operation) ->
  In (VStr name)
     (map (propertyEntry "name") (operationProperties docs resourceKey operation)).
Proof. apply operationProperties_names. Qed.

Lemma read_parameters_are_compiled_witness :
  In (VStr (queryGetAllParamName Sample.pagedOrders))
     (map (propertyEntry "name")
        (operationProperties Sample.noDocs "order" Sample.pagedOrders)).
Proof.
  apply (read_parameters_are_compiled Sample.noDocs "order" Sample.pagedOrders).
  vm_compute. auto.
Defined.

Example compiled_paged_names :
  map (propertyEntry "name") (operationProperties Sample.noDocs "order" Sample.pagedOrders)
  = [VStr "query__getpaginatedlistoforders__get_all";
     VStr "query__getpaginatedlistoforders__limit";
     VStr "query__getpaginatedlistoforders__options";
     VStr "query__getpaginatedlistoforders__filter"].
Proof. vm_compute. reflexivity. Qed.

(* --------------------------------------------------------------------- *)
(** ** What processing an item reads *)
(* --------------------------------------------------------------------- *)

Section SameInputs.

Variables (a b : ItemContext).

Lemma getNodeParameter_same (name : string) (fallback : option JsVal) :
  lookup name (parameters a) = lookup name (parameters b) ->
  getNodeParameter a name fallback = getNodeParameter b name fallback.
Proof. unfold getNodeParameter. now intros ->. Qed.

Variables (operation : IOperationMeta) (itemIndex : nat).

Lemma substitutePath_same (fields : list IPathUiField) :
  (forall f, In f fields ->
     lookup (pathParamName operation f) (parameters a)
     = lookup (pathParamName operation f) (parameters b)) ->
  forall endpointPath,
    substitutePath a operation itemIndex fields endpointPath
    = substitutePath b operation itemIndex fields endpointPath.
Proof.
  induction fields as [|f rest IH]; intros Hsame endpointPath; [reflexivity|].
  cbn [substitutePath].
  rewrite (getNodeParameter_same _ None (Hsame f (or_introl eq_refl))).
  destruct (getNodeParameter b _ None) as [value|e]; [|reflexivity]. cbn [bind].
  destruct (substitutePathField itemIndex endpointPath f value) as [next|e];
    [|reflexivity].
  cbn [bind]. apply IH. intros g Hg. apply Hsame. now right.
Qed.

Lemma addSimpleFields_same (fields : list IQuerySimpleField) :
  (forall f, In f fields ->
     lookup (querySimpleParamName operation f) (parameters a)
     = lookup (querySimpleParamName operation f) (parameters b)) ->
  forall query,
    addSimpleFields a operation fields query = addSimpleFields b operation fields query.
Proof.
  induction fields as [|f rest IH]; intros Hsame query; [reflexivity|].
  cbn [addSimpleFields].
  rewrite (getNodeParameter_same _ None (Hsame f (or_introl eq_refl))).
  destruct (getNodeParameter b _ None) as [value|e]; [|reflexivity]. cbn [bind].
  assert (Hrest : forall g, In g rest ->
             lookup (querySimpleParamName operation g) (parameters a)
             = lookup (querySimpleParamName operation g) (parameters b))
    by (intros g Hg; apply Hsame; now right).
  destruct (negb (shouldIncludeSimpleQueryValue f value)); now apply IH.
Qed.

Lemma addRequiredFields_same (fields : list IBodyField) :
  (forall f, In f fields ->
     lookup (bodyFieldParamName operation f) (parameters a)
     = lookup (bodyFieldParamName operation f) (parameters b)) ->
  forall payload,
    addRequiredFields a operation itemIndex fields payload
    = addRequiredFields b operation itemIndex fields payload.
Proof.
  induction fields as [|f rest IH]; intros Hsame payload; [reflexivity|].
  cbn [addRequiredFields].
  rewrite (getNodeParameter_same _ None (Hsame f (or_introl eq_refl))).
  destruct (getNodeParameter b _ None) as [raw|e]; [|reflexivity]. cbn [bind].
  destruct (parseBodyFieldValue operation itemIndex f raw) as [parsed|e]; [|reflexivity].
  cbn [bind]. destruct (isUndefined parsed); [reflexivity|].
  apply IH. intros g Hg. apply Hsame. now right.
Qed.

Hypothesis same : sameInputs (readParameterNames operation) a b.

Lemma agree (name : string) :
  In name (readParameterNames operation) ->
  lookup name (parameters a) = lookup name (parameters b).
Proof. apply same. Qed.

Lemma addPaging_same (query : IDataObject) :
  addPaging a operation itemIndex query = addPaging b operation itemIndex query.
Proof.
  unfold addPaging, addLimit, addPage.
  assert (Hpaging : forall name,
             In name match findSimple "page" (simple (queryUi operation)),
                           findSimple "limit" (simple (queryUi operation)) with
                     | Some _, Some limitField =>
                         [queryGetAllParamName operation;
                          querySimpleParamName operation limitField;
                          queryOptionsCollectionParamName operation]
                     | None, Some limitField => [querySimpleParamName operation limitField]
                     | Some _, None => [queryOptionsCollectionParamName operation]
                     | None, None => []
                     end ->
             lookup name (parameters a) = lookup name (parameters b)).
  { intros name Hin. apply agree. unfold readParameterNames.
    rewrite !in_app_iff. right. right. left. exact Hin. }
  destruct (findSimple "page" (simple (queryUi operation))) as [pf|],
           (findSimple "limit" (simple (queryUi operation))) as [lf|];
    cbn [In] in Hpaging.
  - rewrite (getNodeParameter_same (queryGetAllParamName operation) _
               (Hpaging _ (or_introl eq_refl))).
    rewrite (getNodeParameter_same (querySimpleParamName operation lf) _
               (Hpaging _ (or_intror (or_introl eq_refl)))).
    rewrite (getNodeParameter_same (queryOptionsCollectionParamName operation) _
               (Hpaging _ (or_intror (or_intror (or_introl eq_refl))))).
    reflexivity.
  - rewrite (getNodeParameter_same (queryOptionsCollectionParamName operation) _
               (Hpaging _ (or_introl eq_refl))).
    reflexivity.
  - rewrite (getNodeParameter_same (querySimpleParamName operation lf) _
               (Hpaging _ (or_introl eq_refl))).
    reflexivity.
  - reflexivity.
Qed.

Lemma addInclude_same (query : IDataObject) :
  addInclude a operation query = addInclude b operation query.
Proof.
  unfold addInclude. destruct (hasOptions (include (queryUi operation))) eqn:Hopt;
    [|reflexivity].
  rewrite (getNodeParameter_same (queryIncludeParamName operation)); [reflexivity|].
  apply agree. unfold readParameterNames. rewrite !in_app_iff, Hopt.
  right. right. right. left. now left.
Qed.

Lemma addSort_same (query : IDataObject) :
  addSort a operation query = addSort b operation query.
Proof.
  unfold addSort. destruct (hasOptions (sort (queryUi operation))) eqn:Hopt;
    [|reflexivity].
  rewrite (getNodeParameter_same (querySortParamName operation)); [reflexivity|].
  apply agree. unfold readParameterNames. rewrite !in_app_iff, Hopt.
  right. right. right. right. left. now left.
Qed.

Lemma addFilters_same (dateParse : string -> option Z) (query : IDataObject) :
  addFilters dateParse a operation itemIndex query
  = addFilters dateParse b operation itemIndex query.
Proof.
  unfold addFilters. destruct (filters (queryUi operation)) as [|f rest] eqn:Hf;
    [reflexivity|].
  rewrite (getNodeParameter_same (queryFilterCollectionParamName operation));
    [reflexivity|].
  apply agree. unfold readParameterNames. rewrite !in_app_iff, Hf.
  right. right. right. right. right. left. now left.
Qed.

Lemma assembleBody_same :
  assembleBody a operation itemIndex = assembleBody b operation itemIndex.
Proof.
  unfold assembleBody.
  assert (Hbody : forall name,
             In name match bodyUi operation with
                     | None => []
                     | Some ui =>
                         match String.eqb (contentType ui) "multipart/form-data",
                               binaryProperty ui with
                         | true, Some (String _ _) => [bodyBinaryPropertyParamName operation]
                         | _, _ =>
                             (map (bodyFieldParamName operation) (requiredFields ui)
                              ++ match optionalFields ui with
                                 | [] => []
                                 | _ => [bodyOptionalCollectionParamName operation]
                                 end)%list
                         end
                     end ->
             lookup name (parameters a) = lookup name (parameters b)).
  { intros name Hin. apply agree. unfold readParameterNames.
    rewrite !in_app_iff. do 6 right. exact Hin. }
  destruct (bodyUi operation) as [ui|]; [|reflexivity].
  assert (Hjson : (forall name,
                     In name (map (bodyFieldParamName operation) (requiredFields ui)
                              ++ match optionalFields ui with
                                 | [] => []
                                 | _ => [bodyOptionalCollectionParamName operation]
                                 end)%list ->
                     lookup name (parameters a) = lookup name (parameters b)) ->
                  assembleJsonBody a operation itemIndex ui
                  = assembleJsonBody b operation itemIndex ui).
  { intros Hnames. unfold assembleJsonBody.
    rewrite (addRequiredFields_same (requiredFields ui)).
    - destruct (addRequiredFields b operation itemIndex (requiredFields ui) [])
        as [withRequired|e]; [|reflexivity].
      cbn [bind]. destruct (optionalFields ui) as [|f rest]; [reflexivity|].
      rewrite (getNodeParameter_same (bodyOptionalCollectionParamName operation));
        [reflexivity|].
      apply Hnames. rewrite in_app_iff. right. now left.
    - intros f Hf. apply Hnames. rewrite in_app_iff. left. now apply in_map. }
  destruct (String.eqb (contentType ui) "multipart/form-data"); [|now apply Hjson].
  destruct (binaryProperty ui) as [[|c r]|]; try (now apply Hjson).
  unfold assembleBinaryBody.
  rewrite (getNodeParameter_same (bodyBinaryPropertyParamName operation) None
             (Hbody _ (or_introl eq_refl))).
  now rewrite (proj1 same).
Qed.

End SameInputs.

(** X19: processing an item depends on its node parameters only through
    [resource], [operation] and the parameters listed for the selected
    operation: two items that agree on those (and on attachments and
    transport) are processed alike. *)
Theorem processItem_reads_only (dateParse : string -> option Z)
    (resources : list IResourceMeta) (fuel : nat) (a b : ItemContext) (itemIndex : nat) :
  sameInputs ["resource"; "operation"] a b ->
  (forall resourceKey operationName operation,
     lookup "resource" (parameters a) = Some resourceKey ->
     lookup "operation" (parameters a) = Some operationName ->
     getOperationMetadata resources (toStr resourceKey) (toStr operationName)
     = Ok operation ->
     sameInputs (readParameterNames operation) a b) ->
  processItem dateParse resources fuel a itemIndex
  = processItem dateParse resources fuel b itemIndex.
Proof.
  intros [Hbinary [Hhttp Hselect]] Hread. unfold processItem, getNodeParameter.
  rewrite <- (Hselect "resource") by (simpl; auto).
  rewrite <- (Hselect "operation") by (simpl; auto).
  rewrite <- Hhttp.
  destruct (lookup "resource" (parameters a)) as [resourceKey|] eqn:Hr; [|reflexivity].
  destruct (lookup "operation" (parameters a)) as [operationName|] eqn:Ho; [|reflexivity].
  cbn [bind].
  destruct (getOperationMetadata resources (toStr resourceKey) (toStr operationName))
    as [operation|e] eqn:Hop; [|reflexivity].
  cbn [bind].
  specialize (Hread resourceKey operationName operation eq_refl eq_refl Hop).
  assert (Hnames : forall name, In name (readParameterNames operation) ->
             lookup name (parameters a) = lookup name (parameters b))
    by apply Hread.
  rewrite (substitutePath_same a b operation itemIndex (pathUi operation)).
  2:{ intros f Hf. apply Hnames. unfold readParameterNames. rewrite !in_app_iff.
      left. now apply in_map. }
  destruct (substitutePath b operation itemIndex _ _) as [endpointPath|e]; [|reflexivity].
  cbn [bind].
  rewrite (addSimpleFields_same a b operation).
  2:{ intros f Hf. apply Hnames. unfold readParameterNames. rewrite !in_app_iff.
      right. left. now apply in_map. }
  destruct (addSimpleFields b operation _ []) as [q1|e]; [|reflexivity].
  cbn [bind].
  rewrite (addPaging_same a b operation itemIndex Hread).
  destruct (addPaging b operation itemIndex q1) as [paging|e]; [|reflexivity].
  cbn [bind].
  rewrite (addInclude_same a b operation Hread).
  destruct (addInclude b operation (fst paging)) as [q3|e]; [|reflexivity].
  cbn [bind].
  rewrite (addSort_same a b operation Hread).
  destruct (addSort b operation q3) as [q4|e]; [|reflexivity].
  cbn [bind].
  rewrite (addFilters_same a b operation itemIndex Hread).
  destruct (addFilters dateParse b operation itemIndex q4) as [query|e]; [|reflexivity].
  cbn [bind].
  rewrite (assembleBody_same a b operation itemIndex Hread).
  reflexivity.
Qed.

Lemma processItem_reads_only_witness :
  processItem Js.parseDateOnly Sample.catalogue 1 (Sample.listOrdersItem (VObj [])) 0
  = processItem Js.parseDateOnly Sample.catalogue 1 (Sample.strayItem (VObj [])) 0.
Proof.
  apply (processItem_reads_only Js.parseDateOnly Sample.catalogue 1
           (Sample.listOrdersItem (VObj [])) (Sample.strayItem (VObj [])) 0).
  - split; [reflexivity|]. split; [reflexivity|].
    intros name [<- | [<- | [] ] ]; reflexivity.
  - intros resourceKey operationName operation Hr Ho.
    injection Hr as <-. injection Ho as <-.
    intros Hop. injection Hop as <-.
    split; [reflexivity|]. split; [reflexivity|].
    intros name [].
Defined.

(* --------------------------------------------------------------------- *)
(** ** Requests of the fetch-all loop *)
(* --------------------------------------------------------------------- *)

Lemma findSimple_name (name : string) (fields : list IQuerySimpleField)
    (field : IQuerySimpleField) :
  findSimple name fields = Some field -> simpleName field = name.
Proof.
  unfold findSimple. intros Hfound. apply find_some in Hfound.
  now apply String.eqb_eq.
Qed.

(** X20: each request of the fetch-all loop is the prepared request with
    the page and limit entries of its query overwritten: [page] holds the
    current page, [limit] the page size, whatever the query held there
    before, and every other entry, the URL, the method and the body are
    those of the prepared request. *)
Theorem paginated_request_query (fields : list IQuerySimpleField)
    (pageField limitField : IQuerySimpleField) (requestOptions : IHttpRequestOptions)
    (page : nat) (pageSize : Js.Num) :
  findSimple "page" fields = Some pageField ->
  findSimple "limit" fields = Some limitField ->
  let sent := paginatedRequest requestOptions (simpleName pageField)
                (simpleName limitField) page pageSize in
  lookup "page" (qs sent) = Some (VNum (Js.ofNat page))
  /\ lookup "limit" (qs sent) = Some (VNum pageSize)
  /\ (forall key, key <> "page" -> key <> "limit" ->
        lookup key (qs sent) = lookup key (qs requestOptions))
  /\ url sent = url requestOptions
  /\ httpMethod sent = httpMethod requestOptions
  /\ body sent = body requestOptions.
Proof.
  intros Hpage Hlimit sent. subst sent.
  rewrite (findSimple_name _ _ _ Hpage), (findSimple_name _ _ _ Hlimit).
  unfold paginatedRequest. cbn [qs url httpMethod body].
  split; [now rewrite !lookup_setProp|].
  split; [now rewrite !lookup_setProp|].
  split; [|now repeat split].
  intros key Hp Hl. rewrite !lookup_setProp.
  destruct (String.eqb "limit" key) eqn:El;
    [apply String.eqb_eq in El; now subst key|].
  destruct (String.eqb "page" key) eqn:Ep;
    [apply String.eqb_eq in Ep; now subst key|].
  reflexivity.
Qed.

Lemma paginated_request_query_witness :
  lookup "limit"
    (qs (paginatedRequest
           {| url := "https://openapi.keycrm.app/v1/order"; httpMethod := "GET";
              qs := [("limit", VNum (Js.Dec 5 0)); ("include", VStr "buyer")];
              body := NoBody |}
           (simpleName Sample.pageField) (simpleName Sample.limitField) 3
           (Js.Dec 50 0)))
  = Some (VNum (Js.Dec 50 0)).
Proof.
  apply (proj1 (proj2 (paginated_request_query
                         (simple (queryUi Sample.pagedOrders))
                         Sample.pageField Sample.limitField
                         {| url := "https://openapi.keycrm.app/v1/order"; httpMethod := "GET";
                            qs := [("limit", VNum (Js.Dec 5 0)); ("include", VStr "buyer")];
                            body := NoBody |}
                         3 (Js.Dec 50 0) eq_refl eq_refl))).
Defined.
